(** * Tivaan Vision front end: a model of [static/js/app.js]

    The script wires every [.run-detect] button of a page to a pipeline that
    uploads the selected image to [/api/detect], presents the answer, derives a
    distance from the vehicle count, posts it to [/api/iot], refreshes the
    metrics thumbnails and re-enables the button.

    The development follows the script:
    - [Js]      the JavaScript values the script computes with: parsed JSON,
                truthiness for [||], nullishness for [??], property reads,
                number coercion, [Math.round] and [Math.max];
    - [Dom]     the page as a store of nodes that the script mutates, nodes
                being shared between the roles that resolve to them;
    - [Run]     a state-and-exception monad with the log of what can be
                observed of a run: requests, console output, assignments to
                [disabled], and the page at every [await];
    - [Net]     what a run receives from outside: the answers of the two
                endpoints, [URL.createObjectURL], [Date.now], page queries;
    - [App]     the functions of the script, in source order;
    - [Spec]    the vocabulary of the specification;
    - [Closed]  closed forms of the phases of a run, which the lemmas show
                equal to the monadic code;
    - [Example] a page with one control, for concrete runs;
    - [Rest]    [showImg] and the footprint of a binding;
    - [Theme]   the theme toggle;
    - then the lemmas and the properties.

    Limits of the model.  Numbers are exact rationals: the arithmetic of line
    192 is the real one, which is what binary64 computes when the count is a
    whole number of magnitude at most 2^51 (every intermediate value is then
    an integer below 2^53); the properties that pin a distance are stated for
    such counts.  Fields of an answer hold scalars only, a request always
    settles, and numeric strings have ASCII white space only.  [JSON.parse]
    is not implemented: a response body is given by what it parses to. *)

From Stdlib Require Import ZArith QArith Qround String Ascii List Bool Lia.
Import ListNotations.

Local Close Scope Q_scope.

Local Open Scope string_scope.
Local Open Scope list_scope.

(* ===================================================================== *)
(** ** JavaScript values *)
(* ===================================================================== *)

Module Js.

(** A Number.  Finite numbers are kept as exact rationals: a binary64 value
    is one of them, and the operations below give the real result, which is
    the binary64 result whenever that real result is itself a binary64 value
    (always so for integers of magnitude at most 2^53). *)
Inductive num : Type :=
| NaN
| PosInf
| NegInf
| Fin (q : Q).

(** The primitive values a field of a parsed answer can hold, together with
    [undefined], which is what reading a missing property gives.  A field
    holding a nested array or object is outside this model. *)
Inductive value : Type :=
| VUndef
| VNull
| VBool (b : bool)
| VNum (n : num)
| VStr (s : string).

(** What [JSON.parse] (or [Response.json]) can return. [props] lists the own
    properties of the parsed object, one entry per key. *)
Inductive json : Type :=
| JPrim (v : value)
| JArray (items : list value)
| JObject (props : list (string * value)).

Definition JNull : json := JPrim VNull.

Definition of_Z (z : Z) : num := Fin (inject_Z z).

(** ToBoolean *)
Definition num_truthy (n : num) : bool :=
  match n with
  | NaN => false
  | PosInf | NegInf => true
  | Fin q => negb (Qnum q =? 0)%Z
  end.

Definition truthy (v : value) : bool :=
  match v with
  | VUndef | VNull => false
  | VBool b => b
  | VNum n => num_truthy n
  | VStr s => negb (String.eqb s "")
  end.

Definition json_truthy (j : json) : bool :=
  match j with
  | JPrim v => truthy v
  | JArray _ | JObject _ => true
  end.

(** [v === null || v === undefined] *)
Definition nullish (v : value) : bool :=
  match v with
  | VUndef | VNull => true
  | _ => false
  end.

(** [v !== null] *)
Definition not_null (v : value) : bool :=
  match v with
  | VNull => false
  | _ => true
  end.

Fixpoint lookup (k : string) (props : list (string * value)) : value :=
  match props with
  | [] => VUndef
  | (k', v) :: rest => if String.eqb k k' then v else lookup k rest
  end.

(** [j.k] for the property names the script reads, none of which is defined
    on the prototypes of strings, numbers, booleans or arrays.  [None] is the
    TypeError raised when [j] is [null] or [undefined]. *)
Definition get_prop (j : json) (k : string) : option value :=
  match j with
  | JPrim VNull | JPrim VUndef => None
  | JPrim _ | JArray _ => Some VUndef
  | JObject props => Some (lookup k props)
  end.

(** *** StringToNumber, on byte strings with ASCII white space

    The result is the exact value of the literal; the source rounds it to
    the nearest binary64 value, which changes nothing for a whole number of
    magnitude at most 2^53. *)

Definition is_space (c : ascii) : bool :=
  let n := nat_of_ascii c in
  Nat.eqb n 32 || (Nat.leb 9 n && Nat.leb n 13).

Fixpoint drop_space (l : list ascii) : list ascii :=
  match l with
  | c :: rest => if is_space c then drop_space rest else l
  | [] => []
  end.

Definition trim (l : list ascii) : list ascii :=
  rev (drop_space (rev (drop_space l))).

Definition digit_of (base : Z) (c : ascii) : option Z :=
  let n := Z.of_nat (nat_of_ascii c) in
  let d :=
    if (48 <=? n)%Z && (n <=? 57)%Z then Some (n - 48)%Z
    else if (97 <=? n)%Z && (n <=? 102)%Z then Some (n - 87)%Z
    else if (65 <=? n)%Z && (n <=? 70)%Z then Some (n - 55)%Z
    else None in
  match d with
  | Some v => if (v <? base)%Z then Some v else None
  | None => None
  end.

(** The value of a string made of digits only. *)
Fixpoint digits_val (base acc : Z) (l : list ascii) : option Z :=
  match l with
  | [] => Some acc
  | c :: rest =>
      match digit_of base c with
      | Some d => digits_val base (acc * base + d)%Z rest
      | None => None
      end
  end.

Definition nonempty_digits (base : Z) (l : list ascii) : option Z :=
  match l with
  | [] => None
  | _ => digits_val base 0%Z l
  end.

(** Longest prefix of decimal digits, and what follows it. *)
Fixpoint span_digits (l : list ascii) : list ascii * list ascii :=
  match l with
  | c :: rest =>
      match digit_of 10 c with
      | Some _ => let (ds, r) := span_digits rest in (c :: ds, r)
      | None => ([], l)
      end
  | [] => ([], [])
  end.

Definition exponent_part (l : list ascii) : option Z :=
  match l with
  | [] => Some 0%Z
  | ("e" | "E")%char :: "+"%char :: ds => nonempty_digits 10 ds
  | ("e" | "E")%char :: "-"%char :: ds => option_map Z.opp (nonempty_digits 10 ds)
  | ("e" | "E")%char :: ds => nonempty_digits 10 ds
  | _ => None
  end.

Definition scale10 (m e : Z) : Q :=
  if (0 <=? e)%Z then inject_Z (m * 10 ^ e) else Qmake m (Z.to_pos (10 ^ (- e))).

Definition unsigned_decimal (l : list ascii) : option Q :=
  let (ip, r1) := span_digits l in
  let (fp, r2) :=
    match r1 with
    | "."%char :: r => span_digits r
    | _ => ([], r1)
    end in
  match ip ++ fp with
  | [] => None
  | ds =>
      match digits_val 10 0%Z ds, exponent_part r2 with
      | Some m, Some e => Some (scale10 m (e - Z.of_nat (length fp)))
      | _, _ => None
      end
  end.

Definition infinity_text : list ascii := list_ascii_of_string "Infinity".

Definition same_text (a b : list ascii) : bool :=
  String.eqb (string_of_list_ascii a) (string_of_list_ascii b).

Definition unsigned_literal (l : list ascii) : num :=
  if same_text l infinity_text then PosInf
  else match unsigned_decimal l with
       | Some q => Fin q
       | None => NaN
       end.

Definition num_neg (n : num) : num :=
  match n with
  | NaN => NaN
  | PosInf => NegInf
  | NegInf => PosInf
  | Fin q => Fin (- q)%Q
  end.

Definition radix_literal (base : Z) (ds : list ascii) : num :=
  match nonempty_digits base ds with
  | Some v => of_Z v
  | None => NaN
  end.

Definition string_to_number (s : string) : num :=
  match trim (list_ascii_of_string s) with
  | [] => of_Z 0
  | "0"%char :: ("x" | "X")%char :: ds => radix_literal 16 ds
  | "0"%char :: ("o" | "O")%char :: ds => radix_literal 8 ds
  | "0"%char :: ("b" | "B")%char :: ds => radix_literal 2 ds
  | "+"%char :: l => unsigned_literal l
  | "-"%char :: l => num_neg (unsigned_literal l)
  | l => unsigned_literal l
  end.

(** ToNumber *)
Definition to_number (v : value) : num :=
  match v with
  | VUndef => NaN
  | VNull => of_Z 0
  | VBool true => of_Z 1
  | VBool false => of_Z 0
  | VNum n => n
  | VStr s => string_to_number s
  end.

(** *** Arithmetic on Numbers

    [num_mul] and [num_sub] are the real product and difference.  They do not
    round and do not overflow. *)

Definition inf_times (positive : bool) (q : Q) : num :=
  match Qcompare q 0%Q with
  | Eq => NaN
  | Gt => if positive then PosInf else NegInf
  | Lt => if positive then NegInf else PosInf
  end.

Definition num_mul (a b : num) : num :=
  match a, b with
  | NaN, _ | _, NaN => NaN
  | Fin x, Fin y => Fin (x * y)%Q
  | PosInf, Fin y | Fin y, PosInf => inf_times true y
  | NegInf, Fin y | Fin y, NegInf => inf_times false y
  | PosInf, PosInf | NegInf, NegInf => PosInf
  | PosInf, NegInf | NegInf, PosInf => NegInf
  end.

Definition num_sub (a b : num) : num :=
  match a, b with
  | NaN, _ | _, NaN => NaN
  | Fin x, Fin y => Fin (x - y)%Q
  | PosInf, PosInf | NegInf, NegInf => NaN
  | PosInf, _ | Fin _, NegInf => PosInf
  | NegInf, _ | Fin _, PosInf => NegInf
  end.

(** [Math.round]: the nearest integer, a tie going towards plus infinity. *)
Definition Math_round (a : num) : num :=
  match a with
  | Fin q => of_Z (Qfloor (q + (1 # 2))%Q)
  | other => other
  end.

Definition Math_max (a b : num) : num :=
  match a, b with
  | NaN, _ | _, NaN => NaN
  | PosInf, _ | _, PosInf => PosInf
  | NegInf, x | x, NegInf => x
  | Fin x, Fin y => if Qle_bool x y then Fin y else Fin x
  end.

End Js.

(* ===================================================================== *)
(** ** The page *)
(* ===================================================================== *)

Module Dom.
Import Js.

(** A DOM node.  [StatusOf b] is the [div] that [attachDetectHandlers] creates
    after button [b] when the page has no status element for it. *)
Inductive node : Type :=
| Node (id : nat)
| StatusOf (b : node).

Definition node_eq_dec (a b : node) : {a = b} + {a <> b}.
Proof. decide equality. apply Nat.eq_dec. Defined.

(** A [File] of a file input, by name. *)
Definition file : Type := string.

(** Strings that the script builds are kept as the pieces they are
    concatenated from: literal text, or the string form of a value (a
    template hole, or a value assigned to a string attribute). *)
Inductive piece : Type :=
| Lit (s : string)
| Shown (v : value).

Definition text : Type := list piece.

(** What the click listener of a button closes over. *)
Record binding : Type := {
  btn : node;
  fileInput : option node;
  statusEl : node;
  previewEl : option node;
  annotatedEl : option node;
  metaEl : option node;
  iotEl : option node
}.

Record element : Type := {
  innerHTML : text;
  className : string;
  src : option text;             (* the src attribute, None when absent *)
  display : string;              (* style.display *)
  disabled : bool;
  tvAttached : option string;    (* dataset.tvAttached *)
  files : option (list file);    (* null unless a file input *)
  listeners : list binding;      (* click listeners, in registration order *)
  formControl : bool             (* a button or an input: the script never
                                    changes what kind of element a node is *)
}.

Definition blank : element :=
  {| innerHTML := []; className := ""; src := None; display := "";
     disabled := false; tvAttached := None; files := None; listeners := [];
     formControl := false |}.

Definition with_innerHTML (h : text) (e : element) : element :=
  {| innerHTML := h; className := className e; src := src e;
     display := display e; disabled := disabled e;
     tvAttached := tvAttached e; files := files e; listeners := listeners e;
     formControl := formControl e |}.

Definition with_className (c : string) (e : element) : element :=
  {| innerHTML := innerHTML e; className := c; src := src e;
     display := display e; disabled := disabled e;
     tvAttached := tvAttached e; files := files e; listeners := listeners e;
     formControl := formControl e |}.

Definition with_src (s : option text) (e : element) : element :=
  {| innerHTML := innerHTML e; className := className e; src := s;
     display := display e; disabled := disabled e;
     tvAttached := tvAttached e; files := files e; listeners := listeners e;
     formControl := formControl e |}.

Definition with_display (d : string) (e : element) : element :=
  {| innerHTML := innerHTML e; className := className e; src := src e;
     display := d; disabled := disabled e;
     tvAttached := tvAttached e; files := files e; listeners := listeners e;
     formControl := formControl e |}.

Definition with_disabled (d : bool) (e : element) : element :=
  {| innerHTML := innerHTML e; className := className e; src := src e;
     display := display e; disabled := d;
     tvAttached := tvAttached e; files := files e; listeners := listeners e;
     formControl := formControl e |}.

Definition with_tvAttached (a : option string) (e : element) : element :=
  {| innerHTML := innerHTML e; className := className e; src := src e;
     display := display e; disabled := disabled e;
     tvAttached := a; files := files e; listeners := listeners e;
     formControl := formControl e |}.

Definition with_listeners (l : list binding) (e : element) : element :=
  {| innerHTML := innerHTML e; className := className e; src := src e;
     display := display e; disabled := disabled e;
     tvAttached := tvAttached e; files := files e; listeners := l;
     formControl := formControl e |}.

(** The document: every node and its current state. *)
Definition store : Type := node -> element.

Definition update (n : node) (f : element -> element) (d : store) : store :=
  fun m => if node_eq_dec m n then f (d m) else d m.

(** *** Question marks in a text: [s.split("?")[0]] *)

Definition question : ascii := "?"%char.

Fixpoint string_before (s : string) : string :=
  match s with
  | EmptyString => EmptyString
  | String c rest =>
      if Ascii.eqb c question then EmptyString else String c (string_before rest)
  end.

Fixpoint string_marks (s : string) : nat :=
  match s with
  | EmptyString => 0
  | String c rest =>
      (if Ascii.eqb c question then 1 else 0) + string_marks rest
  end.

(** The characters of a piece, where the model spells them out.  The string
    form of a number, a boolean, [null] or [undefined] has no question mark. *)
Definition spelled (p : piece) : string :=
  match p with
  | Lit s | Shown (VStr s) => s
  | Shown _ => ""
  end.

Definition marks (t : text) : nat :=
  fold_right (fun p n => string_marks (spelled p) + n) 0 t.

(** A literal piece, none when it would be empty. *)
Definition lit (s : string) : text :=
  match s with
  | EmptyString => []
  | _ => [Lit s]
  end.

(** [t.split("?")[0]]: what stands before the first question mark. *)
Fixpoint split_first (t : text) : text :=
  match t with
  | [] => []
  | p :: rest =>
      if Nat.eqb (string_marks (spelled p)) 0 then p :: split_first rest
      else lit (string_before (spelled p))
  end.

End Dom.

(* ===================================================================== *)
(** ** Effects: state, exceptions and the log *)
(* ===================================================================== *)

Module Run.
Import Js Dom.

Inductive exn : Type :=
| TypeError          (* a property read on null or undefined *)
| SyntaxError        (* JSON.parse / Response.json on a body that is not JSON *)
| FetchFailed        (* fetch rejected: the request did not reach the server *)
| BodyFailed         (* reading the response body failed *)
| ObjectUrlFailed.   (* URL.createObjectURL threw *)

Inductive level : Type := Debug | Warn | Error.

Inductive request : Type :=
| Detect (f : file)          (* POST /api/detect, multipart field `file` *)
| Iot (distance : num).      (* POST /api/iot, body { distance } *)

(** What can be observed of a run, in order.  [Disabled n v] is an assignment
    to [n.disabled]; [Suspended d] marks an [await]: the handler yields with
    the page in state [d]. *)
Inductive event : Type :=
| Prevented
| Sent (r : request)
| Console (l : level) (tag : string) (e : option exn)
| Disabled (n : node) (v : bool)
| Suspended (d : store).

Record state : Type := { dom : store; log : list event }.

Inductive outcome (A : Type) : Type :=
| Done (a : A)
| Thrown (e : exn).
Arguments Done {A} a.
Arguments Thrown {A} e.

Definition M (A : Type) : Type := state -> outcome A * state.

Definition ret {A} (a : A) : M A := fun s => (Done a, s).

Definition bind {A B} (m : M A) (k : A -> M B) : M B :=
  fun s =>
    match m s with
    | (Done a, s') => k a s'
    | (Thrown e, s') => (Thrown e, s')
    end.

Definition throw {A} (e : exn) : M A := fun s => (Thrown e, s).

(** [try { m } catch (e) { h e }]: the effects of [m] up to the throw stay. *)
Definition try_catch {A} (m : M A) (h : exn -> M A) : M A :=
  fun s =>
    match m s with
    | (Done a, s') => (Done a, s')
    | (Thrown e, s') => h e s'
    end.

Definition get_dom : M store := fun s => (Done (dom s), s).

Definition modify (f : store -> store) : M unit :=
  fun s => (Done tt, {| dom := f (dom s); log := log s |}).

Definition emit (e : event) : M unit :=
  fun s => (Done tt, {| dom := dom s; log := log s ++ [e] |}).

Definition suspend : M unit :=
  fun s => (Done tt, {| dom := dom s; log := log s ++ [Suspended (dom s)] |}).

Definition console (l : level) (tag : string) (e : option exn) : M unit :=
  emit (Console l tag e).

Definition set (n : node) (f : element -> element) : M unit :=
  modify (update n f).

(** [n.disabled = v] *)
Definition setDisabled (n : node) (v : bool) : M unit :=
  fun s => (Done tt, {| dom := update n (with_disabled v) (dom s);
                        log := log s ++ [Disabled n v] |}).

Definition start (d : store) : state := {| dom := d; log := [] |}.

End Run.

Declare Scope run_scope.
Delimit Scope run_scope with run.
Notation "x <- m ;; k" := (Run.bind m (fun x => k))
  (at level 100, m at next level, right associativity) : run_scope.
Notation "m ;; k" := (Run.bind m (fun _ => k))
  (at level 100, right associativity) : run_scope.

(* ===================================================================== *)
(** ** The two endpoints and the rest of the environment *)
(* ===================================================================== *)

Module Net.
Import Js Dom Run.

(** A response body, by what [JSON.parse] makes of its text. *)
Inductive payload : Type :=
| NotJson
| Json (j : json).

Inductive body : Type :=
| Unreadable                 (* reading the stream fails *)
| Readable (p : payload).

(** How a request settles.  The script sets no timeout: a request that never
    settles leaves the run at its [await] for good, which no value of this
    type stands for. *)
Inductive fetched : Type :=
| Rejected                   (* transport failure: the promise rejects *)
| Response (status : Z) (b : body).

(** [Response.ok] *)
Definition ok (status : Z) : bool := (200 <=? status)%Z && (status <=? 299)%Z.

(** Everything one run of the click handler receives from outside. *)
Record world : Type := {
  object_url : option string;  (* URL.createObjectURL(f), None when it throws *)
  detect : fetched;            (* what POST /api/detect comes back with *)
  iot : fetched;               (* what POST /api/iot comes back with *)
  now : Z;                     (* Date.now() *)
  thumbs : list node           (* the nodes matching .metrics-thumb *)
}.

Local Open Scope run_scope.

(** [await fetch(...)] *)
Definition fetch (r : request) (answer : fetched) : M (Z * body) :=
  emit (Sent r) ;;
  suspend ;;
  match answer with
  | Rejected => throw FetchFailed
  | Response status b => ret (status, b)
  end.

(** [await resp.text()] *)
Definition text_of (b : body) : M payload :=
  suspend ;;
  match b with
  | Unreadable => throw BodyFailed
  | Readable p => ret p
  end.

Definition JSON_parse (p : payload) : M json :=
  match p with
  | NotJson => throw SyntaxError
  | Json j => ret j
  end.

(** [await res.json()] *)
Definition json_of (b : body) : M json :=
  p <- text_of b ;; JSON_parse p.

Definition createObjectURL (w : world) : M string :=
  match object_url w with
  | Some u => ret u
  | None => throw ObjectUrlFailed
  end.

(** An expression that reads properties throws on [null] and [undefined]. *)
Definition orThrow {A} (o : option A) : M A :=
  match o with
  | Some v => ret v
  | None => throw TypeError
  end.

Definition read (j : json) (k : string) : M value := orThrow (get_prop j k).

Fixpoint forEach {A} (l : list A) (f : A -> M unit) : M unit :=
  match l with
  | [] => ret tt
  | x :: rest => f x ;; forEach rest f
  end.

End Net.

(* ===================================================================== *)
(** ** The script *)
(* ===================================================================== *)

Module App.
Import Js Dom Run Net.
Local Open Scope run_scope.

Local Notation "x <~ o ; k" :=
  (match o with Some x => k | None => None end)
  (at level 100, o at next level, right associativity, only parsing).

(** *** utility UI helpers *)

Definition setStatus (el : option node) (html : text) (klass : string) : M unit :=
  match el with
  | None => ret tt
  | Some n =>
      set n (with_innerHTML html) ;;
      set n (with_className (if String.eqb klass "" then "" else klass))
  end.

(** *** IoT simulation call (POST) *)

Definition callIot (w : world) (distanceCm : num) : M json :=
  try_catch
    (res <- fetch (Iot distanceCm) (iot w) ;;
     if negb (ok (fst res)) then
       console Warn "[iot] non-ok" None ;;
       ret JNull
     else json_of (snd res))
    (fun e =>
       console Error "[iot] error" (Some e) ;;
       ret JNull).

(** *** auto-update metrics images (cache-busted) *)

(** The body of the [forEach] of line 78. *)
Definition refreshOne (t : Z) (img : node) : M unit :=
  d <- get_dom ;;
  match src (d img) with
  | None => throw TypeError              (* getAttribute gave null *)
  | Some s =>
      let base := split_first s in
      set img (with_src (Some (base ++ [Lit "?t="; Shown (VNum (of_Z t))])))
  end.

Definition refreshMetricsThumbnails (w : world) : M unit :=
  let imgs := thumbs w in
  let t := now w in
  forEach imgs (refreshOne t).

(** *** the click handler *)

(** [fileInput.files[0]], when the check of line 119 lets the run go on. *)
Definition chosen (d : store) (fileInput : option node) : option file :=
  match fileInput with
  | None => None
  | Some n =>
      match files (d n) with
      | None | Some [] => None
      | Some (f :: _) => Some f
      end
  end.

Definition showPreview (w : world) (b : binding) : M unit :=
  match previewEl b with
  | None => ret tt
  | Some p =>
      try_catch
        (u <- createObjectURL w ;;
         set p (with_src (Some [Lit u])) ;;
         set p (with_display "block"))
        (fun e => console Warn "preview fail" (Some e))
  end.

(** Lines 143-168.  [None] is the handler returning from inside the [try]. *)
Definition sendToBackend (w : world) (b : binding) (f : file) : M (option json) :=
  try_catch
    (resp <- fetch (Detect f) (detect w) ;;
     if negb (ok (fst resp)) then
       (* resp.text().catch(() => ""): the text is only logged *)
       _ <- try_catch (text_of (snd resp)) (fun _ => ret NotJson) ;;
       setStatus (Some (statusEl b))
         [Lit "<span style='color:red'>Server error "; Shown (VNum (of_Z (fst resp)));
          Lit "</span>"] "error" ;;
       console Error "[detect] server error" None ;;
       setDisabled (btn b) false ;;
       ret None
     else
       txt <- text_of (snd resp) ;;
       try_catch
         (json <- JSON_parse txt ;; ret (Some json))
         (fun e =>
            console Error "[detect] Response not JSON:" (Some e) ;;
            setStatus (Some (statusEl b))
              [Lit "<span style='color:red'>Invalid server response — check backend logs</span>"]
              "error" ;;
            setDisabled (btn b) false ;;
            ret None))
    (fun e =>
       console Error "[detect] fetch error" (Some e) ;;
       setStatus (Some (statusEl b))
         [Lit "<span style='color:red'>Network error — backend may be down</span>"]
         "error" ;;
       setDisabled (btn b) false ;;
       ret None).

(** [json.output_image || json.annotated || json.image || null].  [None] is
    the TypeError of reading a property of [null]. *)
Definition outImg (json : Js.json) : option value :=
  a <~ get_prop json "output_image" ;
  if truthy a then Some a else
  b <~ get_prop json "annotated" ;
  if truthy b then Some b else
  c <~ get_prop json "image" ;
  if truthy c then Some c else Some VNull.

(** [json.vehicle_count ?? json.count ?? json.vehicles ?? null] *)
Definition count (json : Js.json) : option value :=
  a <~ get_prop json "vehicle_count" ;
  if negb (nullish a) then Some a else
  b <~ get_prop json "count" ;
  if negb (nullish b) then Some b else
  c <~ get_prop json "vehicles" ;
  if negb (nullish c) then Some c else Some VNull.

(** [json.risk_level || json.risk || null] *)
Definition risk (json : Js.json) : option value :=
  a <~ get_prop json "risk_level" ;
  if truthy a then Some a else
  b <~ get_prop json "risk" ;
  if truthy b then Some b else Some VNull.

(** [v ?? "N/A"] *)
Definition orNA (v : value) : value :=
  if nullish v then VStr "N/A" else v.

(** [Math.max(5, Math.round(140 - count*2.0))] *)
Definition distance (count : value) : num :=
  Math_max (of_Z 5)
    (Math_round (num_sub (of_Z 140) (num_mul (to_number count) (of_Z 2)))).

Definition iotReport (iotResp : json) : M text :=
  d <- read iotResp "distance" ;;
  a <- read iotResp "alert" ;;
  r <- read iotResp "recommended_action" ;;
  ret [Lit "<b>Distance:</b> "; Shown d; Lit " cm &nbsp; <b>Alert:</b> "; Shown a;
       Lit " &nbsp; <b>Action:</b> "; Shown r].

(** Lines 170-204. *)
Definition present (w : world) (b : binding) (json : Js.json) : M unit :=
  console Debug "[detect] json:" None ;;
  outImg <- orThrow (outImg json) ;;
  count <- orThrow (count json) ;;
  risk <- orThrow (risk json) ;;
  setStatus (Some (statusEl b)) [Lit "<b>Detection completed</b>"] "ok" ;;
  match metaEl b with
  | Some m =>
      set m (with_innerHTML
               [Lit "<b>Vehicles:</b> "; Shown (orNA count);
                Lit " &nbsp;&nbsp; <b>Risk:</b> "; Shown (orNA risk)])
  | None => ret tt
  end ;;
  match annotatedEl b with
  | Some a =>
      if truthy outImg then
        set a (with_src (Some [Shown outImg])) ;;
        set a (with_display "block")
      else set a (with_display "none")
  | None => ret tt
  end ;;
  match (if not_null count then iotEl b else None) with
  | Some i =>
      iotResp <- callIot w (distance count) ;;
      if json_truthy iotResp then
        html <- iotReport iotResp ;;
        set i (with_innerHTML html)
      else set i (with_innerHTML [Lit "IoT sim failed — see console."])
  | None => ret tt
  end ;;
  try_catch (refreshMetricsThumbnails w) (fun _ => ret tt) ;;
  setDisabled (btn b) false.

(** The listener registered at line 114. *)
Definition onClick (w : world) (b : binding) : M unit :=
  emit Prevented ;;
  setStatus (Some (statusEl b)) [Lit "<em>Processing…</em>"] "processing" ;;
  d <- get_dom ;;
  match chosen d (fileInput b) with
  | None =>
      setStatus (Some (statusEl b))
        [Lit "<span style='color:orange'>Please choose an image first</span>"]
        "warning"
  | Some f =>
      showPreview w b ;;
      setDisabled (btn b) true ;;
      json <- sendToBackend w b f ;;
      match json with
      | None => ret tt
      | Some json => present w b json
      end
  end.

(** One run of the handler on page [d]: how it ends, and the page and the
    log it leaves. *)
Definition run (w : world) (b : binding) (d : store) : outcome unit * state :=
  onClick w b (start d).

(** *** find all run-detect buttons and attach behavior *)

Inductive selector : Type :=
| AnyForm | Card
| InputTypeFile | InputNameFile | InputNameImage
| TvStatus | IdStatus
| TvPreview | IdPreview
| TvAnnotated | IdResultImg
| TvMeta | IdMeta
| TvIot | IdIotOutput.

(** The structure of the page, which the script only queries.  The answers
    may depend on the current document. *)
Record page : Type := {
  body : node;
  runButtons : store -> list node;                        (* qsa(".run-detect") *)
  closest : store -> node -> selector -> option node;
  querySelector : store -> node -> selector -> option node
}.

Definition orElse {A} (a b : option A) : option A :=
  match a with
  | Some x => Some x
  | None => b
  end.

Definition orNode (a : option node) (b : node) : node :=
  match a with
  | Some x => x
  | None => b
  end.

Definition isAttached (e : element) : bool :=
  match tvAttached e with
  | Some s => String.eqb s "1"
  | None => false
  end.

Definition attachOne (p : page) (btn : node) : M unit :=
  d <- get_dom ;;
  if isAttached (d btn) then ret tt else
  set btn (with_tvAttached (Some "1")) ;;
  d <- get_dom ;;
  let container := orNode (orElse (closest p d btn AnyForm) (closest p d btn Card)) (body p) in
  let fileInput :=
    orElse (querySelector p d container InputTypeFile)
      (orElse (querySelector p d container InputNameFile)
         (querySelector p d container InputNameImage)) in
  statusEl <-
    match orElse (querySelector p d container TvStatus)
            (querySelector p d container IdStatus) with
    | Some s => ret s
    | None =>
        set (StatusOf btn) (fun _ => with_className "tv-status" blank) ;;
        ret (StatusOf btn)
    end ;;
  d <- get_dom ;;
  let q a b := orElse (querySelector p d container a) (querySelector p d container b) in
  let listener :=
    {| Dom.btn := btn; Dom.fileInput := fileInput; Dom.statusEl := statusEl;
       Dom.previewEl := q TvPreview IdPreview;
       Dom.annotatedEl := q TvAnnotated IdResultImg;
       Dom.metaEl := q TvMeta IdMeta;
       Dom.iotEl := q TvIot IdIotOutput |} in
  set btn (fun e => with_listeners (listeners e ++ [listener]) e).

Definition attachDetectHandlers (p : page) : M unit :=
  d <- get_dom ;;
  let runButtons := runButtons p d in
  match runButtons with
  | [] => console Warn "[Tivaan] No .run-detect buttons found on page" None
  | _ => ret tt
  end ;;
  forEach runButtons (attachOne p).

(** The page after one call of [attachDetectHandlers]. *)
Definition attached (p : page) (d : store) : store :=
  dom (snd (attachDetectHandlers p (start d))).

(** The listeners a click on [n] starts.  The script binds any element of
    class [run-detect].  A form control that is disabled receives no click;
    on an element of any other kind [disabled] is a plain property of the
    object and stops nothing. *)
Definition click (d : store) (n : node) : list binding :=
  if disabled (d n) && formControl (d n) then [] else listeners (d n).

End App.

(* ===================================================================== *)
(** ** The specification's vocabulary *)
(* ===================================================================== *)

Module Spec.
Import Js Dom Run Net App.

(** Alias lists, in the order the specification gives them. *)
Definition imageAliases : list string := ["output_image"; "annotated"; "image"].
Definition countAliases : list string := ["vehicle_count"; "count"; "vehicles"].
Definition riskAliases : list string := ["risk_level"; "risk"].

(** A resolver in the specification's words: try the aliases in order, the
    first one that [accepted] wins, nothing found is [null]. *)
Fixpoint firstWhere (accepted : value -> bool) (aliases : list string)
    (props : list (string * value)) : value :=
  match aliases with
  | [] => VNull
  | k :: rest =>
      if accepted (lookup k props) then lookup k props
      else firstWhere accepted rest props
  end.

(** Three readings of "the alias is present". *)
Definition hasValue (v : value) : bool := negb (nullish v).

Definition hasKey (k : string) (props : list (string * value)) : bool :=
  existsb (fun kv => String.eqb k (fst kv)) props.

Fixpoint firstKey (aliases : list string) (props : list (string * value)) : value :=
  match aliases with
  | [] => VNull
  | k :: rest => if hasKey k props then lookup k props else firstKey rest props
  end.

(** [round]: the nearest integer, halves upwards. *)
Definition round (q : Q) : Z := Qfloor (q + (1 # 2))%Q.

(** [max(5, round(140 - vehicleCount * 2.0))] *)
Definition derivedDistance (vehicleCount : Q) : Z :=
  Z.max 5 (round (140 - vehicleCount * 2)%Q).

(** The whole counts on which line 192 involves no rounding of binary64
    arithmetic: [k], [k * 2] and [140 - k * 2] are integers of magnitude
    below 2^53, each of which is a binary64 value. *)
Definition wholeCount (k : Z) : Prop := (Z.abs k <= 2 ^ 51)%Z.

(** "The portion of the current src before any [?]": [old] has no question
    mark and [base] is all of it, or [base] is what stands in [old] before
    its first question mark. *)
Definition beforeQuery (base old : text) : Prop :=
  (marks old = 0%nat /\ base = old) \/
  (exists pre p post head tail,
      old = pre ++ p :: post /\ marks pre = 0%nat /\
      spelled p = (head ++ String question tail)%string /\
      string_marks head = 0%nat /\
      base = pre ++ lit head).

(** The three failure classes of a client. *)
Inductive failureClass : Type :=
| TransportFailure
| NonSuccessStatus
| BodyNotParseable.

(** The class of an answer that is a failure.  A body that cannot be read
    counts as a transport failure. *)
Definition failureOf (a : fetched) : option failureClass :=
  match a with
  | Rejected => Some TransportFailure
  | Response status b =>
      if ok status then
        match b with
        | Unreadable => Some TransportFailure
        | Readable NotJson => Some BodyNotParseable
        | Readable (Json _) => None
        end
      else Some NonSuccessStatus
  end.

(** A client tells the failure classes apart when answers of different
    classes never give it the same outcome. *)
Definition distinguishes {A} (outcomeOf : fetched -> A) : Prop :=
  forall a1 a2 c1 c2,
    failureOf a1 = Some c1 -> failureOf a2 = Some c2 -> c1 <> c2 ->
    outcomeOf a1 <> outcomeOf a2.

End Spec.

(* ===================================================================== *)
(** ** Closed forms of the phases of a run *)
(* ===================================================================== *)

Module Closed.
Import Js Dom Run Net App.

(** The page after [setStatus(el, html, klass)] with a non-empty class. *)
Definition status (n : node) (html : text) (klass : string) (d : store) : store :=
  update n (with_className klass) (update n (with_innerHTML html) d).

Definition processing (b : binding) : store -> store :=
  status (statusEl b) [Lit "<em>Processing…</em>"] "processing".

Definition warned (b : binding) (d : store) : store :=
  status (statusEl b)
    [Lit "<span style='color:orange'>Please choose an image first</span>"]
    "warning" (processing b d).

Definition previewed (w : world) (b : binding) (d : store) : store :=
  match previewEl b, object_url w with
  | Some p, Some u => update p (with_display "block") (update p (with_src (Some [Lit u])) d)
  | _, _ => d
  end.

Definition previewLog (w : world) (b : binding) : list event :=
  match previewEl b, object_url w with
  | Some _, None => [Console Warn "preview fail" (Some ObjectUrlFailed)]
  | _, _ => []
  end.

(** The page when the detection request leaves: line 145. *)
Definition armed (w : world) (b : binding) (d : store) : store :=
  update (btn b) (with_disabled true) (previewed w b (processing b d)).

Definition enabled (b : binding) : store -> store :=
  update (btn b) (with_disabled false).

(** How the detection call ends. *)
Inductive detection : Type :=
| NetworkError (e : exn)
| ServerError (status : Z)
| InvalidResponse
| Parsed (j : json).

Definition classify (a : fetched) : detection :=
  match a with
  | Rejected => NetworkError FetchFailed
  | Response st bd =>
      if ok st then
        match bd with
        | Unreadable => NetworkError BodyFailed
        | Readable NotJson => InvalidResponse
        | Readable (Json j) => Parsed j
        end
      else ServerError st
  end.

Definition parsed (c : detection) : option json :=
  match c with
  | Parsed j => Some j
  | _ => None
  end.

Definition errorText (c : detection) : text :=
  match c with
  | NetworkError _ =>
      [Lit "<span style='color:red'>Network error — backend may be down</span>"]
  | ServerError st =>
      [Lit "<span style='color:red'>Server error "; Shown (VNum (of_Z st)); Lit "</span>"]
  | InvalidResponse =>
      [Lit "<span style='color:red'>Invalid server response — check backend logs</span>"]
  | Parsed _ => []
  end.

Definition afterDetect (b : binding) (c : detection) (d : store) : store :=
  match c with
  | Parsed _ => d
  | _ => enabled b (status (statusEl b) (errorText c) "error" d)
  end.

(** What the detection call logs after the request and its first [await]. *)
Definition detectDiag (b : binding) (a : fetched) (d : store) : list event :=
  match a with
  | Rejected =>
      [Console Error "[detect] fetch error" (Some FetchFailed); Disabled (btn b) false]
  | Response st bd =>
      Suspended d ::
      (if ok st then
         match bd with
         | Unreadable =>
             [Console Error "[detect] fetch error" (Some BodyFailed);
              Disabled (btn b) false]
         | Readable NotJson =>
             [Console Error "[detect] Response not JSON:" (Some SyntaxError);
              Disabled (btn b) false]
         | Readable (Json _) => []
         end
       else [Console Error "[detect] server error" None; Disabled (btn b) false])
  end.

(** What [callIot] returns and logs. *)
Definition iotAnswer (a : fetched) : json :=
  match a with
  | Rejected => JNull
  | Response st bd =>
      if ok st then
        match bd with
        | Readable (Json j) => j
        | _ => JNull
        end
      else JNull
  end.

Definition iotDiag (a : fetched) (d : store) : list event :=
  match a with
  | Rejected => [Console Error "[iot] error" (Some FetchFailed)]
  | Response st bd =>
      if ok st then
        Suspended d ::
        match bd with
        | Unreadable => [Console Error "[iot] error" (Some BodyFailed)]
        | Readable NotJson => [Console Error "[iot] error" (Some SyntaxError)]
        | Readable (Json _) => []
        end
      else [Console Warn "[iot] non-ok" None]
  end.

Definition prop (j : json) (k : string) : value :=
  match get_prop j k with
  | Some v => v
  | None => VUndef
  end.

Definition failedText : text := [Lit "IoT sim failed — see console."].

Definition iotText (iotResp : json) : text :=
  if json_truthy iotResp then
    [Lit "<b>Distance:</b> "; Shown (prop iotResp "distance");
     Lit " cm &nbsp; <b>Alert:</b> "; Shown (prop iotResp "alert");
     Lit " &nbsp; <b>Action:</b> "; Shown (prop iotResp "recommended_action")]
  else failedText.

Definition metaText (count risk : value) : text :=
  [Lit "<b>Vehicles:</b> "; Shown (orNA count);
   Lit " &nbsp;&nbsp; <b>Risk:</b> "; Shown (orNA risk)].

(** The page once the detection result is shown: lines 177-188. *)
Definition shown (b : binding) (outImg count risk : value) (d : store) : store :=
  let d1 := status (statusEl b) [Lit "<b>Detection completed</b>"] "ok" d in
  let d2 :=
    match metaEl b with
    | Some m => update m (with_innerHTML (metaText count risk)) d1
    | None => d1
    end in
  match annotatedEl b with
  | Some a =>
      if truthy outImg then
        update a (with_display "block") (update a (with_src (Some [Shown outImg])) d2)
      else update a (with_display "none") d2
  | None => d2
  end.

(** The slot the sensor step writes to, when the step runs. *)
Definition sensorSlot (b : binding) (count : value) : option node :=
  if not_null count then iotEl b else None.

Definition sensed (w : world) (b : binding) (count : value) (d : store) : store :=
  match sensorSlot b count with
  | Some i => update i (with_innerHTML (iotText (iotAnswer (iot w)))) d
  | None => d
  end.

Definition sensorLog (w : world) (b : binding) (count : value) (d : store) : list event :=
  match sensorSlot b count with
  | Some _ => Sent (Iot (distance count)) :: Suspended d :: iotDiag (iot w) d
  | None => []
  end.

Definition stamped (t : Z) (s : text) : text :=
  split_first s ++ [Lit "?t="; Shown (VNum (of_Z t))].

(** The page after the thumbnails loop, which stops at the first node
    without a [src]. *)
Fixpoint refreshed (t : Z) (imgs : list node) (d : store) : store :=
  match imgs with
  | [] => d
  | img :: rest =>
      match src (d img) with
      | None => d
      | Some s => refreshed t rest (update img (with_src (Some (stamped t s))) d)
      end
  end.

(** The log of a run up to the end of the detection call. *)
Definition detectLog (w : world) (b : binding) (f : file) (d : store) : list event :=
  Prevented :: previewLog w b ++
  Disabled (btn b) true ::
  Sent (Detect f) :: Suspended (armed w b d) :: detectDiag b (detect w) (armed w b d).

(** The suspension points of a log. *)
Fixpoint suspensions (l : list event) : list store :=
  match l with
  | [] => []
  | Suspended d :: rest => d :: suspensions rest
  | _ :: rest => suspensions rest
  end.

(** The requests of a log. *)
Fixpoint requests (l : list event) : list request :=
  match l with
  | [] => []
  | Sent r :: rest => r :: requests rest
  | _ :: rest => requests rest
  end.

(** The answers on which a property read throws. *)
Definition isNullish (j : json) : bool :=
  match j with
  | JPrim v => nullish v
  | _ => false
  end.

(** *** Attachment *)

(** No button carries the marker or a listener yet. *)
Definition fresh (d : store) : Prop :=
  forall n, listeners (d n) = [] /\ isAttached (d n) = false.

(** The marker tells the truth: a marked node has exactly one listener, an
    unmarked node has none, and a listener sits on the button it closes over. *)
Definition consistent (d : store) : Prop :=
  forall n,
    length (listeners (d n)) = (if isAttached (d n) then 1%nat else 0%nat) /\
    (forall l, In l (listeners (d n)) -> btn l = n).

(** The page after [k] calls of [attachDetectHandlers]. *)
Definition attachedTimes (p : page) (k : nat) (d : store) : store :=
  Nat.iter k (attached p) d.

End Closed.

(* ===================================================================== *)
(** ** A page with one control, for concrete runs *)
(* ===================================================================== *)

Module Example.
Import Js Dom Run Net App.

(** Button 0 with its file input 1, status 2, preview 3, annotated image 4,
    metadata 5 and sensor output 6. *)
Definition control : binding :=
  {| btn := Node 0; fileInput := Some (Node 1); statusEl := Node 2;
     previewEl := Some (Node 3); annotatedEl := Some (Node 4);
     metaEl := Some (Node 5); iotEl := Some (Node 6) |}.

(** The same control on a page without a sensor-output slot. *)
Definition controlNoIot : binding :=
  {| btn := Node 0; fileInput := Some (Node 1); statusEl := Node 2;
     previewEl := Some (Node 3); annotatedEl := Some (Node 4);
     metaEl := Some (Node 5); iotEl := None |}.

(** A [button], enabled, with nothing attached yet. *)
Definition runButton : element :=
  {| innerHTML := []; className := "run-detect"; src := None; display := "";
     disabled := false; tvAttached := None; files := None; listeners := [];
     formControl := true |}.

Definition fileInputWith (fs : list file) : element :=
  {| innerHTML := []; className := ""; src := None; display := "";
     disabled := false; tvAttached := None; files := Some fs; listeners := [];
     formControl := true |}.

(** The page, with [fs] selected in the file input, and two metrics
    thumbnails 7 and 8. *)
Definition pageWith (fs : list file) : store :=
  fun n =>
    match n with
    | Node 0 => runButton
    | Node 1 => fileInputWith fs
    | Node 7 => with_src (Some [Lit "/static/metrics/pr_curve.png"]) blank
    | Node 8 => with_src (Some [Lit "/static/metrics/f1.png?t=1700000000000"]) blank
    | _ => blank
    end.

Definition answering (det sensor : fetched) : world :=
  {| object_url := Some "blob:preview"; detect := det; iot := sensor;
     now := 1700000000123; thumbs := [Node 7; Node 8] |}.

Definition detected (props : list (string * value)) : fetched :=
  Response 200 (Readable (Json (JObject props))).

Definition sensorOk : fetched :=
  Response 200 (Readable (Json (JObject
    [("distance", VNum (of_Z 116)); ("alert", VStr "SAFE");
     ("recommended_action", VStr "Proceed")]))).

Definition twelve : fetched :=
  detected [("output_image", VStr "/static/out/road.jpg");
            ("vehicle_count", VNum (of_Z 12)); ("risk_level", VStr "medium")].

(** The markup of the page: one [.run-detect] button inside a card. *)
Definition markup : page :=
  {| body := Node 100;
     runButtons := fun _ => [Node 0];
     closest := fun _ _ sel => match sel with Card => Some (Node 10) | _ => None end;
     querySelector := fun _ _ sel =>
       match sel with
       | InputTypeFile => Some (Node 1)
       | TvStatus => Some (Node 2)
       | TvPreview => Some (Node 3)
       | TvAnnotated => Some (Node 4)
       | TvMeta => Some (Node 5)
       | TvIot => Some (Node 6)
       | _ => None
       end |}.

End Example.

(* ===================================================================== *)
(** ** The rest of the script *)
(* ===================================================================== *)

Module Rest.
Import Js Dom Run Net App.
Local Open Scope run_scope.

(** [showImg(imgEl, src)], lines 48-53. *)
Definition showImg (imgEl : option node) (src : value) : M unit :=
  match imgEl with
  | None => ret tt
  | Some n =>
      if negb (truthy src) then set n (with_display "none")
      else
        set n (with_src (Some [Shown src])) ;;
        set n (with_display "block")
  end.

(** A field that none of the five setters of the click handler writes. *)
Definition untouched {X} (field : element -> X) : Prop :=
  (forall h e, field (with_innerHTML h e) = field e) /\
  (forall c e, field (with_className c e) = field e) /\
  (forall s e, field (with_src s e) = field e) /\
  (forall s e, field (with_display s e) = field e) /\
  (forall v e, field (with_disabled v e) = field e).

(** The nodes of a binding that the click handler writes to. *)
Definition slot (o : option node) : list node :=
  match o with
  | Some n => [n]
  | None => []
  end.

Definition footprint (b : binding) : list node :=
  statusEl b :: btn b ::
  slot (previewEl b) ++ slot (metaEl b) ++ slot (annotatedEl b) ++ slot (iotEl b).

End Rest.

(* ===================================================================== *)
(** ** The theme toggle *)
(* ===================================================================== *)

Module Theme.

(** An element with id [tv-theme-toggle]. [wired] counts the click listeners
    that [injectThemeToggle] registered on it. *)
Record toggle : Type := {
  title : string;
  style : list (string * string);     (* in assignment order *)
  textContent : string;
  wired : nat
}.

(** The part of the document the toggle works on: the class list of the
    body, and the elements of the body with id [tv-theme-toggle], in
    document order. *)
Record document : Type := {
  classList : list string;
  toggles : list toggle
}.

Definition sun : string := "☀️".
Definition moon : string := "🌙".

(** [document.body.classList.contains(c)] *)
Definition contains (c : string) (cl : list string) : bool :=
  existsb (String.eqb c) cl.

(** [classList.toggle(c)]: remove the token when it is there, else add it. *)
Definition toggleClass (c : string) (cl : list string) : list string :=
  if contains c cl then filter (fun x => negb (String.eqb c x)) cl
  else cl ++ [c].

(** [document.body.classList.contains("light") ? sun : moon] *)
Definition icon (cl : list string) : string :=
  if contains "light" cl then sun else moon.

(** Lines 15-37. *)
Definition injectThemeToggle (d : document) : document :=
  match toggles d with
  | _ :: _ => d                                   (* the control is there *)
  | [] =>
      let btn :=
        {| title := "Toggle theme";
           style := [("position", "fixed"); ("top", "12px"); ("right", "12px");
                     ("zIndex", "9999"); ("padding", "8px 10px");
                     ("borderRadius", "8px"); ("border", "none");
                     ("cursor", "pointer"); ("background", "rgba(0,0,0,0.35)");
                     ("color", "#fff")];
           textContent := icon (classList d);
           wired := 1 |} in
      {| classList := classList d; toggles := toggles d ++ [btn] |}
  end.

Definition withText (t : string) (b : toggle) : toggle :=
  {| title := title b; style := style b; textContent := t; wired := wired b |}.

(** The listener of line 32, registered on the toggle at position [i]. *)
Definition onToggle (i : nat) (d : document) : document :=
  let cl := toggleClass "light" (classList d) in
  {| classList := cl;
     toggles :=
       firstn i (toggles d) ++
       match skipn i (toggles d) with
       | b :: rest => withText (icon cl) b :: rest
       | [] => []
       end |}.

(** A click on the toggle at position [i] runs each listener registered on
    it; a position without element, or an element the script did not create,
    runs none. *)
Definition click (i : nat) (d : document) : document :=
  match nth_error (toggles d) i with
  | Some b => Nat.iter (wired b) (onToggle i) d
  | None => d
  end.

(** The theme shown. *)
Definition light (d : document) : bool := contains "light" (classList d).

End Theme.

(* ===================================================================== *)
(** ** Lemmas on the store *)
(* ===================================================================== *)

Import Js Dom Run Net App Spec Closed Rest.
Local Open Scope run_scope.

Lemma update_same n f d : update n f d n = f (d n).
Proof. unfold update. destruct (node_eq_dec n n); congruence. Qed.

Lemma update_other n f d m : m <> n -> update n f d m = d m.
Proof. unfold update. destruct (node_eq_dec m n); congruence. Qed.

(** A write to one field leaves every other field of every node alone. *)
Lemma update_frame {X} (field : element -> X) n f d m :
  (forall e, field (f e) = field e) -> field (update n f d m) = field (d m).
Proof. intros H. unfold update. destruct (node_eq_dec m n); auto. Qed.

Ltac frame := repeat (rewrite update_frame by (intro; reflexivity)).

Lemma chosen_frame n f d fi :
  (forall e, files (f e) = files e) -> chosen (update n f d) fi = chosen d fi.
Proof.
  intros H. destruct fi as [i|]; cbn; [|reflexivity].
  rewrite (update_frame files) by exact H. reflexivity.
Qed.

Lemma chosen_processing b d fi : chosen (processing b d) fi = chosen d fi.
Proof.
  unfold processing, status. rewrite !chosen_frame by (intro; reflexivity).
  reflexivity.
Qed.

(* ===================================================================== *)
(** ** The phases of a run, in closed form *)
(* ===================================================================== *)

Lemma setStatus_run n html klass s :
  klass <> "" ->
  setStatus (Some n) html klass s
  = (Done tt, {| dom := status n html klass (dom s); log := log s |}).
Proof.
  intros H. unfold setStatus, status, bind, set, modify. cbn [dom log].
  destruct (String.eqb_spec klass ""); [contradiction | reflexivity].
Qed.

Lemma showPreview_run w b s :
  showPreview w b s
  = (Done tt, {| dom := previewed w b (dom s); log := log s ++ previewLog w b |}).
Proof.
  destruct s as [d l]. unfold showPreview, previewed, previewLog.
  destruct (previewEl b) as [p|]; cbn [dom log].
  - unfold try_catch, bind, createObjectURL.
    destruct (object_url w) as [u|]; cbn; rewrite ?app_nil_r; reflexivity.
  - cbn. rewrite app_nil_r. reflexivity.
Qed.

Lemma callIot_run w x s :
  callIot w x s
  = (Done (iotAnswer (iot w)),
     {| dom := dom s;
        log := log s ++ Sent (Iot x) :: Suspended (dom s) :: iotDiag (iot w) (dom s) |}).
Proof.
  destruct s as [d l]. unfold callIot, iotAnswer, iotDiag, try_catch, bind, fetch.
  cbn [emit suspend dom log].
  destruct (iot w) as [|st bd]; cbn.
  - rewrite <- !app_assoc. reflexivity.
  - destruct (ok st); cbn.
    + destruct bd as [|[|j]]; cbn; rewrite <- !app_assoc; reflexivity.
    + rewrite <- !app_assoc. reflexivity.
Qed.

Lemma sendToBackend_run w b f s :
  sendToBackend w b f s
  = (Done (parsed (classify (detect w))),
     {| dom := afterDetect b (classify (detect w)) (dom s);
        log := log s ++ Sent (Detect f) :: Suspended (dom s) :: detectDiag b (detect w) (dom s) |}).
Proof.
  destruct s as [d l].
  unfold sendToBackend, classify, detectDiag, try_catch, bind, fetch, setDisabled.
  cbn [emit suspend dom log].
  destruct (detect w) as [|st bd]; cbn.
  - rewrite <- !app_assoc. reflexivity.
  - destruct (ok st); cbn.
    + destruct bd as [|[|j]]; cbn; rewrite <- !app_assoc; reflexivity.
    + destruct bd as [|p]; cbn; rewrite <- !app_assoc; reflexivity.
Qed.

Lemma refresh_run w s :
  exists r,
    refreshMetricsThumbnails w s
    = (r, {| dom := refreshed (now w) (thumbs w) (dom s); log := log s |}).
Proof.
  unfold refreshMetricsThumbnails.
  generalize (now w) as t. generalize (thumbs w) as imgs.
  intros imgs t. revert s.
  induction imgs as [|img rest IH]; intros [d l].
  - exists (Done tt). reflexivity.
  - cbn [forEach refreshed dom log]. unfold bind, refreshOne at 1, get_dom, bind.
    cbn [dom log].
    destruct (src (d img)) as [s|].
    + unfold set, modify. cbn [dom log]. apply IH.
    + exists (Thrown TypeError). reflexivity.
Qed.

Lemma refresh_caught w s :
  try_catch (refreshMetricsThumbnails w) (fun _ => ret tt) s
  = (Done tt, {| dom := refreshed (now w) (thumbs w) (dom s); log := log s |}).
Proof.
  unfold try_catch. destruct (refresh_run w s) as [[[]|e] ->]; reflexivity.
Qed.


(** The three extractions throw together, exactly on [null] and [undefined]. *)
Lemma extraction_throws j :
  isNullish j = true -> outImg j = None /\ count j = None /\ risk j = None.
Proof. destruct j as [[]| |]; cbn; intros H; try discriminate; auto. Qed.

Lemma extraction_total j :
  isNullish j = false ->
  exists o c r, outImg j = Some o /\ count j = Some c /\ risk j = Some r.
Proof.
  intros H. unfold outImg, count, risk.
  destruct (get_prop j "output_image") eqn:E1;
    [|destruct j as [[]| |]; cbn in *; discriminate].
  assert (G : forall k, exists v, get_prop j k = Some v)
    by (intros k; destruct j as [[]| |]; cbn in *; try discriminate; eauto).
  destruct (G "annotated") as [? ->], (G "image") as [? ->],
    (G "vehicle_count") as [? ->], (G "count") as [? ->],
    (G "vehicles") as [? ->], (G "risk_level") as [? ->], (G "risk") as [? ->].
  repeat match goal with
         | |- context [if ?c then _ else _] => destruct c
         end; do 3 eexists; repeat split; reflexivity.
Qed.

Lemma iotReport_run iotResp s :
  json_truthy iotResp = true -> iotReport iotResp s = (Done (iotText iotResp), s).
Proof.
  intros H. unfold iotText. rewrite H.
  unfold iotReport, read, prop, bind, orThrow.
  destruct iotResp as [[]| |]; cbn in *; try discriminate; reflexivity.
Qed.

Lemma present_run w b j s o c r :
  outImg j = Some o -> count j = Some c -> risk j = Some r ->
  present w b j s
  = (Done tt,
     {| dom := enabled b (refreshed (now w) (thumbs w) (sensed w b c (shown b o c r (dom s))));
        log := log s ++ Console Debug "[detect] json:" None
                 :: sensorLog w b c (shown b o c r (dom s)) ++ [Disabled (btn b) false] |}).
Proof.
  intros Ho Hc Hr. destruct s as [d l].
  unfold present, bind, console, emit, orThrow. cbn [dom log].
  rewrite Ho, Hc, Hr. cbn [ret].
  rewrite setStatus_run by discriminate. cbn [dom log].
  unfold shown, sensed, sensorLog, sensorSlot, enabled.
  set (d1 := status (statusEl b) _ "ok" d).
  destruct (metaEl b) as [m|]; cbn [set modify ret dom log];
  destruct (annotatedEl b) as [a|]; cbn [set modify ret dom log];
  try destruct (truthy o); cbn [set modify ret dom log];
  (destruct (if not_null c then iotEl b else None) as [i|];
   [ rewrite callIot_run; cbn [dom log];
     destruct (json_truthy (iotAnswer (iot w))) eqn:Ht;
     [ rewrite iotReport_run by exact Ht | unfold iotText; rewrite Ht ];
     cbn [set modify dom log]; rewrite refresh_caught; unfold setDisabled; cbn [dom log];
     rewrite <- ?app_assoc; cbn [app]; reflexivity
   | cbn [ret]; rewrite refresh_caught; unfold setDisabled; cbn [dom log];
     rewrite <- ?app_assoc; cbn [app]; reflexivity ]).
Qed.

Lemma present_throws w b j s :
  isNullish j = true ->
  present w b j s
  = (Thrown TypeError,
     {| dom := dom s; log := log s ++ [Console Debug "[detect] json:" None] |}).
Proof.
  intros H. destruct (extraction_throws j H) as (Ho & _).
  unfold present, bind, console, emit, orThrow. cbn [dom log].
  rewrite Ho. reflexivity.
Qed.

(** *** The whole run *)

Lemma run_no_file w b d :
  chosen d (fileInput b) = None ->
  run w b d = (Done tt, {| dom := warned b d; log := [Prevented] |}).
Proof.
  intros H. unfold run, onClick, bind, emit, start. cbn [dom log app].
  rewrite setStatus_run by discriminate. cbn [dom log get_dom].
  fold (processing b d). rewrite chosen_processing, H.
  rewrite setStatus_run by discriminate. reflexivity.
Qed.

Lemma run_with_file w b d f :
  chosen d (fileInput b) = Some f ->
  run w b d
  = match classify (detect w) with
    | Parsed j =>
        present w b j {| dom := armed w b d; log := detectLog w b f d |}
    | c =>
        (Done tt, {| dom := afterDetect b c (armed w b d); log := detectLog w b f d |})
    end.
Proof.
  intros H. unfold run, onClick, bind, emit, start. cbn [dom log app].
  rewrite setStatus_run by discriminate. cbn [dom log get_dom].
  fold (processing b d). rewrite chosen_processing, H.
  rewrite showPreview_run. unfold setDisabled. cbn [dom log].
  fold (armed w b d). rewrite sendToBackend_run. cbn [dom log].
  unfold detectLog. cbn [app].
  rewrite <- !app_assoc. cbn [app].
  destruct (classify (detect w)); cbn [parsed afterDetect]; reflexivity.
Qed.

(* ===================================================================== *)
(** ** Logs *)
(* ===================================================================== *)

Lemma suspensions_app l1 l2 : suspensions (l1 ++ l2) = suspensions l1 ++ suspensions l2.
Proof.
  induction l1 as [|[] l1 IH]; cbn; rewrite ?IH; reflexivity.
Qed.

Lemma requests_app l1 l2 : requests (l1 ++ l2) = requests l1 ++ requests l2.
Proof.
  induction l1 as [|[] l1 IH]; cbn; rewrite ?IH; reflexivity.
Qed.

Lemma previewLog_quiet w b :
  suspensions (previewLog w b) = [] /\ requests (previewLog w b) = [] /\
  forall n v, ~ In (Disabled n v) (previewLog w b).
Proof.
  unfold previewLog. destruct (previewEl b), (object_url w); cbn;
    repeat split; intros ? ? H; intuition discriminate.
Qed.

Lemma suspensions_detectDiag b a d p :
  In p (suspensions (detectDiag b a d)) -> p = d.
Proof.
  unfold detectDiag. destruct a as [|st [|[|j]]]; cbn; try tauto;
    destruct (ok st); cbn; intuition.
Qed.

Lemma suspensions_iotDiag a d p : In p (suspensions (iotDiag a d)) -> p = d.
Proof.
  unfold iotDiag. destruct a as [|st [|[|j]]]; cbn; try tauto;
    destruct (ok st); cbn; intuition.
Qed.

Lemma suspensions_sensorLog w b c d p :
  In p (suspensions (sensorLog w b c d)) -> p = d.
Proof.
  unfold sensorLog. destruct (sensorSlot b c); cbn; [|tauto].
  intros [H|H]; [auto | eauto using suspensions_iotDiag].
Qed.

Lemma suspensions_detectLog w b f d p :
  In p (suspensions (detectLog w b f d)) -> p = armed w b d.
Proof.
  unfold detectLog. cbn. rewrite suspensions_app.
  destruct (previewLog_quiet w b) as (-> & _). cbn.
  intros [H|H]; [auto | eauto using suspensions_detectDiag].
Qed.

(** The button is disabled on the page that the detection request leaves
    behind, and showing the result does not change that. *)
Lemma armed_disabled w b d : disabled (armed w b d (btn b)) = true.
Proof. unfold armed. rewrite update_same. reflexivity. Qed.


(** *** The three ways a run with a file ends *)

Lemma classify_parsed a j :
  classify a = Parsed j <-> exists st, a = Response st (Readable (Json j)) /\ ok st = true.
Proof.
  unfold classify. split.
  - destruct a as [|st [|[|j']]]; try discriminate;
      destruct (ok st) eqn:E; try discriminate.
    intros [= ->]. eauto.
  - intros (st & -> & ->). reflexivity.
Qed.

Lemma run_file_cases w b d f :
  chosen d (fileInput b) = Some f ->
  (exists c,
      classify (detect w) = c /\ parsed c = None /\
      run w b d
      = (Done tt, {| dom := afterDetect b c (armed w b d); log := detectLog w b f d |}))
  \/ (exists j,
      classify (detect w) = Parsed j /\ isNullish j = true /\
      run w b d
      = (Thrown TypeError,
         {| dom := armed w b d;
            log := detectLog w b f d ++ [Console Debug "[detect] json:" None] |}))
  \/ (exists j o c r,
      classify (detect w) = Parsed j /\
      outImg j = Some o /\ count j = Some c /\ risk j = Some r /\
      run w b d
      = (Done tt,
         {| dom := enabled b (refreshed (now w) (thumbs w)
                               (sensed w b c (shown b o c r (armed w b d))));
            log := detectLog w b f d ++
                   Console Debug "[detect] json:" None ::
                   sensorLog w b c (shown b o c r (armed w b d)) ++
                   [Disabled (btn b) false] |})).
Proof.
  intros H. rewrite (run_with_file w b d f H).
  destruct (classify (detect w)) as [e|st| |j] eqn:E.
  - left. eexists. repeat split.
  - left. eexists. repeat split.
  - left. eexists. repeat split.
  - right. destruct (isNullish j) eqn:N.
    + left. exists j. repeat split; auto. apply present_throws. exact N.
    + right. destruct (extraction_total j N) as (o & c & r & Ho & Hc & Hr).
      exists j, o, c, r. repeat split; auto.
      rewrite (present_run w b j _ o c r Ho Hc Hr). reflexivity.
Qed.

(* ===================================================================== *)
(** ** No file selected *)
(* ===================================================================== *)

(** C4. When the file input has no file selected (there is no file input, its
    [files] is null, or the list is empty), a click ends normally, sends no
    request (the log holds the suppressed default action and nothing else),
    leaves the choose-a-file warning with class [warning] in the status
    element, and leaves the button's [disabled] flag as it was, so an enabled
    trigger is still enabled. *)
Theorem no_file_no_request w b d :
  chosen d (fileInput b) = None ->
  fst (run w b d) = Done tt /\
  log (snd (run w b d)) = [Prevented] /\
  (forall r, ~ In (Sent r) (log (snd (run w b d)))) /\
  innerHTML (dom (snd (run w b d)) (statusEl b))
  = [Lit "<span style='color:orange'>Please choose an image first</span>"] /\
  className (dom (snd (run w b d)) (statusEl b)) = "warning" /\
  disabled (dom (snd (run w b d)) (btn b)) = disabled (d (btn b)).
Proof.
  intros H. rewrite (run_no_file w b d H). cbn [fst snd dom log].
  repeat split.
  - intros r [E|[]]. discriminate.
  - unfold warned, status. rewrite (update_frame innerHTML) by (intro; reflexivity).
    rewrite update_same. reflexivity.
  - unfold warned, status. rewrite update_same. reflexivity.
  - unfold warned, processing, status. frame. reflexivity.
Qed.

Lemma no_file_no_request_witness :
  chosen (Example.pageWith []) (fileInput Example.control) = None /\
  log (snd (run (Example.answering Example.twelve Example.sensorOk)
              Example.control (Example.pageWith []))) = [Prevented] /\
  disabled (dom (snd (run (Example.answering Example.twelve Example.sensorOk)
                        Example.control (Example.pageWith [])))
              (btn Example.control)) = false.
Proof.
  assert (H : chosen (Example.pageWith []) (fileInput Example.control) = None)
    by reflexivity.
  pose proof (no_file_no_request (Example.answering Example.twelve Example.sensorOk)
                Example.control (Example.pageWith []) H) as (_ & L & _ & _ & _ & D).
  split; [exact H | split; [exact L | rewrite D; reflexivity]].
Defined.

(* ===================================================================== *)
(** ** How a run ends *)
(* ===================================================================== *)

Lemma enabled_at_exit b d : disabled (enabled b d (btn b)) = false.
Proof. unfold enabled. rewrite update_same. reflexivity. Qed.

(** The three failures of the detection call that the handler catches end
    the run normally, with the button enabled again. *)
Lemma handled_failures_reenable w b d f :
  chosen d (fileInput b) = Some f ->
  parsed (classify (detect w)) = None ->
  fst (run w b d) = Done tt /\
  disabled (dom (snd (run w b d)) (btn b)) = false /\
  innerHTML (dom (snd (run w b d)) (statusEl b)) = errorText (classify (detect w)) /\
  className (dom (snd (run w b d)) (statusEl b)) = "error".
Proof.
  intros H P. rewrite (run_with_file w b d f H).
  destruct (classify (detect w)); try discriminate; cbn [fst snd dom afterDetect];
    unfold enabled, status;
    (split; [reflexivity|]); (split; [rewrite update_same; reflexivity|]);
    rewrite !(update_frame innerHTML _ (with_disabled false)) by (intro; reflexivity);
    rewrite !(update_frame className _ (with_disabled false)) by (intro; reflexivity);
    rewrite (update_frame innerHTML _ (with_className "error")) by (intro; reflexivity);
    rewrite !update_same; split; reflexivity.
Qed.

(** Once an answer other than [null] is parsed, the run reaches its exit
    whatever the sensor step does. *)
Lemma parsed_runs_reenable w b d f j :
  chosen d (fileInput b) = Some f ->
  classify (detect w) = Parsed j -> isNullish j = false ->
  fst (run w b d) = Done tt /\ disabled (dom (snd (run w b d)) (btn b)) = false.
Proof.
  intros H C N. destruct (run_file_cases w b d f H) as
      [(c & E & P & _) | [(j' & E & N' & _) | (j' & o & c & r & E & _ & _ & _ & R)]].
  - rewrite C in E. subst c. discriminate.
  - rewrite C in E. injection E as <-. congruence.
  - rewrite R. cbn [fst snd dom]. split; [reflexivity | apply enabled_at_exit].
Qed.

(** A run throws exactly when a success answer parses to [null] (or
    [undefined]); the button then stays disabled. *)
Lemma uncaught_iff w b d :
  (exists e, fst (run w b d) = Thrown e) <->
  (exists f st j,
      chosen d (fileInput b) = Some f /\
      detect w = Response st (Readable (Json j)) /\ ok st = true /\
      isNullish j = true).
Proof.
  split.
  - intros (e & T). destruct (chosen d (fileInput b)) as [f|] eqn:H.
    + destruct (run_file_cases w b d f H) as
          [(c & _ & _ & R) | [(j & E & N & _) | (j & o & c & r & _ & _ & _ & _ & R)]];
        try (rewrite R in T; discriminate).
      apply classify_parsed in E as (st & E & K). exists f, st, j. auto.
    + rewrite (run_no_file w b d H) in T. discriminate.
  - intros (f & st & j & H & E & K & N). exists TypeError.
    assert (C : classify (detect w) = Parsed j) by (apply classify_parsed; eauto).
    rewrite (run_with_file w b d f H), C, present_throws by exact N. reflexivity.
Qed.

Lemma uncaught_stays_disabled w b d e :
  fst (run w b d) = Thrown e -> disabled (dom (snd (run w b d)) (btn b)) = true.
Proof.
  intros T. destruct (chosen d (fileInput b)) as [f|] eqn:H.
  - destruct (run_file_cases w b d f H) as
        [(c & _ & _ & R) | [(j & _ & _ & R) | (j & o & c & r & _ & _ & _ & _ & R)]];
      rewrite R in *; try discriminate.
    cbn [snd dom]. apply armed_disabled.
  - rewrite (run_no_file w b d H) in T. discriminate.
Qed.

(** C1, at the input where it fails: the detection endpoint answers 200 with
    the JSON text [null].  The body parses, [json.output_image] throws a
    TypeError outside every [try], the handler's promise rejects and the
    button is left disabled. *)
Theorem null_answer_leaves_button_disabled :
  fst (run (Example.answering (Response 200 (Readable (Json JNull))) Example.sensorOk)
         Example.control (Example.pageWith ["road.jpg"]))
  = Thrown TypeError /\
  disabled (dom (snd (run (Example.answering (Response 200 (Readable (Json JNull)))
                             Example.sensorOk)
                        Example.control (Example.pageWith ["road.jpg"])))
              (btn Example.control))
  = true.
Proof. split; vm_compute; reflexivity. Qed.

(* ===================================================================== *)
(** ** Frames: what the phases of a run leave alone *)
(* ===================================================================== *)

Lemma status_frame {X} (field : element -> X) n h k d m :
  (forall x e, field (with_innerHTML x e) = field e) ->
  (forall x e, field (with_className x e) = field e) ->
  field (status n h k d m) = field (d m).
Proof.
  intros H1 H2. unfold status.
  rewrite (update_frame field) by (intro; apply H2).
  apply update_frame. intro. apply H1.
Qed.

Lemma status_other n h k d m : m <> n -> status n h k d m = d m.
Proof. intros N. unfold status. rewrite !update_other by exact N. reflexivity. Qed.

Lemma status_shows n h k d :
  innerHTML (status n h k d n) = h /\ className (status n h k d n) = k.
Proof.
  unfold status. split.
  - rewrite (update_frame innerHTML) by (intro; reflexivity).
    rewrite update_same. reflexivity.
  - rewrite update_same. reflexivity.
Qed.

Lemma previewed_frame {X} (field : element -> X) w b d m :
  (forall x e, field (with_src x e) = field e) ->
  (forall x e, field (with_display x e) = field e) ->
  field (previewed w b d m) = field (d m).
Proof.
  intros H1 H2. unfold previewed.
  destruct (previewEl b), (object_url w); try reflexivity.
  rewrite (update_frame field) by (intro; apply H2).
  apply update_frame. intro. apply H1.
Qed.

Lemma previewed_other w b d m : previewEl b <> Some m -> previewed w b d m = d m.
Proof.
  intros N. unfold previewed. destruct (previewEl b) as [p|], (object_url w);
    try reflexivity.
  rewrite !update_other by congruence. reflexivity.
Qed.

Lemma shown_frame {X} (field : element -> X) b o c r d m :
  (forall x e, field (with_innerHTML x e) = field e) ->
  (forall x e, field (with_className x e) = field e) ->
  (forall x e, field (with_src x e) = field e) ->
  (forall x e, field (with_display x e) = field e) ->
  field (shown b o c r d m) = field (d m).
Proof.
  intros H1 H2 H3 H4. unfold shown.
  assert (S : forall d', field (status (statusEl b)
                                  [Lit "<b>Detection completed</b>"] "ok" d' m)
                         = field (d' m))
    by (intros; apply status_frame; assumption).
  destruct (metaEl b), (annotatedEl b); try destruct (truthy o);
    repeat first
      [ rewrite (update_frame field) by (intro; apply H4)
      | rewrite (update_frame field) by (intro; apply H3)
      | rewrite (update_frame field) by (intro; apply H1) ];
    apply S.
Qed.

Lemma sensed_frame {X} (field : element -> X) w b c d m :
  (forall x e, field (with_innerHTML x e) = field e) ->
  field (sensed w b c d m) = field (d m).
Proof.
  intros H. unfold sensed. destruct (sensorSlot b c); [|reflexivity].
  apply update_frame. intro. apply H.
Qed.

Lemma armed_frame {X} (field : element -> X) w b d m :
  untouched field -> field (armed w b d m) = field (d m).
Proof.
  intros (H1 & H2 & H3 & H4 & H5). unfold armed, processing.
  rewrite (update_frame field) by (intro; apply H5).
  rewrite previewed_frame by assumption.
  apply status_frame; assumption.
Qed.

(* ===================================================================== *)
(** ** The button while a run is in flight *)
(* ===================================================================== *)


Lemma detectLog_suspended w b f d p :
  In p (suspensions (detectLog w b f d)) -> disabled (p (btn b)) = true.
Proof.
  intros H. apply suspensions_detectLog in H. subst p. apply armed_disabled.
Qed.




Lemma detectDiag_split b a d :
  (exists j, classify a = Parsed j /\ detectDiag b a d = [Suspended d])
  \/ (parsed (classify a) = None /\
      exists diag,
        detectDiag b a d = diag ++ [Disabled (btn b) false] /\
        (forall n v, ~ In (Disabled n v) diag) /\
        (forall p, In p (suspensions diag) -> p = d)).
Proof.
  assert (T : forall diag,
             (forall e, In e diag ->
                        (exists l t x, e = Console l t x) \/ e = Suspended d) ->
             (forall n v, ~ In (Disabled n v) diag) /\
             (forall p, In p (suspensions diag) -> p = d)).
  { induction diag as [|e diag IH]; intros K; [cbn; tauto|].
    destruct IH as (I1 & I2); [intros e' I; apply K; right; exact I|].
    destruct (K e (or_introl eq_refl)) as [(l & t & x & ->)| ->]; cbn; split;
      intros; intuition (try discriminate; eauto). }
  unfold classify, detectDiag. destruct a as [|st bd].
  - right. split; [reflexivity|]. eexists [_]. split; [reflexivity|].
    apply T. cbn. intros e [<-|[]]. eauto.
  - destruct (ok st); [destruct bd as [|[|j]]|].
    + right. split; [reflexivity|]. eexists [_; _]. split; [reflexivity|].
      apply T. cbn. intros e [<-|[<-|[]]]; eauto.
    + right. split; [reflexivity|]. eexists [_; _]. split; [reflexivity|].
      apply T. cbn. intros e [<-|[<-|[]]]; eauto.
    + left. eauto.
    + right. split; [reflexivity|]. eexists [_; _]. split; [reflexivity|].
      apply T. cbn. intros e [<-|[<-|[]]]; eauto.
Qed.







(* ===================================================================== *)
(** ** The sensor request *)
(* ===================================================================== *)

Lemma sent_requests l r : In (Sent r) l <-> In r (requests l).
Proof.
  induction l as [|e l IH]; cbn; [tauto|].
  destruct e; cbn; rewrite <- IH; intuition (try discriminate; try congruence).
Qed.

Lemma requests_detectDiag b a d : requests (detectDiag b a d) = [].
Proof.
  unfold detectDiag. destruct a as [|st [|[|j]]]; try destruct (ok st); reflexivity.
Qed.

Lemma requests_iotDiag a d : requests (iotDiag a d) = [].
Proof.
  unfold iotDiag. destruct a as [|st [|[|j]]]; try destruct (ok st); reflexivity.
Qed.

Lemma requests_detectLog w b f d : requests (detectLog w b f d) = [Detect f].
Proof.
  unfold detectLog. cbn. rewrite requests_app.
  destruct (previewLog_quiet w b) as (_ & -> & _). cbn.
  rewrite requests_detectDiag. reflexivity.
Qed.

Lemma requests_sensorLog w b c d :
  requests (sensorLog w b c d)
  = match sensorSlot b c with
    | Some _ => [Iot (distance c)]
    | None => []
    end.
Proof.
  unfold sensorLog. destruct (sensorSlot b c); cbn; rewrite ?requests_iotDiag; reflexivity.
Qed.

Lemma sensorSlot_some b c i :
  sensorSlot b c = Some i <-> not_null c = true /\ iotEl b = Some i.
Proof.
  unfold sensorSlot. destruct (not_null c); intuition discriminate.
Qed.

(** Where a sensor request in the log of a run comes from. *)
Lemma iot_request_origin w b d x :
  In (Sent (Iot x)) (log (snd (run w b d))) ->
  exists f j o c r i,
    chosen d (fileInput b) = Some f /\ classify (detect w) = Parsed j /\
    outImg j = Some o /\ count j = Some c /\ risk j = Some r /\
    sensorSlot b c = Some i /\ x = distance c /\
    log (snd (run w b d))
    = (detectLog w b f d ++ [Console Debug "[detect] json:" None]) ++
      Sent (Iot (distance c)) ::
      (Suspended (shown b o c r (armed w b d))
         :: iotDiag (iot w) (shown b o c r (armed w b d))) ++ [Disabled (btn b) false] /\
    fst (run w b d) = Done tt /\
    dom (snd (run w b d))
    = enabled b (refreshed (now w) (thumbs w)
                   (update i (with_innerHTML (iotText (iotAnswer (iot w))))
                      (shown b o c r (armed w b d)))).
Proof.
  intros I. destruct (chosen d (fileInput b)) as [f|] eqn:H.
  - destruct (run_file_cases w b d f H) as
        [(c & _ & _ & R) | [(j & _ & _ & R) | (j & o & c & r & C & Ho & Hc & Hr & R)]];
      rewrite R in *; cbn [snd log] in *; apply sent_requests in I.
    + rewrite requests_detectLog in I. destruct I as [I|[]]. discriminate.
    + rewrite requests_app, requests_detectLog in I. cbn in I.
      destruct I as [I|[]]. discriminate.
    + rewrite requests_app, requests_detectLog in I. cbn [requests app] in I.
      rewrite requests_app, requests_sensorLog in I. cbn [requests] in I.
      rewrite app_nil_r in I.
      destruct (sensorSlot b c) as [i|] eqn:Sl.
      * destruct I as [I|[I|[]]]; [discriminate|]. injection I as <-.
        exists f, j, o, c, r, i. repeat split; auto.
        -- unfold sensorLog. rewrite Sl. rewrite <- !app_assoc. reflexivity.
        -- unfold sensed. rewrite Sl. reflexivity.
      * destruct I as [I|[]]. discriminate.
  - rewrite (run_no_file w b d H) in I. destruct I as [I|[]]. discriminate.
Qed.

(** When the answer parses and the count is there, the request is sent. *)
Lemma iot_request_sent w b d f j c i :
  chosen d (fileInput b) = Some f -> classify (detect w) = Parsed j ->
  count j = Some c -> sensorSlot b c = Some i ->
  In (Sent (Iot (distance c))) (log (snd (run w b d))).
Proof.
  intros H C Hc Sl.
  destruct (run_file_cases w b d f H) as
      [(c' & E & P & _) | [(j' & E & N & _) | (j' & o & c' & r & E & _ & Hc' & _ & R)]].
  - rewrite C in E. subst c'. discriminate.
  - rewrite C in E. injection E as <-.
    destruct (extraction_throws j N) as (_ & K & _). congruence.
  - rewrite C in E. injection E as <-. assert (c' = c) by congruence. subst c'.
    rewrite R. cbn [snd log]. apply sent_requests.
    rewrite requests_app, in_app_iff. right. cbn [requests].
    rewrite requests_app, requests_sensorLog, Sl. left. reflexivity.
Qed.

Lemma split_unique {A} (P : A -> Prop) (a b pre post : list A) (x y : A) :
  a ++ x :: b = pre ++ y :: post -> P y ->
  (forall z, In z a -> ~ P z) -> (forall z, In z b -> ~ P z) ->
  pre = a /\ y = x /\ post = b.
Proof.
  revert pre. induction a as [|z a IH]; intros pre E Py Na Nb.
  - destruct pre as [|z pre]; cbn in E.
    + injection E as -> ->. auto.
    + injection E as -> E. exfalso. apply (Nb y); [|exact Py].
      rewrite E. apply in_elt.
  - destruct pre as [|z' pre]; cbn in E.
    + injection E as -> _. exfalso. apply (Na y); [left; reflexivity | exact Py].
    + injection E as -> E.
      destruct (IH pre E Py) as (-> & -> & ->); auto.
      intros t I. apply Na. right. exact I.
Qed.

(** C6. A run sends a sensor request exactly when a file is selected, the
    detection endpoint answers with a success status and a body that parses,
    the count extracted from it is not null and the binding has a
    sensor-output slot.  The request is then the only one to the sensor; when
    it leaves, the detection request has been sent, both of its awaits
    (response and body) are over, and the parsed answer has been logged. *)
Theorem sensor_request_iff w b d :
  ((exists x, In (Sent (Iot x)) (log (snd (run w b d)))) <->
   (exists f st j c i,
       chosen d (fileInput b) = Some f /\
       detect w = Response st (Readable (Json j)) /\ ok st = true /\
       count j = Some c /\ not_null c = true /\ iotEl b = Some i)) /\
  (forall pre x post,
      log (snd (run w b d)) = pre ++ Sent (Iot x) :: post ->
      (exists f, requests pre = [Detect f]) /\
      length (suspensions pre) = 2 /\
      In (Console Debug "[detect] json:" None) pre /\
      requests post = []).
Proof.
  split; [split|].
  - intros (x & I).
    destruct (iot_request_origin w b d x I)
      as (f & j & o & c & r & i & H & C & _ & Hc & _ & Sl & _ & _).
    apply classify_parsed in C as (st & E & K). apply sensorSlot_some in Sl as (Nn & Hi).
    exists f, st, j, c, i. repeat split; assumption.
  - intros (f & st & j & c & i & H & E & K & Hc & Nn & Hi).
    exists (distance c). apply (iot_request_sent w b d f j c i); auto.
    + apply classify_parsed. eauto.
    + apply sensorSlot_some. auto.
  - intros pre x post E.
    assert (I : In (Sent (Iot x)) (log (snd (run w b d)))) by (rewrite E; apply in_elt).
    destruct (iot_request_origin w b d x I)
      as (f & j & o & c & r & i & H & C & _ & _ & _ & _ & _ & L & _).
    rewrite L in E.
    destruct (detectDiag_split b (detect w) (armed w b d))
      as [(j0 & _ & D) | (P0 & _)]; [|rewrite C in P0; discriminate].
    apply (split_unique (fun e => In e (map Sent (map Iot [x; distance c])))) in E.
    + destruct E as (-> & _ & ->). repeat split.
      * exists f. rewrite requests_app, requests_detectLog. reflexivity.
      * rewrite suspensions_app. unfold detectLog. cbn [suspensions].
        rewrite suspensions_app.
        destruct (previewLog_quiet w b) as (-> & _). rewrite D. reflexivity.
      * rewrite in_app_iff. right. left. reflexivity.
      * rewrite requests_app. cbn. rewrite requests_iotDiag. reflexivity.
    + left. reflexivity.
    + intros z Iz [K|[K|[]]]; subst z; apply sent_requests in Iz;
        rewrite requests_app, requests_detectLog in Iz; cbn in Iz;
        destruct Iz as [Iz|[]]; discriminate.
    + intros z Iz [K|[K|[]]]; subst z; apply sent_requests in Iz;
        rewrite requests_app in Iz; cbn in Iz; rewrite requests_iotDiag in Iz;
        destruct Iz.
Qed.

Lemma sensor_request_iff_witness :
  exists x,
    In (Sent (Iot x))
      (log (snd (run (Example.answering Example.twelve Example.sensorOk)
                   Example.control (Example.pageWith ["road.jpg"])))).
Proof.
  apply (proj2 (proj1 (sensor_request_iff
                         (Example.answering Example.twelve Example.sensorOk)
                         Example.control (Example.pageWith ["road.jpg"])))).
  exists "road.jpg", 200%Z,
    (JObject [("output_image", VStr "/static/out/road.jpg");
              ("vehicle_count", VNum (of_Z 12)); ("risk_level", VStr "medium")]),
    (VNum (of_Z 12)), (Node 6).
  repeat split; reflexivity.
Defined.

(* ===================================================================== *)
(** ** The derived distance *)
(* ===================================================================== *)

(** [round] is the nearest integer. *)
Lemma round_nearest q :
  (q - (1 # 2) < inject_Z (round q))%Q /\ (inject_Z (round q) <= q + (1 # 2))%Q.
Proof.
  unfold round. split.
  - pose proof (Qlt_floor (q + (1 # 2))) as H.
    rewrite inject_Z_plus in H. cbn [inject_Z] in H.
    apply Qplus_lt_l with (z := 1%Q).
    eapply Qle_lt_trans; [|exact H].
    ring_simplify. apply Qle_refl.
  - apply Qfloor_le.
Qed.

Lemma max_of_Z a k : Math_max (of_Z a) (of_Z k) = of_Z (Z.max a k).
Proof.
  unfold Math_max, of_Z, Qle_bool, inject_Z. cbn [Qnum Qden].
  rewrite !Z.mul_1_r. destruct (Z.leb_spec a k).
  - rewrite Z.max_r by assumption. reflexivity.
  - rewrite Z.max_l by lia. reflexivity.
Qed.

(** The expression of line 192 on a numeric count, in the exact arithmetic
    of the model. *)
Lemma distance_of_number n : distance (VNum (Fin n)) = of_Z (derivedDistance n).
Proof.
  unfold distance, derivedDistance, round. cbn [to_number num_mul num_sub Math_round of_Z].
  apply (max_of_Z 5).
Qed.

(** C2. In a run whose detection answer parses and whose extracted vehicle
    count is the whole number [k], of magnitude at most 2^51 so that binary64
    computes line 192 without rounding, every request sent to the sensor
    endpoint carries the distance [max(5, round(140 - k * 2))], and the
    request is sent as soon as the binding has a sensor-output slot.  For
    [k] = 12, 0 and 100 the expression of line 192 gives 116, 140 and 5. *)
Theorem derived_distance_sent :
  (forall w b d f st j k,
      chosen d (fileInput b) = Some f ->
      detect w = Response st (Readable (Json j)) -> ok st = true ->
      count j = Some (VNum (of_Z k)) -> wholeCount k ->
      (forall x, In (Sent (Iot x)) (log (snd (run w b d))) ->
                 x = of_Z (derivedDistance (inject_Z k))) /\
      (forall i, iotEl b = Some i ->
                 In (Sent (Iot (of_Z (derivedDistance (inject_Z k)))))
                   (log (snd (run w b d))))) /\
  distance (VNum (of_Z 12)) = of_Z 116 /\
  distance (VNum (of_Z 0)) = of_Z 140 /\
  distance (VNum (of_Z 100)) = of_Z 5.
Proof.
  split; [|repeat split; reflexivity].
  intros w b d f st j k H E K Hc _.
  assert (C : classify (detect w) = Parsed j) by (apply classify_parsed; eauto).
  split.
  - intros x I.
    destruct (iot_request_origin w b d x I)
      as (f' & j' & o & c & r & i & _ & C' & _ & Hc' & _ & _ & -> & _).
    rewrite C in C'. injection C' as <-.
    assert (c = VNum (of_Z k)) by congruence. subst c.
    apply distance_of_number.
  - intros i Hi. rewrite <- distance_of_number.
    apply (iot_request_sent w b d f j (VNum (of_Z k)) i); auto.
Qed.

Lemma derived_distance_sent_witness :
  In (Sent (Iot (of_Z 116)))
    (log (snd (run (Example.answering Example.twelve Example.sensorOk)
                 Example.control (Example.pageWith ["road.jpg"])))).
Proof.
  exact (proj2 (proj1 derived_distance_sent
                  (Example.answering Example.twelve Example.sensorOk)
                  Example.control (Example.pageWith ["road.jpg"])
                  "road.jpg" 200%Z
                  (JObject [("output_image", VStr "/static/out/road.jpg");
                            ("vehicle_count", VNum (of_Z 12));
                            ("risk_level", VStr "medium")])
                  12%Z eq_refl eq_refl eq_refl eq_refl
                  ltac:(unfold wholeCount; lia))
               (Node 6) eq_refl).
Defined.

(* ===================================================================== *)
(** ** Alias resolution *)
(* ===================================================================== *)

(** C3 as stated fails, whatever "present" is read as.  With "present" as
    "holds a value other than null": [risk_level] 0 is skipped by [||] and
    [risk] wins.  With "present" as "the key occurs": a [vehicle_count] of
    null is skipped by [??] and [count] wins.  With "present" as "truthy": a
    [vehicle_count] of 0 is kept by [??] although [count] is there. *)
Lemma first_present_alias_does_not_win :
  risk (JObject [("risk_level", VNum (of_Z 0)); ("risk", VStr "low")])
  <> Some (firstWhere hasValue riskAliases
             [("risk_level", VNum (of_Z 0)); ("risk", VStr "low")]) /\
  count (JObject [("vehicle_count", VNull); ("count", VNum (of_Z 3))])
  <> Some (firstKey countAliases [("vehicle_count", VNull); ("count", VNum (of_Z 3))]) /\
  count (JObject [("vehicle_count", VNum (of_Z 0)); ("count", VNum (of_Z 3))])
  <> Some (firstWhere truthy countAliases
             [("vehicle_count", VNum (of_Z 0)); ("count", VNum (of_Z 3))]).
Proof. repeat split; vm_compute; discriminate. Qed.

(** C3, as the code has it.  On a parsed object the aliases are tried in the
    order given; for the image reference and the risk the first alias whose
    value is truthy wins (a missing key, null, false, 0, NaN and the empty
    string are skipped); for the vehicle count the first alias whose value is
    neither missing nor null wins; nothing found gives null.  In particular a
    [vehicle_count] that is not null is used whatever [count] holds. *)
Theorem alias_resolution props :
  outImg (JObject props) = Some (firstWhere truthy imageAliases props) /\
  count (JObject props) = Some (firstWhere hasValue countAliases props) /\
  risk (JObject props) = Some (firstWhere truthy riskAliases props) /\
  (hasValue (lookup "vehicle_count" props) = true ->
   count (JObject props) = Some (lookup "vehicle_count" props)).
Proof.
  unfold outImg, count, risk, imageAliases, countAliases, riskAliases, hasValue.
  cbn [get_prop firstWhere].
  repeat split.
  - destruct (truthy (lookup "output_image" props)); [reflexivity|].
    destruct (truthy (lookup "annotated" props)); [reflexivity|].
    destruct (truthy (lookup "image" props)); reflexivity.
  - destruct (negb (nullish (lookup "vehicle_count" props))); [reflexivity|].
    destruct (negb (nullish (lookup "count" props))); [reflexivity|].
    destruct (negb (nullish (lookup "vehicles" props))); reflexivity.
  - destruct (truthy (lookup "risk_level" props)); [reflexivity|].
    destruct (truthy (lookup "risk" props)); reflexivity.
  - intros ->. reflexivity.
Qed.

Lemma alias_resolution_witness :
  count (JObject [("count", VNum (of_Z 7)); ("vehicle_count", VNum (of_Z 0))])
  = Some (VNum (of_Z 0)).
Proof.
  exact (proj2 (proj2 (proj2 (alias_resolution
                                [("count", VNum (of_Z 7));
                                 ("vehicle_count", VNum (of_Z 0))])))
               eq_refl).
Defined.

(* ===================================================================== *)
(** ** Failures of the sensor step *)
(* ===================================================================== *)

Lemma refreshed_frame {X} (field : element -> X) t imgs d n :
  (forall s e, field (with_src s e) = field e) ->
  field (refreshed t imgs d n) = field (d n).
Proof.
  intros F. revert d. induction imgs as [|img rest IH]; intros d; cbn; [reflexivity|].
  destruct (src (d img)); [|reflexivity].
  rewrite IH. apply update_frame. intros e. apply F.
Qed.

Lemma refreshed_outside t imgs d n : ~ In n imgs -> refreshed t imgs d n = d n.
Proof.
  revert d. induction imgs as [|img rest IH]; intros d N; cbn; [reflexivity|].
  destruct (src (d img)); [|reflexivity].
  rewrite IH by (intros I; apply N; right; exact I).
  apply update_other. intros ->. apply N. left. reflexivity.
Qed.

Lemma failure_answer a cls : failureOf a = Some cls -> iotAnswer a = JNull.
Proof.
  unfold failureOf, iotAnswer. destruct a as [|st [|[|j]]]; try destruct (ok st);
    intros; try reflexivity; discriminate.
Qed.

Lemma failure_text a cls : failureOf a = Some cls -> iotText (iotAnswer a) = failedText.
Proof. intros H. rewrite (failure_answer a cls H). reflexivity. Qed.

(** The detection client, for comparison: its three failure classes put
    three different messages in the status element. *)
Lemma detection_distinguishes : distinguishes (fun a => errorText (classify a)).
Proof.
  intros a1 a2 c1 c2. unfold failureOf, classify.
  destruct a1 as [|s1 [|[|j1]]]; try destruct (ok s1);
    destruct a2 as [|s2 [|[|j2]]]; try destruct (ok s2);
    cbn; intros [= <-] [= <-] N; try congruence; discriminate.
Qed.

(** C9 as stated fails: [callIot] answers a transport failure and a
    non-success status with the same value, [null], and the handler then
    writes the same placeholder. *)
Lemma sensor_failures_not_distinguished :
  ~ distinguishes
      (fun a => fst (callIot (Example.answering Example.twelve a) (of_Z 116)
                       (start (Example.pageWith ["road.jpg"])))) /\
  innerHTML (dom (snd (run (Example.answering Example.twelve Rejected)
                         Example.control (Example.pageWith ["road.jpg"]))) (Node 6))
  = innerHTML (dom (snd (run (Example.answering Example.twelve
                                (Response 500 (Readable NotJson)))
                           Example.control (Example.pageWith ["road.jpg"]))) (Node 6)).
Proof.
  split; [|vm_compute; reflexivity].
  intros D.
  apply (D Rejected (Response 500 (Readable NotJson)) TransportFailure NonSuccessStatus);
    try reflexivity. discriminate.
Qed.

(** What a failed sensor step leaves: the run ends normally, the button is
    enabled, the slot shows the placeholder. *)
Lemma failed_sensor_step w b d x cls :
  failureOf (iot w) = Some cls ->
  In (Sent (Iot x)) (log (snd (run w b d))) ->
  exists i p,
    iotEl b = Some i /\
    (exists pre post, log (snd (run w b d)) = pre ++ Sent (Iot x) :: Suspended p :: post) /\
    fst (run w b d) = Done tt /\
    dom (snd (run w b d))
    = enabled b (refreshed (now w) (thumbs w) (update i (with_innerHTML failedText) p)).
Proof.
  intros F I.
  destruct (iot_request_origin w b d x I)
    as (f & j & o & c & r & i & _ & _ & _ & _ & _ & Sl & -> & L & T & D).
  apply sensorSlot_some in Sl as (_ & Hi).
  rewrite (failure_text _ _ F) in D.
  exists i, (shown b o c r (armed w b d)). repeat split; auto.
  rewrite L. eexists. eexists. cbn [app]. reflexivity.
Qed.

Lemma placeholder_shown b t imgs i p :
  innerHTML (enabled b (refreshed t imgs (update i (with_innerHTML failedText) p)) i)
  = failedText.
Proof.
  unfold enabled. rewrite (update_frame innerHTML) by (intro; reflexivity).
  rewrite (refreshed_frame innerHTML) by reflexivity.
  rewrite update_same. reflexivity.
Qed.

(** C9, as the code has it.  On every failure of the sensor call, of any of
    the three classes, [callIot] returns [null] without throwing and without
    touching the page; the classes differ only in the console: a non-success
    status is a warning [[iot] non-ok], a transport failure and an
    unparseable body are both an error [[iot] error] carrying the exception.
    The failure does not end the run: it finishes normally with the button
    enabled and the placeholder in the sensor-output slot. *)
Theorem sensor_failures_collapse w cls :
  failureOf (iot w) = Some cls ->
  (forall x s,
      fst (callIot w x s) = Done JNull /\
      dom (snd (callIot w x s)) = dom s /\
      exists diag,
        log (snd (callIot w x s)) = log s ++ Sent (Iot x) :: Suspended (dom s) :: diag /\
        requests diag = [] /\
        (cls = NonSuccessStatus -> diag = [Console Warn "[iot] non-ok" None]) /\
        (cls <> NonSuccessStatus ->
         exists e, last diag Prevented = Console Error "[iot] error" (Some e))) /\
  (forall b d x,
      In (Sent (Iot x)) (log (snd (run w b d))) ->
      fst (run w b d) = Done tt /\
      disabled (dom (snd (run w b d)) (btn b)) = false /\
      exists i, iotEl b = Some i /\ innerHTML (dom (snd (run w b d)) i) = failedText).
Proof.
  intros F. split.
  - intros x s. rewrite callIot_run. cbn [fst snd dom log].
    rewrite (failure_answer _ _ F). repeat split.
    exists (iotDiag (iot w) (dom s)). split; [reflexivity|].
    split; [apply requests_iotDiag|].
    revert F. unfold failureOf, iotDiag.
    destruct (iot w) as [|st [|[|j]]]; try destruct (ok st); intros [= <-];
      split; intros; try congruence; try reflexivity; cbn; eauto.
  - intros b d x I.
    destruct (failed_sensor_step w b d x cls F I) as (i & p & Hi & _ & T & D).
    rewrite D. split; [exact T|]. split; [apply enabled_at_exit|].
    exists i. split; [exact Hi | apply placeholder_shown].
Qed.

Lemma sensor_failures_collapse_witness :
  fst (run (Example.answering Example.twelve (Response 503 Unreadable))
         Example.control (Example.pageWith ["road.jpg"])) = Done tt /\
  disabled (dom (snd (run (Example.answering Example.twelve (Response 503 Unreadable))
                        Example.control (Example.pageWith ["road.jpg"])))
              (btn Example.control)) = false.
Proof.
  destruct (proj2 (sensor_failures_collapse
                     (Example.answering Example.twelve (Response 503 Unreadable))
                     NonSuccessStatus eq_refl)
              Example.control (Example.pageWith ["road.jpg"]) (of_Z 116))
    as (T & D & _).
  - apply (iot_request_sent _ _ _ "road.jpg"
             (JObject [("output_image", VStr "/static/out/road.jpg");
                       ("vehicle_count", VNum (of_Z 12)); ("risk_level", VStr "medium")])
             (VNum (of_Z 12)) (Node 6)); reflexivity.
  - split; assumption.
Defined.

(* ===================================================================== *)
(** ** A sensor failure after a successful detection *)
(* ===================================================================== *)

(** C7. Take a run that sent its sensor request, and let [p] be the page at
    that moment, with the detection result presented.  If the sensor call
    fails, for any of the three reasons, the run still ends normally: the
    page it leaves is [p] with the placeholder written into the sensor-output
    slot, the thumbnails refreshed and the button enabled.  So every node
    other than the slot keeps its content, every node keeps its class and
    visibility, and every node that is not a metrics thumbnail keeps its
    [src]: status, metadata and annotated image show what they showed. *)
Theorem sensor_failure_is_contained w b d cls pre x p post :
  failureOf (iot w) = Some cls ->
  log (snd (run w b d)) = pre ++ Sent (Iot x) :: Suspended p :: post ->
  exists i,
    iotEl b = Some i /\
    fst (run w b d) = Done tt /\
    dom (snd (run w b d))
    = enabled b (refreshed (now w) (thumbs w) (update i (with_innerHTML failedText) p)) /\
    innerHTML (dom (snd (run w b d)) i) = failedText /\
    (forall n, n <> i -> innerHTML (dom (snd (run w b d)) n) = innerHTML (p n)) /\
    (forall n, className (dom (snd (run w b d)) n) = className (p n)) /\
    (forall n, display (dom (snd (run w b d)) n) = display (p n)) /\
    (forall n, ~ In n (thumbs w) -> src (dom (snd (run w b d)) n) = src (p n)) /\
    disabled (dom (snd (run w b d)) (btn b)) = false.
Proof.
  intros F E.
  assert (I : In (Sent (Iot x)) (log (snd (run w b d)))) by (rewrite E; apply in_elt).
  destruct (iot_request_origin w b d x I)
    as (f & j & o & c & r & i & H & C & _ & _ & _ & Sl & -> & L & T & D).
  apply sensorSlot_some in Sl as (_ & Hi).
  rewrite (failure_text _ _ F) in D.
  assert (P : p = shown b o c r (armed w b d)).
  { rewrite L in E.
    apply (split_unique (fun e => e = Sent (Iot (distance c)))) in E.
    - destruct E as (_ & _ & E). cbn [app] in E. injection E as <- _. reflexivity.
    - reflexivity.
    - intros z Iz ->. apply sent_requests in Iz.
      rewrite requests_app, requests_detectLog in Iz. cbn in Iz.
      destruct Iz as [Iz|[]]. discriminate.
    - intros z Iz ->. apply sent_requests in Iz.
      rewrite requests_app in Iz. cbn in Iz. rewrite requests_iotDiag in Iz.
      destruct Iz. }
  subst p. exists i. rewrite D.
  split; [exact Hi|]. split; [exact T|]. split; [reflexivity|].
  split; [apply placeholder_shown|]. unfold enabled.
  repeat split.
  - intros n N. rewrite (update_frame innerHTML) by (intro; reflexivity).
    rewrite (refreshed_frame innerHTML) by reflexivity.
    rewrite update_other by exact N. reflexivity.
  - intros n. rewrite (update_frame className) by (intro; reflexivity).
    rewrite (refreshed_frame className) by reflexivity.
    rewrite (update_frame className) by (intro; reflexivity). reflexivity.
  - intros n. rewrite (update_frame display) by (intro; reflexivity).
    rewrite (refreshed_frame display) by reflexivity.
    rewrite (update_frame display) by (intro; reflexivity). reflexivity.
  - intros n N. rewrite (update_frame src) by (intro; reflexivity).
    rewrite refreshed_outside by exact N.
    rewrite (update_frame src) by (intro; reflexivity). reflexivity.
  - rewrite update_same. reflexivity.
Qed.

Lemma sensor_failure_is_contained_witness :
  fst (run (Example.answering Example.twelve Rejected)
         Example.control (Example.pageWith ["road.jpg"])) = Done tt /\
  innerHTML (dom (snd (run (Example.answering Example.twelve Rejected)
                         Example.control (Example.pageWith ["road.jpg"]))) (Node 2))
  = [Lit "<b>Detection completed</b>"] /\
  innerHTML (dom (snd (run (Example.answering Example.twelve Rejected)
                         Example.control (Example.pageWith ["road.jpg"]))) (Node 5))
  = metaText (VNum (of_Z 12)) (VStr "medium") /\
  src (dom (snd (run (Example.answering Example.twelve Rejected)
                   Example.control (Example.pageWith ["road.jpg"]))) (Node 4))
  = Some [Shown (VStr "/static/out/road.jpg")] /\
  innerHTML (dom (snd (run (Example.answering Example.twelve Rejected)
                         Example.control (Example.pageWith ["road.jpg"]))) (Node 6))
  = failedText.
Proof.
  pose (l := log (snd (run (Example.answering Example.twelve Rejected)
                         Example.control (Example.pageWith ["road.jpg"])))).
  destruct (sensor_failure_is_contained
              (Example.answering Example.twelve Rejected)
              Example.control (Example.pageWith ["road.jpg"]) TransportFailure
              (firstn 6 l) (of_Z 116)
              (match nth 7 l Prevented with
               | Suspended p => p
               | _ => Example.pageWith []
               end)
              (skipn 8 l) eq_refl eq_refl)
    as (i & _ & T & _).
  split; [exact T|]. vm_compute. repeat split.
Defined.

(* ===================================================================== *)
(** ** Refreshing the metrics thumbnails *)
(* ===================================================================== *)

Lemma string_before_clean s : string_marks (string_before s) = 0%nat.
Proof.
  induction s as [|c s IH]; cbn; [reflexivity|].
  destruct (Ascii.eqb c question) eqn:E; cbn; [reflexivity|].
  rewrite E, IH. reflexivity.
Qed.

Lemma marks_lit s : marks (lit s) = string_marks s.
Proof. destruct s; cbn; [reflexivity | lia]. Qed.

Lemma marks_app t1 t2 : marks (t1 ++ t2) = (marks t1 + marks t2)%nat.
Proof. induction t1 as [|p t1 IH]; cbn; [reflexivity|]. fold (marks (t1 ++ t2)). fold (marks t1). lia. Qed.

Lemma marks_split_first t : marks (split_first t) = 0%nat.
Proof.
  induction t as [|p t IH]; cbn; [reflexivity|].
  destruct (Nat.eqb_spec (string_marks (spelled p)) 0) as [E|E].
  - cbn. fold (marks (split_first t)). lia.
  - rewrite marks_lit. apply string_before_clean.
Qed.

Lemma string_before_splits s :
  string_marks s <> 0%nat ->
  exists tail, s = (string_before s ++ String question tail)%string.
Proof.
  induction s as [|c s IH]; cbn; [congruence|].
  destruct (Ascii.eqb c question) eqn:E.
  - intros _. apply Ascii.eqb_eq in E. subst c. exists s. reflexivity.
  - cbn. intros N. destruct (IH N) as (tail & T). exists tail.
    cbn. rewrite <- T. reflexivity.
Qed.

(** [split_first] gives what the specification calls the portion before any
    question mark. *)
Lemma split_first_before old : beforeQuery (split_first old) old.
Proof.
  induction old as [|p t IH]; [left; split; reflexivity|].
  cbn [split_first].
  destruct (Nat.eqb_spec (string_marks (spelled p)) 0) as [E|E].
  - destruct IH as [(M & B) | (pre & q & post & head & tail & O & M & Q & H & B)].
    + left. split; [cbn; fold (marks t); lia | rewrite B; reflexivity].
    + right. exists (p :: pre), q, post, head, tail.
      split; [rewrite O; reflexivity|].
      split; [cbn; fold (marks pre); lia|].
      split; [exact Q|]. split; [exact H|]. rewrite B. reflexivity.
  - right. destruct (string_before_splits _ E) as (tail & T).
    exists [], p, t, (string_before (spelled p)), tail.
    split; [reflexivity|]. split; [reflexivity|]. split; [exact T|].
    split; [apply string_before_clean | reflexivity].
Qed.

Lemma string_marks_app a b :
  string_marks (a ++ b) = (string_marks a + string_marks b)%nat.
Proof. induction a as [|c a IH]; cbn; [reflexivity|]. rewrite IH. lia. Qed.

Lemma marked_piece head tail : string_marks (head ++ String question tail) <> 0%nat.
Proof. rewrite string_marks_app. cbn. lia. Qed.

Lemma first_mark_unique (pre1 pre2 post1 post2 : text) p1 p2 :
  pre1 ++ p1 :: post1 = pre2 ++ p2 :: post2 ->
  marks pre1 = 0%nat -> marks pre2 = 0%nat ->
  string_marks (spelled p1) <> 0%nat -> string_marks (spelled p2) <> 0%nat ->
  pre1 = pre2 /\ p1 = p2.
Proof.
  revert pre2. induction pre1 as [|q pre1 IH]; intros [|q' pre2] E M1 M2 N1 N2;
    cbn in E; injection E as E1 E2.
  - auto.
  - subst q'. cbn in M2. lia.
  - subst q. cbn in M1. lia.
  - subst q'. cbn in M1, M2. fold (marks pre1) in M1. fold (marks pre2) in M2.
    destruct (IH pre2 E2) as (-> & ->); try assumption; try lia. auto.
Qed.

Lemma head_unique h1 h2 t1 t2 :
  (h1 ++ String question t1 = h2 ++ String question t2)%string ->
  string_marks h1 = 0%nat -> string_marks h2 = 0%nat -> h1 = h2.
Proof.
  revert h2. induction h1 as [|c h1 IH]; intros [|c' h2] E M1 M2; cbn in E.
  - reflexivity.
  - injection E as E _. subst c'. cbn in M2. discriminate.
  - injection E as E _. subst c. cbn in M1. discriminate.
  - injection E as -> E. cbn in M1, M2.
    destruct (Ascii.eqb c' question); [discriminate|].
    f_equal. apply (IH h2 E); assumption.
Qed.

(** The portion before any question mark is one text: [beforeQuery] leaves
    no choice. *)
Lemma beforeQuery_unique base1 base2 old :
  beforeQuery base1 old -> beforeQuery base2 old -> base1 = base2.
Proof.
  assert (X : forall pre p post head tail,
             old = pre ++ p :: post ->
             spelled p = (head ++ String question tail)%string ->
             marks old <> 0%nat).
  { intros pre p post head tail -> Q. rewrite marks_app. cbn.
    rewrite Q. pose proof (marked_piece head tail). lia. }
  intros [(M1 & ->) | (pre1 & p1 & post1 & h1 & t1 & O1 & M1 & Q1 & H1 & ->)]
         [(M2 & ->) | (pre2 & p2 & post2 & h2 & t2 & O2 & M2 & Q2 & H2 & ->)].
  - reflexivity.
  - destruct (X _ _ _ _ _ O2 Q2 M1).
  - destruct (X _ _ _ _ _ O1 Q1 M2).
  - rewrite O1 in O2.
    destruct (first_mark_unique _ _ _ _ _ _ O2 M1 M2) as (-> & ->).
    + rewrite Q1. apply marked_piece.
    + rewrite Q2. apply marked_piece.
    + rewrite Q1 in Q2. rewrite (head_unique _ _ _ _ Q2 H1 H2). reflexivity.
Qed.

(** A text without question mark followed by [?t=...] splits back to itself. *)
Lemma split_first_stamp t rest :
  marks t = 0%nat -> split_first (t ++ Lit "?t=" :: rest) = t.
Proof.
  induction t as [|p t IH]; cbn; [reflexivity|]. fold (marks t). intros M.
  destruct (Nat.eqb_spec (string_marks (spelled p)) 0) as [E|E]; [|lia].
  rewrite IH by lia. reflexivity.
Qed.

Lemma stamped_base t s : split_first (stamped t s) = split_first s.
Proof. unfold stamped. apply split_first_stamp. apply marks_split_first. Qed.

Lemma stamped_marks t s : marks (stamped t s) = 1%nat.
Proof. unfold stamped. rewrite marks_app, marks_split_first. reflexivity. Qed.

Lemma stamped_again t t' s : stamped t' (stamped t s) = stamped t' s.
Proof. unfold stamped at 1. rewrite stamped_base. reflexivity. Qed.

Lemma refreshed_src t imgs d :
  (forall n, In n imgs -> src (d n) <> None) ->
  forall n old, In n imgs -> src (d n) = Some old ->
                src (refreshed t imgs d n) = Some (stamped t old).
Proof.
  revert d. induction imgs as [|img rest IH]; intros d A n old I S; [destruct I|].
  cbn [refreshed]. destruct (src (d img)) as [s|] eqn:E;
    [|exfalso; apply (A img); [left; reflexivity | exact E]].
  set (d1 := update img (with_src (Some (stamped t s))) d).
  assert (A1 : forall m, In m rest -> src (d1 m) <> None).
  { intros m Im. unfold d1, update. destruct (node_eq_dec m img); [discriminate|].
    apply A. right. exact Im. }
  destruct (in_dec node_eq_dec n rest) as [Ir|Nr].
  - destruct (node_eq_dec n img) as [->|Ne].
    + assert (s = old) by congruence. subst s.
      rewrite (IH d1 A1 img (stamped t old) Ir).
      * rewrite stamped_again. reflexivity.
      * unfold d1. rewrite update_same. reflexivity.
    + apply (IH d1 A1 n old Ir). unfold d1. rewrite update_other by exact Ne. exact S.
  - destruct I as [<-|I]; [|contradiction].
    rewrite refreshed_outside by exact Nr.
    unfold d1. rewrite update_same. cbn. congruence.
Qed.

Lemma refreshed_keeps_src t imgs d :
  (forall n, In n imgs -> src (d n) <> None) ->
  forall n, In n imgs -> src (refreshed t imgs d n) <> None.
Proof.
  intros A n I. destruct (src (d n)) as [old|] eqn:E; [|exfalso; exact (A n I E)].
  rewrite (refreshed_src t imgs d A n old I E). discriminate.
Qed.

Lemma refresh_total w s :
  (forall n, In n (thumbs w) -> src (dom s n) <> None) ->
  refreshMetricsThumbnails w s
  = (Done tt, {| dom := refreshed (now w) (thumbs w) (dom s); log := log s |}).
Proof.
  unfold refreshMetricsThumbnails.
  generalize (now w) as t. generalize (thumbs w) as imgs.
  intros imgs t. revert s.
  induction imgs as [|img rest IH]; intros [d l] A; [reflexivity|].
  cbn [forEach refreshed dom log] in *. unfold bind, refreshOne at 1, get_dom, bind.
  cbn [dom log].
  destruct (src (d img)) as [s|] eqn:E;
    [|exfalso; apply (A img); [left; reflexivity | exact E]].
  unfold set, modify. cbn [dom log]. apply IH. cbn [dom].
  intros m Im. unfold update. destruct (node_eq_dec m img); [discriminate|].
  apply A. right. exact Im.
Qed.

(** C10 as stated fails: a matched node without a [src] stops the loop, and
    a thumbnail matched after it keeps the [src] it had.  Node 9 has no
    [src]; node 8, matched after it, is not given the new timestamp. *)
Lemma thumbnail_after_node_without_src_is_skipped :
  In (Node 8)
     (thumbs {| object_url := None; detect := Rejected; iot := Rejected;
                now := 42; thumbs := [Node 9; Node 8] |}) /\
  src (Example.pageWith [] (Node 8))
  = Some [Lit "/static/metrics/f1.png?t=1700000000000"] /\
  fst (refreshMetricsThumbnails
         {| object_url := None; detect := Rejected; iot := Rejected;
            now := 42; thumbs := [Node 9; Node 8] |}
         (start (Example.pageWith [])))
  = Thrown TypeError /\
  src (dom (snd (refreshMetricsThumbnails
                   {| object_url := None; detect := Rejected; iot := Rejected;
                      now := 42; thumbs := [Node 9; Node 8] |}
                   (start (Example.pageWith [])))) (Node 8))
  = Some [Lit "/static/metrics/f1.png?t=1700000000000"].
Proof.
  split; [right; left; reflexivity|]. split; [reflexivity|].
  split; reflexivity.
Qed.

(** C10, as the code has it.  On a page where every node matched by the
    thumbnail selector has a [src], [refreshMetricsThumbnails] ends normally,
    logs nothing, leaves every other node alone and gives each thumbnail the
    [src] made of the portion of its old [src] before any question mark,
    then [?t=], then the timestamp.  The new [src] has exactly one question
    mark and the same portion before it, so a second refresh rebuilds the
    [src] from the same base: only the timestamp changes, nothing
    accumulates. *)
Theorem thumbnails_refreshed w s :
  (forall n, In n (thumbs w) -> src (dom s n) <> None) ->
  fst (refreshMetricsThumbnails w s) = Done tt /\
  log (snd (refreshMetricsThumbnails w s)) = log s /\
  (forall n, ~ In n (thumbs w) -> dom (snd (refreshMetricsThumbnails w s)) n = dom s n) /\
  (forall n old,
      In n (thumbs w) -> src (dom s n) = Some old ->
      exists base,
        beforeQuery base old /\
        src (dom (snd (refreshMetricsThumbnails w s)) n)
        = Some (base ++ [Lit "?t="; Shown (VNum (of_Z (now w)))]) /\
        beforeQuery base (base ++ [Lit "?t="; Shown (VNum (of_Z (now w)))]) /\
        marks (base ++ [Lit "?t="; Shown (VNum (of_Z (now w)))]) = 1%nat /\
        forall w',
          thumbs w' = thumbs w ->
          fst (refreshMetricsThumbnails w' (snd (refreshMetricsThumbnails w s))) = Done tt /\
          src (dom (snd (refreshMetricsThumbnails w'
                           (snd (refreshMetricsThumbnails w s)))) n)
          = Some (base ++ [Lit "?t="; Shown (VNum (of_Z (now w')))])).
Proof.
  intros A. rewrite (refresh_total w s A). cbn [fst snd dom log].
  split; [reflexivity|]. split; [reflexivity|].
  split; [intros n N; apply refreshed_outside; exact N|].
  intros n old I S. exists (split_first old).
  pose proof (refreshed_src (now w) (thumbs w) (dom s) A n old I S) as R.
  split; [apply split_first_before|]. split; [exact R|].
  split.
  { right. exists (split_first old), (Lit "?t="), [Shown (VNum (of_Z (now w)))],
      ""%string, "t="%string.
    split; [reflexivity|]. split; [apply marks_split_first|].
    split; [reflexivity|]. split; [reflexivity|].
    cbn [lit]. rewrite app_nil_r. reflexivity. }
  split; [apply stamped_marks|].
  intros w' T.
  assert (A' : forall m, In m (thumbs w') ->
                         src (refreshed (now w) (thumbs w) (dom s) m) <> None).
  { rewrite T. apply refreshed_keeps_src. exact A. }
  rewrite (refresh_total w'
             {| dom := refreshed (now w) (thumbs w) (dom s); log := log s |} A').
  cbn [fst snd dom].
  split; [reflexivity|].
  rewrite T in A' |- *.
  rewrite (refreshed_src (now w') (thumbs w) _ A' n (stamped (now w) old) I R).
  rewrite stamped_again. reflexivity.
Qed.

Lemma thumbnails_refreshed_witness :
  exists base,
    beforeQuery base [Lit "/static/metrics/f1.png?t=1700000000000"] /\
    src (dom (snd (refreshMetricsThumbnails
                     (Example.answering Example.twelve Example.sensorOk)
                     (start (Example.pageWith [])))) (Node 8))
    = Some (base ++ [Lit "?t="; Shown (VNum (of_Z 1700000000123))]).
Proof.
  assert (A : forall n,
             In n (thumbs (Example.answering Example.twelve Example.sensorOk)) ->
             src (dom (start (Example.pageWith [])) n) <> None)
    by (intros n [<-|[<-|[]]]; discriminate).
  destruct (proj2 (proj2 (proj2 (thumbnails_refreshed _ _ A)))
              (Node 8) [Lit "/static/metrics/f1.png?t=1700000000000"]
              (or_intror (or_introl eq_refl)) eq_refl) as (base & B & S & _).
  exists base. split; [exact B | exact S].
Defined.

(* ===================================================================== *)
(** ** Attaching the handlers *)
(* ===================================================================== *)

Lemma status_is_new b : StatusOf b <> b.
Proof. induction b as [id|b IH]; [discriminate|]. intros [= E]. exact (IH E). Qed.

(** One step of the loop of line 91. *)
Lemma attachOne_run p b s :
  exists d',
    attachOne p b s = (Done tt, {| dom := d'; log := log s |}) /\
    (isAttached (dom s b) = true -> d' = dom s) /\
    (isAttached (dom s b) = false ->
     isAttached (d' b) = true /\
     (exists l, listeners (d' b) = listeners (dom s b) ++ [l] /\ btn l = b) /\
     (forall n, n <> b -> n <> StatusOf b -> d' n = dom s n) /\
     (listeners (d' (StatusOf b)) = [] /\ isAttached (d' (StatusOf b)) = false
      \/ d' (StatusOf b) = dom s (StatusOf b))) /\
    (forall id, disabled (d' (Node id)) = disabled (dom s (Node id))).
Proof.
  destruct s as [d l]. unfold attachOne, bind, get_dom, set, modify. cbn [dom log].
  destruct (isAttached (d b)) eqn:A.
  - exists d. repeat split; auto. discriminate.
  - match goal with
    | |- context [match ?q with Some _ => _ | None => _ end] =>
        match q with
        | orElse _ _ => destruct q as [st|]
        end
    end; cbn [ret dom log]; eexists; (split; [reflexivity|]);
      (split; [discriminate|]); (split; [intros _|]).
    + repeat split.
      * rewrite update_same. cbn. rewrite update_same. reflexivity.
      * eexists. rewrite update_same. cbn.
        rewrite update_same. cbn. split; reflexivity.
      * intros n N _. rewrite !update_other by exact N. reflexivity.
      * right. rewrite !update_other by apply status_is_new. reflexivity.
    + intros id. frame. reflexivity.
    + repeat split.
      * rewrite update_same. cbn. rewrite update_other by (apply not_eq_sym, status_is_new).
        rewrite update_same. reflexivity.
      * eexists. rewrite update_same. cbn.
        rewrite update_other by (apply not_eq_sym, status_is_new).
        rewrite update_same. cbn. split; reflexivity.
      * intros n N N'. rewrite update_other by exact N.
        rewrite update_other by exact N'. rewrite update_other by exact N. reflexivity.
      * left. rewrite update_other by apply status_is_new.
        rewrite update_same. split; reflexivity.
    + intros id. rewrite (update_frame disabled) by (intro; reflexivity).
      rewrite update_other by discriminate. frame. reflexivity.
Qed.

Lemma fresh_consistent d : fresh d -> consistent d.
Proof.
  intros F n. destruct (F n) as (L & A). rewrite L, A. split; [reflexivity|].
  intros l [].
Qed.

Lemma attachOne_keeps p b s :
  consistent (dom s) ->
  fst (attachOne p b s) = Done tt /\
  consistent (dom (snd (attachOne p b s))) /\
  isAttached (dom (snd (attachOne p b s)) b) = true /\
  (forall id, isAttached (dom s (Node id)) = true ->
              isAttached (dom (snd (attachOne p b s)) (Node id)) = true) /\
  (forall id, disabled (dom (snd (attachOne p b s)) (Node id))
              = disabled (dom s (Node id))).
Proof.
  intros C. destruct (attachOne_run p b s) as (d' & -> & Old & New & Dis).
  cbn [fst snd dom]. split; [reflexivity|].
  destruct (isAttached (dom s b)) eqn:A.
  - rewrite (Old eq_refl) in *. repeat split; auto; apply C.
  - destruct (New eq_refl) as (Fl & (l & Ls & Bl) & Out & St).
    split; [|split; [exact Fl | split; [|exact Dis]]].
    + intros n. destruct (node_eq_dec n b) as [->|Nb].
      * rewrite Fl, Ls. destruct (C b) as (Len & Own). rewrite A in Len.
        destruct (listeners (dom s b)); [|discriminate]. cbn.
        split; [reflexivity|]. intros l' [<-|[]]. exact Bl.
      * destruct (node_eq_dec n (StatusOf b)) as [->|Ns].
        -- destruct St as [(L0 & A0)|E].
           ++ rewrite L0, A0. split; [reflexivity|]. intros l' [].
           ++ rewrite E. apply C.
        -- rewrite (Out n Nb Ns). apply C.
    + intros id Aid. destruct (node_eq_dec (Node id) b) as [<-|Nb]; [exact Fl|].
      rewrite (Out (Node id) Nb) by discriminate. exact Aid.
Qed.

Lemma attach_loop p bs s :
  consistent (dom s) ->
  fst (forEach bs (attachOne p) s) = Done tt /\
  consistent (dom (snd (forEach bs (attachOne p) s))) /\
  (forall id, isAttached (dom s (Node id)) = true \/ In (Node id) bs ->
              isAttached (dom (snd (forEach bs (attachOne p) s)) (Node id)) = true) /\
  (forall id, disabled (dom (snd (forEach bs (attachOne p) s)) (Node id))
              = disabled (dom s (Node id))).
Proof.
  revert s. induction bs as [|b bs IH]; intros s C.
  - cbn. split; [reflexivity|]. split; [exact C|].
    split; [intros id [A|[]]; exact A | reflexivity].
  - cbn [forEach]. unfold bind.
    destruct (attachOne_keeps p b s C) as (T & C1 & Fb & Mono & Dis).
    destruct (attachOne p b s) as [[[]|e] s1]; cbn [fst snd] in *; [|discriminate].
    destruct (IH s1 C1) as (T2 & C2 & Fl2 & Dis2).
    split; [exact T2|]. split; [exact C2|]. split.
    + intros id [A|[E|I]]; apply Fl2.
      * left. apply Mono. exact A.
      * left. rewrite E in Fb. exact Fb.
      * right. exact I.
    + intros id. rewrite Dis2. apply Dis.
Qed.

Lemma attached_keeps p d :
  consistent d ->
  consistent (attached p d) /\
  (forall id, isAttached (d (Node id)) = true \/ In (Node id) (runButtons p d) ->
              isAttached (attached p d (Node id)) = true) /\
  (forall id, disabled (attached p d (Node id)) = disabled (d (Node id))).
Proof.
  intros C. unfold attached, attachDetectHandlers, bind, get_dom, start. cbn [dom log].
  destruct (runButtons p d) as [|b bs] eqn:R.
  - cbn. split; [exact C|]. split; [intros id [A|[]]; exact A | reflexivity].
  - cbn [ret]. apply (attach_loop p (b :: bs) {| dom := d; log := [] |} C).
Qed.

Lemma attachedTimes_keeps p k d :
  consistent d ->
  consistent (attachedTimes p k d) /\
  (forall id, disabled (attachedTimes p k d (Node id)) = disabled (d (Node id))) /\
  (forall id j, (j < k)%nat ->
                In (Node id) (runButtons p (attachedTimes p j d)) ->
                isAttached (attachedTimes p k d (Node id)) = true).
Proof.
  intros C. induction k as [|k (Ck & Dk & Fk)].
  - cbn. split; [exact C|]. split; [reflexivity|]. intros id j L. lia.
  - unfold attachedTimes in *. rewrite Nat.iter_succ.
    destruct (attached_keeps p (Nat.iter k (attached p) d) Ck) as (C1 & F1 & D1).
    split; [exact C1|]. split; [intros id; rewrite D1; apply Dk|].
    intros id j L I. apply F1.
    destruct (Nat.eq_dec j k) as [->|N]; [right; exact I|].
    left. apply (Fk id j); [lia | exact I].
Qed.

(** C8. Start from a page on which no button carries the marker or a
    listener, and call [attachDetectHandlers] [k] times, the page's queries
    being free to answer differently as the document changes.  Then no node
    has more than one click listener, so a click starts at most one run; and
    every button that some call found has exactly one, closed over that
    button: a click on it, while it is enabled, starts exactly one run. *)
Theorem attach_binds_once p d k :
  fresh d ->
  (forall n, (length (listeners (attachedTimes p k d n)) <= 1)%nat) /\
  (forall n, (length (click (attachedTimes p k d) n) <= 1)%nat) /\
  (forall id j,
      (j < k)%nat ->
      In (Node id) (runButtons p (attachedTimes p j d)) ->
      length (listeners (attachedTimes p k d (Node id))) = 1%nat /\
      (disabled (d (Node id)) = false ->
       exists l, click (attachedTimes p k d) (Node id) = [l] /\ btn l = Node id)).
Proof.
  intros F.
  destruct (attachedTimes_keeps p k d (fresh_consistent d F)) as (C & D & A).
  assert (L : forall n, (length (listeners (attachedTimes p k d n)) <= 1)%nat).
  { intros n. destruct (C n) as (Len & _). rewrite Len.
    destruct (isAttached _); lia. }
  split; [exact L|]. split.
  - intros n. unfold click. destruct (disabled _ && formControl _); [cbn; lia | apply L].
  - intros id j Lt I. destruct (C (Node id)) as (Len & Own).
    rewrite (A id j Lt I) in Len. split; [exact Len|].
    intros E. unfold click. rewrite D, E. cbn [andb].
    destruct (listeners (attachedTimes p k d (Node id))) as [|l [|l' ls]];
      try discriminate.
    exists l. split; [reflexivity|]. apply Own. left. reflexivity.
Qed.

Lemma example_page_fresh : fresh (Example.pageWith []).
Proof.
  intros [id|b]; [|split; reflexivity].
  do 9 (destruct id as [|id]; [split; reflexivity|]). split; reflexivity.
Qed.

Lemma attach_binds_once_witness :
  length (listeners (attachedTimes Example.markup 3 (Example.pageWith []) (Node 0))) = 1%nat.
Proof.
  exact (proj1 (proj2 (proj2 (attach_binds_once Example.markup (Example.pageWith []) 3
                                example_page_fresh))
                  0%nat 0%nat (Nat.lt_0_succ 2) (or_introl eq_refl))).
Defined.

(** When a matched node has no [src], the loop throws there: that node and
    the ones after it are left as they were. *)
Lemma refresh_stops_without_src w s img rest :
  thumbs w = img :: rest -> src (dom s img) = None ->
  refreshMetricsThumbnails w s = (Thrown TypeError, s).
Proof.
  intros T E. destruct s as [d l]. unfold refreshMetricsThumbnails. rewrite T.
  cbn [forEach]. unfold bind, refreshOne, get_dom, bind. cbn [dom] in *.
  rewrite E. reflexivity.
Qed.

(* ===================================================================== *)
(** ** Concrete runs *)
(* ===================================================================== *)

Example numbers_from_strings :
  map string_to_number ["12"; " 1.5e1 "; "0x1F"; "-Infinity"; "12px"; ""; "."]
  = [of_Z 12; Fin (15 # 1); of_Z 31; NegInf; NaN; of_Z 0; NaN].
Proof. reflexivity. Qed.

Example distance_of_text_count : distance (VStr "12") = of_Z 116.
Proof. reflexivity. Qed.

Example distance_of_fraction : distance (VNum (Fin (1 # 4))) = of_Z 140.
Proof. reflexivity. Qed.

(** A complete run: what is sent, logged and assigned, in order. *)
Example successful_run_log :
  map (fun e => match e with Suspended _ => Suspended (fun _ => blank) | _ => e end)
    (log (snd (run (Example.answering Example.twelve Example.sensorOk)
                 Example.control (Example.pageWith ["road.jpg"]))))
  = [Prevented; Disabled (Node 0) true; Sent (Detect "road.jpg");
     Suspended (fun _ => blank); Suspended (fun _ => blank);
     Console Debug "[detect] json:" None; Sent (Iot (of_Z 116));
     Suspended (fun _ => blank); Suspended (fun _ => blank);
     Disabled (Node 0) false].
Proof. reflexivity. Qed.

Example successful_run_page :
  innerHTML (dom (snd (run (Example.answering Example.twelve Example.sensorOk)
                         Example.control (Example.pageWith ["road.jpg"]))) (Node 6))
  = [Lit "<b>Distance:</b> "; Shown (VNum (of_Z 116));
     Lit " cm &nbsp; <b>Alert:</b> "; Shown (VStr "SAFE");
     Lit " &nbsp; <b>Action:</b> "; Shown (VStr "Proceed")] /\
  src (dom (snd (run (Example.answering Example.twelve Example.sensorOk)
                   Example.control (Example.pageWith ["road.jpg"]))) (Node 7))
  = Some [Lit "/static/metrics/pr_curve.png"; Lit "?t=";
          Shown (VNum (of_Z 1700000000123))].
Proof. split; reflexivity. Qed.

Example server_error_run :
  innerHTML (dom (snd (run (Example.answering (Response 500 (Readable NotJson)) Rejected)
                         Example.control (Example.pageWith ["road.jpg"]))) (Node 2))
  = [Lit "<span style='color:red'>Server error "; Shown (VNum (of_Z 500)); Lit "</span>"] /\
  disabled (dom (snd (run (Example.answering (Response 500 (Readable NotJson)) Rejected)
                        Example.control (Example.pageWith ["road.jpg"]))) (Node 0))
  = false.
Proof. split; reflexivity. Qed.

(* ===================================================================== *)
(** ** More on the derived distance *)
(* ===================================================================== *)

Lemma of_Z_inj a b : of_Z a = of_Z b -> a = b.
Proof. unfold of_Z, inject_Z. intros [= E]. exact E. Qed.

Lemma round_integer k : round (inject_Z k) = k.
Proof.
  unfold round, Qfloor, Qplus, inject_Z. cbn [Qnum Qden].
  rewrite Z.mul_1_l. change (Z.pos (1 * 2)) with 2%Z.
  symmetry. apply (Z.div_unique _ _ _ 1%Z); lia.
Qed.

Lemma round_monotone p q : (p <= q)%Q -> (round p <= round q)%Z.
Proof.
  intros H. unfold round. apply Qfloor_resp_le.
  apply Qplus_le_l. exact H.
Qed.

(** X1. Whatever the count is, the distance of line 192 is never below the
    floor.  It is NaN exactly when the count does not convert to a number.
    Otherwise it is plus infinity or an integer that is at least 5; a count
    of minus infinity gives plus infinity and a count of plus infinity gives
    5. *)
Theorem distance_never_below_floor c :
  (distance c = NaN <-> to_number c = NaN) /\
  (to_number c = NegInf -> distance c = PosInf) /\
  (to_number c = PosInf -> distance c = of_Z 5) /\
  (to_number c <> NaN ->
   distance c = PosInf \/ exists z, distance c = of_Z z /\ (5 <= z)%Z).
Proof.
  unfold distance. destruct (to_number c) as [| | |q] eqn:E.
  - split; [split; reflexivity|]. split; [discriminate|].
    split; [discriminate | congruence].
  - split; [split; discriminate|]. split; [discriminate|].
    split; [reflexivity|]. intros _. right. exists 5%Z. split; [reflexivity | lia].
  - split; [split; discriminate|]. split; [reflexivity|].
    split; [discriminate|]. intros _. left. reflexivity.
  - change (Math_max (of_Z 5)
              (Math_round (num_sub (of_Z 140) (num_mul (Fin q) (of_Z 2)))))
      with (distance (VNum (Fin q))).
    rewrite distance_of_number.
    split; [split; discriminate|]. split; [discriminate|].
    split; [discriminate|]. intros _. right. exists (derivedDistance q).
    split; [reflexivity | unfold derivedDistance; lia].
Qed.

(** X2. For a count that is a number [n >= 0] the distance is an integer
    between 5 and 140, and a larger count never gives a larger distance. *)
Theorem distance_range_and_order n m :
  (0 <= n)%Q -> (n <= m)%Q ->
  exists a b,
    distance (VNum (Fin n)) = of_Z a /\ distance (VNum (Fin m)) = of_Z b /\
    (5 <= b)%Z /\ (b <= a)%Z /\ (a <= 140)%Z.
Proof.
  intros N L. exists (derivedDistance n), (derivedDistance m).
  rewrite !distance_of_number. split; [reflexivity|]. split; [reflexivity|].
  unfold derivedDistance.
  assert (R : (round (140 - m * 2) <= round (140 - n * 2))%Z).
  { apply round_monotone. apply Qplus_le_r. apply Qopp_le_compat.
    apply Qmult_le_compat_r; [exact L | discriminate]. }
  assert (U : (round (140 - n * 2) <= 140)%Z).
  { rewrite <- (round_integer 140). apply round_monotone.
    setoid_replace (inject_Z 140) with (140 - 0 * 2)%Q by reflexivity.
    apply Qplus_le_r. apply Qopp_le_compat.
    apply Qmult_le_compat_r; [exact N | discriminate]. }
  lia.
Qed.

Lemma distance_range_and_order_witness :
  exists a b,
    distance (VNum (Fin 3)) = of_Z a /\ distance (VNum (Fin (7 # 2))) = of_Z b /\
    (5 <= b)%Z /\ (b <= a)%Z /\ (a <= 140)%Z.
Proof.
  apply (distance_range_and_order 3 (7 # 2)); unfold Qle; cbn; lia.
Defined.

(** X3. On a whole count [k], of magnitude at most 2^51 so that binary64
    computes line 192 without rounding, the rounding does nothing and the
    floor takes over from 68 vehicles on: the distance is [140 - 2k] up to
    [k = 67] and 5 from there. *)
Theorem distance_of_whole_count k :
  wholeCount k ->
  distance (VNum (of_Z k)) = of_Z (if (k <=? 67)%Z then 140 - 2 * k else 5).
Proof.
  intros _.
  unfold of_Z at 1. rewrite distance_of_number. f_equal. unfold derivedDistance.
  assert (E : (140 - inject_Z k * 2 == inject_Z (140 - 2 * k))%Q).
  { unfold Qeq, Qminus, Qplus, Qopp, Qmult, inject_Z. cbn [Qnum Qden]. lia. }
  assert (R : round (140 - inject_Z k * 2) = (140 - 2 * k)%Z).
  { rewrite <- (round_integer (140 - 2 * k)). unfold round.
    apply Qfloor_comp. rewrite E. reflexivity. }
  rewrite R. destruct (Z.leb_spec k 67); lia.
Qed.

Lemma distance_of_whole_count_witness :
  distance (VNum (of_Z (-3))) = of_Z 146 /\ distance (VNum (of_Z 68)) = of_Z 5.
Proof.
  split.
  - apply (distance_of_whole_count (-3)). unfold wholeCount. lia.
  - apply (distance_of_whole_count 68). unfold wholeCount. lia.
Defined.

(* ===================================================================== *)
(** ** Frames of the phases *)
(* ===================================================================== *)

(** A field that no setter of the handler writes comes out of a run as it
    went in. *)
Lemma run_frame {X} (field : element -> X) w b d n :
  untouched field -> field (dom (snd (run w b d)) n) = field (d n).
Proof.
  intros U. pose proof U as (H1 & H2 & H3 & H4 & H5).
  destruct (chosen d (fileInput b)) as [f|] eqn:H.
  - destruct (run_file_cases w b d f H) as
        [(c & _ & _ & R) | [(j & _ & _ & R) | (j & o & c & r & _ & _ & _ & _ & R)]];
      rewrite R; cbn [snd dom].
    + unfold afterDetect, enabled.
      destruct c; try apply armed_frame; try assumption;
        rewrite (update_frame field) by (intro; apply H5);
        rewrite status_frame by assumption; apply armed_frame; assumption.
    + apply armed_frame. assumption.
    + unfold enabled. rewrite (update_frame field) by (intro; apply H5).
      rewrite refreshed_frame by assumption.
      rewrite sensed_frame by assumption.
      rewrite shown_frame by assumption.
      apply armed_frame. assumption.
  - rewrite (run_no_file w b d H). cbn [snd dom]. unfold warned, processing.
    rewrite !status_frame by assumption. reflexivity.
Qed.

(* ===================================================================== *)
(** ** More on a run of the click handler *)
(* ===================================================================== *)

(** X4. A run never changes which files are selected, never touches the
    attachment marker and never adds or removes a listener, on any node and
    however it ends: after the run the same file is still chosen and a click
    on a button that is enabled starts the same listeners as before. *)
Theorem run_keeps_bindings w b d :
  (forall n,
      files (dom (snd (run w b d)) n) = files (d n) /\
      tvAttached (dom (snd (run w b d)) n) = tvAttached (d n) /\
      listeners (dom (snd (run w b d)) n) = listeners (d n)) /\
  (forall fi, chosen (dom (snd (run w b d))) fi = chosen d fi) /\
  (forall n, disabled (dom (snd (run w b d)) n) = false ->
             disabled (d n) = false ->
             click (dom (snd (run w b d))) n = click d n).
Proof.
  assert (F : forall n, files (dom (snd (run w b d)) n) = files (d n))
    by (intros; apply (run_frame files); repeat split).
  assert (L : forall n, listeners (dom (snd (run w b d)) n) = listeners (d n))
    by (intros; apply (run_frame listeners); repeat split).
  split; [|split].
  - intros n. split; [apply F|]. split; [|apply L].
    apply (run_frame tvAttached). repeat split.
  - intros [n|]; cbn; [|reflexivity]. rewrite F. reflexivity.
  - intros n E1 E2. unfold click. rewrite E1, E2. cbn [andb]. apply L.
Qed.

Lemma run_keeps_bindings_witness :
  click (dom (snd (run (Example.answering Example.twelve Example.sensorOk)
                     Example.control (Example.pageWith ["road.jpg"]))))
    (Node 0)
  = click (Example.pageWith ["road.jpg"]) (Node 0).
Proof.
  apply (proj2 (proj2 (run_keeps_bindings
                         (Example.answering Example.twelve Example.sensorOk)
                         Example.control (Example.pageWith ["road.jpg"]))));
    reflexivity.
Defined.

Lemma run_parsed w b d f st j o c r :
  chosen d (fileInput b) = Some f ->
  detect w = Response st (Readable (Json j)) -> ok st = true ->
  outImg j = Some o -> count j = Some c -> risk j = Some r ->
  run w b d
  = (Done tt,
     {| dom := enabled b (refreshed (now w) (thumbs w)
                            (sensed w b c (shown b o c r (armed w b d))));
        log := detectLog w b f d ++
               Console Debug "[detect] json:" None ::
               sensorLog w b c (shown b o c r (armed w b d)) ++
               [Disabled (btn b) false] |}).
Proof.
  intros H E K Ho Hc Hr.
  assert (C : classify (detect w) = Parsed j) by (apply classify_parsed; eauto).
  rewrite (run_with_file w b d f H), C.
  rewrite (present_run w b j _ o c r Ho Hc Hr). reflexivity.
Qed.

Lemma not_parsed a :
  (forall st j, a = Response st (Readable (Json j)) -> ok st = false) ->
  parsed (classify a) = None.
Proof.
  intros H. unfold classify. destruct a as [|st [|[|j]]]; try reflexivity;
    destruct (ok st) eqn:K; try reflexivity.
  specialize (H st j eq_refl). congruence.
Qed.

Lemma run_failed w b d f :
  chosen d (fileInput b) = Some f ->
  parsed (classify (detect w)) = None ->
  run w b d
  = (Done tt,
     {| dom := enabled b (status (statusEl b) (errorText (classify (detect w)))
                            "error" (armed w b d));
        log := detectLog w b f d |}).
Proof.
  intros H P. rewrite (run_with_file w b d f H).
  destruct (classify (detect w)); try discriminate; reflexivity.
Qed.

(** X5. When the detection call fails, the run ends normally with the button
    enabled and the status element in class [error], showing: for a rejected
    request or an unreadable body the network message, for a non-success
    status the server message with that very status code, for a body that is
    not JSON the invalid-response message. *)
Theorem detection_failure_messages w b d f :
  chosen d (fileInput b) = Some f ->
  (forall st j, detect w = Response st (Readable (Json j)) -> ok st = false) ->
  fst (run w b d) = Done tt /\
  disabled (dom (snd (run w b d)) (btn b)) = false /\
  className (dom (snd (run w b d)) (statusEl b)) = "error" /\
  innerHTML (dom (snd (run w b d)) (statusEl b))
  = match detect w with
    | Rejected =>
        [Lit "<span style='color:red'>Network error — backend may be down</span>"]
    | Response st bd =>
        if ok st then
          match bd with
          | Unreadable =>
              [Lit "<span style='color:red'>Network error — backend may be down</span>"]
          | _ =>
              [Lit "<span style='color:red'>Invalid server response — check backend logs</span>"]
          end
        else
          [Lit "<span style='color:red'>Server error "; Shown (VNum (of_Z st));
           Lit "</span>"]
    end.
Proof.
  intros H N. pose proof (not_parsed _ N) as P.
  rewrite (run_failed w b d f H P). cbn [fst snd dom].
  split; [reflexivity|]. split; [apply enabled_at_exit|].
  unfold enabled.
  rewrite (update_frame className) by (intro; reflexivity).
  rewrite (update_frame innerHTML) by (intro; reflexivity).
  destruct (status_shows (statusEl b) (errorText (classify (detect w))) "error"
              (armed w b d)) as (-> & ->).
  split; [reflexivity|].
  unfold classify. destruct (detect w) as [|st [|[|j]]]; try reflexivity;
    destruct (ok st) eqn:K; try reflexivity.
  specialize (N st j eq_refl). congruence.
Qed.

Lemma detection_failure_messages_witness :
  innerHTML (dom (snd (run (Example.answering (Response 502 Unreadable) Rejected)
                         Example.control (Example.pageWith ["road.jpg"]))) (Node 2))
  = [Lit "<span style='color:red'>Server error "; Shown (VNum (of_Z 502));
     Lit "</span>"].
Proof.
  refine (proj2 (proj2 (proj2 (detection_failure_messages
                                 (Example.answering (Response 502 Unreadable) Rejected)
                                 Example.control (Example.pageWith ["road.jpg"])
                                 "road.jpg" eq_refl _)))).
  intros st j E. discriminate E.
Defined.

Lemma detectLog_consoles w b f d l t e :
  In (Console l t e) (detectLog w b f d) -> l <> Debug.
Proof.
  unfold detectLog, previewLog, detectDiag.
  destruct (previewEl b), (object_url w), (detect w) as [|st [|[|j]]];
    try destruct (ok st); cbn; intuition congruence.
Qed.

(** X6. When the detection call fails, nothing of a result is presented: the
    only text and class that change are those of the status element, the only
    [src] and visibility that change are those of the preview, the thumbnails
    are not refreshed, the detection request is the only request, and no
    answer is logged. *)
Theorem detection_failure_presents_nothing w b d f :
  chosen d (fileInput b) = Some f ->
  (forall st j, detect w = Response st (Readable (Json j)) -> ok st = false) ->
  (forall n, n <> statusEl b ->
             innerHTML (dom (snd (run w b d)) n) = innerHTML (d n) /\
             className (dom (snd (run w b d)) n) = className (d n)) /\
  (forall n, previewEl b <> Some n ->
             src (dom (snd (run w b d)) n) = src (d n) /\
             display (dom (snd (run w b d)) n) = display (d n)) /\
  requests (log (snd (run w b d))) = [Detect f] /\
  ~ In (Console Debug "[detect] json:" None) (log (snd (run w b d))).
Proof.
  intros H N. pose proof (not_parsed _ N) as P.
  rewrite (run_failed w b d f H P). cbn [fst snd dom log].
  unfold enabled, armed, processing. repeat split.
  - rewrite (update_frame innerHTML) by (intro; reflexivity).
    rewrite status_other by assumption.
    rewrite (update_frame innerHTML) by (intro; reflexivity).
    rewrite (previewed_frame innerHTML) by reflexivity.
    rewrite status_other by assumption. reflexivity.
  - rewrite (update_frame className) by (intro; reflexivity).
    rewrite status_other by assumption.
    rewrite (update_frame className) by (intro; reflexivity).
    rewrite (previewed_frame className) by reflexivity.
    rewrite status_other by assumption. reflexivity.
  - rewrite (update_frame src) by (intro; reflexivity).
    rewrite (status_frame src) by reflexivity.
    rewrite (update_frame src) by (intro; reflexivity).
    rewrite previewed_other by assumption.
    rewrite (status_frame src) by reflexivity. reflexivity.
  - rewrite (update_frame display) by (intro; reflexivity).
    rewrite (status_frame display) by reflexivity.
    rewrite (update_frame display) by (intro; reflexivity).
    rewrite previewed_other by assumption.
    rewrite (status_frame display) by reflexivity. reflexivity.
  - apply requests_detectLog.
  - intros I. exact (detectLog_consoles _ _ _ _ _ _ _ I eq_refl).
Qed.

Lemma detection_failure_presents_nothing_witness :
  requests (log (snd (run (Example.answering Rejected Example.sensorOk)
                        Example.control (Example.pageWith ["road.jpg"]))))
  = [Detect "road.jpg"].
Proof.
  refine (proj1 (proj2 (proj2 (detection_failure_presents_nothing
                                 (Example.answering Rejected Example.sensorOk)
                                 Example.control (Example.pageWith ["road.jpg"])
                                 "road.jpg" eq_refl _)))).
  intros st j E. discriminate E.
Defined.

(** X7. A run sends nothing without a file; with a file it sends the
    detection request for the first selected file, once, followed by at most
    one sensor request, whose distance is computed from one value. *)
Theorem run_requests w b d :
  match chosen d (fileInput b) with
  | None => requests (log (snd (run w b d))) = []
  | Some f =>
      requests (log (snd (run w b d))) = [Detect f] \/
      exists c, requests (log (snd (run w b d))) = [Detect f; Iot (distance c)]
  end.
Proof.
  destruct (chosen d (fileInput b)) as [f|] eqn:H.
  - destruct (run_file_cases w b d f H) as
        [(c & _ & _ & R) | [(j & _ & _ & R) | (j & o & c & r & _ & _ & _ & _ & R)]];
      rewrite R; cbn [snd log].
    + left. apply requests_detectLog.
    + left. rewrite requests_app, requests_detectLog. reflexivity.
    + rewrite requests_app, requests_detectLog. cbn [requests app].
      rewrite requests_app, requests_sensorLog. cbn [requests].
      rewrite app_nil_r. destruct (sensorSlot b c); [right; exists c|left]; reflexivity.
  - rewrite (run_no_file w b d H). reflexivity.
Qed.

(** X8. When the detection endpoint answers a success status with the JSON
    text [null], whatever the page and the binding, the run ends with the
    TypeError of line 172 and leaves the page as it was while the request
    was pending: the status still shows the processing text in class
    [processing], the button is disabled, the detection request is the only
    one sent, the debug line is the last thing logged and no [src] other
    than the preview's has changed. *)
Theorem null_answer_leaves_page_pending w b d f st :
  chosen d (fileInput b) = Some f ->
  detect w = Response st (Readable (Json JNull)) -> ok st = true ->
  fst (run w b d) = Thrown TypeError /\
  innerHTML (dom (snd (run w b d)) (statusEl b)) = [Lit "<em>Processing…</em>"] /\
  className (dom (snd (run w b d)) (statusEl b)) = "processing" /\
  disabled (dom (snd (run w b d)) (btn b)) = true /\
  requests (log (snd (run w b d))) = [Detect f] /\
  (exists pre, log (snd (run w b d)) = pre ++ [Console Debug "[detect] json:" None]) /\
  (forall n, previewEl b <> Some n -> src (dom (snd (run w b d)) n) = src (d n)).
Proof.
  intros H E K.
  assert (C : classify (detect w) = Parsed JNull) by (apply classify_parsed; eauto).
  rewrite (run_with_file w b d f H), C, present_throws by reflexivity.
  cbn [fst snd dom log]. split; [reflexivity|].
  unfold armed, processing.
  rewrite (update_frame innerHTML) by (intro; reflexivity).
  rewrite (update_frame className) by (intro; reflexivity).
  rewrite (previewed_frame innerHTML) by reflexivity.
  rewrite (previewed_frame className) by reflexivity.
  destruct (status_shows (statusEl b) [Lit "<em>Processing…</em>"] "processing" d)
    as (-> & ->).
  split; [reflexivity|]. split; [reflexivity|].
  split; [rewrite update_same; reflexivity|].
  split; [rewrite requests_app, requests_detectLog; reflexivity|].
  split; [eexists; reflexivity|].
  intros n N. rewrite (update_frame src) by (intro; reflexivity).
  rewrite previewed_other by exact N.
  apply (status_frame src); reflexivity.
Qed.

Lemma null_answer_leaves_page_pending_witness :
  innerHTML (dom (snd (run (Example.answering (Response 200 (Readable (Json JNull)))
                             Example.sensorOk)
                        Example.control (Example.pageWith ["road.jpg"]))) (Node 2))
  = [Lit "<em>Processing…</em>"].
Proof.
  exact (proj1 (proj2 (null_answer_leaves_page_pending
                         (Example.answering (Response 200 (Readable (Json JNull)))
                            Example.sensorOk)
                         Example.control (Example.pageWith ["road.jpg"])
                         "road.jpg" 200%Z eq_refl eq_refl eq_refl))).
Defined.

Lemma first_suspension w b d f :
  chosen d (fileInput b) = Some f ->
  exists rest, suspensions (log (snd (run w b d))) = armed w b d :: rest.
Proof.
  intros H.
  assert (D : exists rest, suspensions (detectLog w b f d) = armed w b d :: rest).
  { unfold detectLog. cbn [suspensions]. rewrite suspensions_app.
    destruct (previewLog_quiet w b) as (-> & _). cbn. eauto. }
  destruct D as (rest & D).
  destruct (run_file_cases w b d f H) as
      [(c & _ & _ & R) | [(j & _ & _ & R) | (j & o & c & r & _ & _ & _ & _ & R)]];
    rewrite R; cbn [snd log]; rewrite ?suspensions_app, D; cbn [app]; eauto.
Qed.

Lemma preview_warning_only w b d l e :
  In (Console l "preview fail" e) (log (snd (run w b d))) ->
  In (Console l "preview fail" e) (previewLog w b).
Proof.
  assert (D : forall a s, ~ In (Console l "preview fail" e) (detectDiag b a s)).
  { intros a s. unfold detectDiag. destruct a as [|st [|[|j]]]; try destruct (ok st);
      cbn; intuition discriminate. }
  assert (S : forall c s, ~ In (Console l "preview fail" e) (sensorLog w b c s)).
  { intros c s. unfold sensorLog, iotDiag.
    destruct (sensorSlot b c); [|cbn; tauto].
    destruct (iot w) as [|st [|[|j]]]; try destruct (ok st);
      cbn; intuition discriminate. }
  assert (L : In (Console l "preview fail" e)
                (Prevented :: previewLog w b ++
                 Disabled (btn b) true :: Sent (Detect "") :: nil) ->
              In (Console l "preview fail" e) (previewLog w b)).
  { cbn [In]. rewrite in_app_iff. cbn [In]. intuition discriminate. }
  intros I. destruct (chosen d (fileInput b)) as [f|] eqn:H.
  - assert (G : In (Console l "preview fail" e) (detectLog w b f d) ->
                In (Console l "preview fail" e) (previewLog w b)).
    { unfold detectLog. cbn [In]. rewrite in_app_iff. cbn [In].
      intros [K|[K|[K|[K|[K|K]]]]]; try discriminate; [exact K|].
      destruct (D _ _ K). }
    destruct (run_file_cases w b d f H) as
        [(c & _ & _ & R) | [(j & _ & _ & R) | (j & o & c & r & _ & _ & _ & _ & R)]];
      rewrite R in I; cbn [snd log] in I.
    + apply G. exact I.
    + rewrite in_app_iff in I. cbn [In] in I.
      destruct I as [I|[I|[]]]; [apply G; exact I | discriminate].
    + rewrite in_app_iff in I. cbn [In] in I. rewrite in_app_iff in I. cbn [In] in I.
      destruct I as [I|[I|[I|[I|[]]]]]; try discriminate; [apply G; exact I|].
      destruct (S _ _ I).
  - rewrite (run_no_file w b d H) in I. destruct I as [I|[]]. discriminate.
Qed.

(** X9. The preview is best effort.  With a preview slot, the page on which
    the run first yields shows the object URL of the file in the slot, made
    visible, and no warning is logged; when [URL.createObjectURL] throws, the
    slot is left as it was, a warning is logged and the detection request is
    sent all the same. *)
Theorem preview_is_best_effort w b d f p s0 rest :
  chosen d (fileInput b) = Some f -> previewEl b = Some p ->
  suspensions (log (snd (run w b d))) = s0 :: rest ->
  In (Sent (Detect f)) (log (snd (run w b d))) /\
  match object_url w with
  | Some u =>
      src (s0 p) = Some [Lit u] /\ display (s0 p) = "block" /\
      ~ In (Console Warn "preview fail" (Some ObjectUrlFailed)) (log (snd (run w b d)))
  | None =>
      src (s0 p) = src (d p) /\ display (s0 p) = display (d p) /\
      In (Console Warn "preview fail" (Some ObjectUrlFailed)) (log (snd (run w b d)))
  end.
Proof.
  intros H P S. destruct (first_suspension w b d f H) as (rest' & S').
  rewrite S' in S. injection S as <- _.
  assert (Q : In (Sent (Detect f)) (log (snd (run w b d)))).
  { apply sent_requests.
    destruct (run_file_cases w b d f H) as
        [(c & _ & _ & R) | [(j & _ & _ & R) | (j & o & c & r & _ & _ & _ & _ & R)]];
      rewrite R; cbn [snd log]; rewrite ?requests_app, requests_detectLog;
      left; reflexivity. }
  split; [exact Q|].
  assert (W : In (Console Warn "preview fail" (Some ObjectUrlFailed))
                (previewLog w b) ->
              In (Console Warn "preview fail" (Some ObjectUrlFailed))
                (log (snd (run w b d)))).
  { intros I.
    assert (G : In (Console Warn "preview fail" (Some ObjectUrlFailed))
                  (detectLog w b f d)).
    { unfold detectLog. right. apply in_app_iff. left. exact I. }
    destruct (run_file_cases w b d f H) as
        [(c & _ & _ & R) | [(j & _ & _ & R) | (j & o & c & r & _ & _ & _ & _ & R)]];
      rewrite R; cbn [snd log]; rewrite ?in_app_iff; auto. }
  unfold armed, processing.
  rewrite (update_frame src) by (intro; reflexivity).
  rewrite (update_frame display) by (intro; reflexivity).
  pose proof (preview_warning_only w b d Warn (Some ObjectUrlFailed)) as O.
  revert W O. unfold previewed, previewLog. rewrite P.
  destruct (object_url w) as [u|]; intros W O.
  - split; [|split].
    + rewrite (update_frame src) by (intro; reflexivity).
      rewrite update_same. reflexivity.
    + rewrite update_same. reflexivity.
    + intros I. destruct (O I).
  - split; [apply (status_frame src); reflexivity|].
    split; [apply (status_frame display); reflexivity|].
    apply W. left. reflexivity.
Qed.

Lemma preview_is_best_effort_witness :
  In (Sent (Detect "road.jpg"))
    (log (snd (run {| object_url := None; detect := Example.twelve;
                      iot := Example.sensorOk; now := 5; thumbs := [] |}
                 Example.control (Example.pageWith ["road.jpg"])))).
Proof.
  pose (l := suspensions
               (log (snd (run {| object_url := None; detect := Example.twelve;
                                 iot := Example.sensorOk; now := 5; thumbs := [] |}
                            Example.control (Example.pageWith ["road.jpg"]))))).
  exact (proj1 (preview_is_best_effort
                  {| object_url := None; detect := Example.twelve;
                     iot := Example.sensorOk; now := 5; thumbs := [] |}
                  Example.control (Example.pageWith ["road.jpg"])
                  "road.jpg" (Node 3) (hd (Example.pageWith []) l) (tl l)
                  eq_refl eq_refl eq_refl)).
Defined.

(** X10. While the detection request is pending, that is on the page on which
    the run first yields, the status element shows the processing text in
    class [processing]. *)
Theorem status_while_pending w b d f s0 rest :
  chosen d (fileInput b) = Some f ->
  suspensions (log (snd (run w b d))) = s0 :: rest ->
  innerHTML (s0 (statusEl b)) = [Lit "<em>Processing…</em>"] /\
  className (s0 (statusEl b)) = "processing".
Proof.
  intros H S. destruct (first_suspension w b d f H) as (rest' & S').
  rewrite S' in S. injection S as <- _.
  unfold armed, processing.
  rewrite (update_frame innerHTML) by (intro; reflexivity).
  rewrite (update_frame className) by (intro; reflexivity).
  rewrite (previewed_frame innerHTML) by reflexivity.
  rewrite (previewed_frame className) by reflexivity.
  apply status_shows.
Qed.

Lemma status_while_pending_witness :
  className (hd (Example.pageWith [])
               (suspensions
                  (log (snd (run (Example.answering Rejected Rejected)
                               Example.control (Example.pageWith ["road.jpg"])))))
               (Node 2))
  = "processing".
Proof.
  pose (l := suspensions
               (log (snd (run (Example.answering Rejected Rejected)
                            Example.control (Example.pageWith ["road.jpg"]))))).
  exact (proj2 (status_while_pending (Example.answering Rejected Rejected)
                  Example.control (Example.pageWith ["road.jpg"])
                  "road.jpg" (hd (Example.pageWith []) l) (tl l) eq_refl eq_refl)).
Defined.

Lemma count_defined j c : count j = Some c -> c <> VUndef.
Proof.
  unfold count.
  destruct (get_prop j "vehicle_count") as [x|]; [|discriminate].
  destruct x; cbn; try (intros [= <-]; discriminate);
    (destruct (get_prop j "count") as [y|]; [|discriminate]);
    destruct y; cbn; try (intros [= <-]; discriminate);
    (destruct (get_prop j "vehicles") as [z|]; [|discriminate]);
    destruct z; cbn; intros [= <-]; discriminate.
Qed.

Lemma shown_meta b o c r d m :
  metaEl b = Some m -> innerHTML (shown b o c r d m) = metaText c r.
Proof.
  intros P. unfold shown. rewrite P.
  destruct (annotatedEl b); try destruct (truthy o);
    repeat (rewrite (update_frame innerHTML) by (intro; reflexivity));
    rewrite update_same; reflexivity.
Qed.

Lemma count_null_iff j c :
  count j = Some c ->
  (nullish c = true <->
   forall k, In k countAliases -> nullish (prop j k) = true).
Proof.
  unfold count, prop, countAliases.
  assert (G : isNullish j = true \/
              exists x y z, get_prop j "vehicle_count" = Some x /\
                            get_prop j "count" = Some y /\
                            get_prop j "vehicles" = Some z).
  { destruct j as [[]| |]; cbn; eauto 8. }
  destruct G as [Z | (x & y & z & Gx & Gy & Gz)].
  - destruct (extraction_throws j Z) as (_ & Q & _). unfold count in Q.
    rewrite Q. discriminate.
  - rewrite Gx, Gy, Gz. intros Hc. split.
    + intros N k [<-|[<-|[<-|[]]]]; rewrite ?Gx, ?Gy, ?Gz;
        destruct (nullish x) eqn:X; cbn in Hc;
        try (injection Hc as <-; congruence);
        destruct (nullish y) eqn:Y; cbn in Hc;
        try (injection Hc as <-; congruence);
        destruct (nullish z) eqn:Z; cbn in Hc;
        try (injection Hc as <-; congruence); reflexivity.
    + intros A.
      pose proof (A "vehicle_count" (or_introl eq_refl)) as X.
      pose proof (A "count" (or_intror (or_introl eq_refl))) as Y.
      pose proof (A "vehicles" (or_intror (or_intror (or_introl eq_refl)))) as Z.
      rewrite Gx in X. rewrite Gy in Y. rewrite Gz in Z.
      rewrite X, Y, Z in Hc. cbn in Hc.
      injection Hc as <-. reflexivity.
Qed.

Lemma risk_null_iff j r :
  risk j = Some r ->
  (nullish r = true <->
   forall k, In k riskAliases -> truthy (prop j k) = false).
Proof.
  unfold risk, prop, riskAliases.
  assert (G : isNullish j = true \/
              exists x y, get_prop j "risk_level" = Some x /\
                          get_prop j "risk" = Some y).
  { destruct j as [[]| |]; cbn; eauto 8. }
  destruct G as [Z | (x & y & Gx & Gy)].
  - destruct (extraction_throws j Z) as (_ & _ & Q). unfold risk in Q.
    rewrite Q. discriminate.
  - rewrite Gx, Gy. intros Hr.
    assert (T : forall v, truthy v = true -> nullish v = false)
      by (intros []; cbn; congruence).
    split.
    + intros N k [<-|[<-|[]]]; rewrite ?Gx, ?Gy;
        destruct (truthy x) eqn:X; cbn in Hr;
        try (injection Hr as <-; rewrite (T _ X) in N; discriminate);
        destruct (truthy y) eqn:Y; cbn in Hr;
        try (injection Hr as <-; rewrite (T _ Y) in N; discriminate);
        reflexivity.
    + intros A.
      pose proof (A "risk_level" (or_introl eq_refl)) as X.
      pose proof (A "risk" (or_intror (or_introl eq_refl))) as Y.
      rewrite Gx in X. rewrite Gy in Y.
      rewrite X, Y in Hr. cbn in Hr.
      injection Hr as <-. reflexivity.
Qed.

(** X11. After a run whose answer parsed, the metadata element, when the
    binding has one that is not also the sensor-output slot, shows the count
    and the risk that were extracted, each replaced by [N/A] when it is
    null.  The count shows as [N/A] exactly when each of [vehicle_count],
    [count] and [vehicles] is missing or null; the risk shows as [N/A]
    exactly when both [risk_level] and [risk] are missing or falsy, so a
    risk of 0 or of the empty string is shown as [N/A] while a count of 0 is
    shown as 0. *)
Theorem metadata_rendered w b d f st j c r m :
  chosen d (fileInput b) = Some f ->
  detect w = Response st (Readable (Json j)) -> ok st = true ->
  count j = Some c -> risk j = Some r ->
  metaEl b = Some m -> iotEl b <> Some m ->
  innerHTML (dom (snd (run w b d)) m)
  = [Lit "<b>Vehicles:</b> "; Shown (if nullish c then VStr "N/A" else c);
     Lit " &nbsp;&nbsp; <b>Risk:</b> "; Shown (if nullish r then VStr "N/A" else r)] /\
  (nullish c = true <->
   forall k, In k countAliases -> nullish (prop j k) = true) /\
  (nullish r = true <->
   forall k, In k riskAliases -> truthy (prop j k) = false).
Proof.
  intros H E K Hc Hr M N.
  assert (Ho : exists o, outImg j = Some o).
  { destruct (isNullish j) eqn:Z.
    - destruct (extraction_throws j Z) as (_ & Q & _). congruence.
    - destruct (extraction_total j Z) as (o & _ & _ & Ho & _). eauto. }
  destruct Ho as (o & Ho).
  rewrite (run_parsed w b d f st j o c r H E K Ho Hc Hr). cbn [snd dom].
  split; [|split; [exact (count_null_iff j c Hc) | exact (risk_null_iff j r Hr)]].
  unfold enabled. rewrite (update_frame innerHTML) by (intro; reflexivity).
  rewrite (refreshed_frame innerHTML) by reflexivity.
  unfold sensed. destruct (sensorSlot b c) as [i|] eqn:S.
  - apply sensorSlot_some in S as (_ & S).
    rewrite update_other by congruence. apply shown_meta. exact M.
  - apply shown_meta. exact M.
Qed.

Lemma metadata_rendered_witness :
  innerHTML (dom (snd (run (Example.answering
                              (Example.detected [("count", VNum (of_Z 0));
                                                 ("risk_level", VNum (of_Z 0))])
                              Rejected)
                         Example.control (Example.pageWith ["road.jpg"]))) (Node 5))
  = [Lit "<b>Vehicles:</b> "; Shown (VNum (of_Z 0));
     Lit " &nbsp;&nbsp; <b>Risk:</b> "; Shown (VStr "N/A")].
Proof.
  refine (proj1 (metadata_rendered
                   (Example.answering
                      (Example.detected [("count", VNum (of_Z 0));
                                         ("risk_level", VNum (of_Z 0))])
                      Rejected)
                   Example.control (Example.pageWith ["road.jpg"])
                   "road.jpg" 200%Z
                   (JObject [("count", VNum (of_Z 0)); ("risk_level", VNum (of_Z 0))])
                   (VNum (of_Z 0)) VNull (Node 5)
                   eq_refl eq_refl eq_refl eq_refl eq_refl eq_refl _)).
  discriminate.
Defined.

Lemma shown_annotated b o c r d a :
  annotatedEl b = Some a ->
  display (shown b o c r d a) = (if truthy o then "block" else "none") /\
  (truthy o = true -> src (shown b o c r d a) = Some [Shown o]) /\
  (truthy o = false -> src (shown b o c r d a) = src (d a)).
Proof.
  intros P. unfold shown. rewrite P.
  destruct (truthy o); (split; [rewrite update_same; reflexivity|]);
    (split; [intros T | intros T]); try discriminate.
  - rewrite (update_frame src) by (intro; reflexivity).
    rewrite update_same. reflexivity.
  - rewrite (update_frame src) by (intro; reflexivity).
    destruct (metaEl b);
      repeat (rewrite (update_frame src) by (intro; reflexivity));
      apply (status_frame src); reflexivity.
Qed.

(** X12. After a run whose answer parsed, the annotated-image element, when
    the binding has one, is visible exactly when an image reference was
    extracted; it then carries that reference as [src], unless it is itself a
    metrics thumbnail (the refresh then rewrites its [src]). *)
Theorem annotated_image_shown_or_hidden w b d f st j o a :
  chosen d (fileInput b) = Some f ->
  detect w = Response st (Readable (Json j)) -> ok st = true ->
  outImg j = Some o -> annotatedEl b = Some a ->
  display (dom (snd (run w b d)) a) = (if truthy o then "block" else "none") /\
  (truthy o = true -> ~ In a (thumbs w) ->
   src (dom (snd (run w b d)) a) = Some [Shown o]).
Proof.
  intros H E K Ho A.
  assert (Hx : exists c r, count j = Some c /\ risk j = Some r).
  { destruct (isNullish j) eqn:Z.
    - destruct (extraction_throws j Z) as (Q & _). congruence.
    - destruct (extraction_total j Z) as (_ & c & r & _ & Hc & Hr). eauto. }
  destruct Hx as (c & r & Hc & Hr).
  rewrite (run_parsed w b d f st j o c r H E K Ho Hc Hr). cbn [snd dom].
  destruct (shown_annotated b o c r (armed w b d) a A) as (D & S & _).
  unfold enabled. split.
  - rewrite (update_frame display) by (intro; reflexivity).
    rewrite (refreshed_frame display) by reflexivity.
    rewrite (sensed_frame display) by reflexivity. exact D.
  - intros T N. rewrite (update_frame src) by (intro; reflexivity).
    rewrite refreshed_outside by exact N.
    rewrite (sensed_frame src) by reflexivity. exact (S T).
Qed.

Lemma annotated_image_shown_or_hidden_witness :
  display (dom (snd (run (Example.answering
                            (Example.detected [("vehicle_count", VNum (of_Z 3))])
                            Rejected)
                       Example.control (Example.pageWith ["road.jpg"]))) (Node 4))
  = "none".
Proof.
  exact (proj1 (annotated_image_shown_or_hidden
                  (Example.answering
                     (Example.detected [("vehicle_count", VNum (of_Z 3))]) Rejected)
                  Example.control (Example.pageWith ["road.jpg"])
                  "road.jpg" 200%Z (JObject [("vehicle_count", VNum (of_Z 3))])
                  VNull (Node 4) eq_refl eq_refl eq_refl eq_refl eq_refl)).
Defined.

Lemma slot_written b t imgs i h p :
  innerHTML (enabled b (refreshed t imgs (update i (with_innerHTML h) p)) i) = h.
Proof.
  unfold enabled. rewrite (update_frame innerHTML) by (intro; reflexivity).
  rewrite (refreshed_frame innerHTML) by reflexivity.
  rewrite update_same. reflexivity.
Qed.

(** X13. When the sensor request was sent and the sensor endpoint answers
    with a success status and a JSON object, the run ends normally and the
    sensor-output slot shows the [distance], [alert] and [recommended_action]
    of the answer; a field the answer lacks shows as [undefined]. *)
Theorem sensor_answer_rendered w b d x st props :
  In (Sent (Iot x)) (log (snd (run w b d))) ->
  iot w = Response st (Readable (Json (JObject props))) -> ok st = true ->
  fst (run w b d) = Done tt /\
  exists i,
    iotEl b = Some i /\
    innerHTML (dom (snd (run w b d)) i)
    = [Lit "<b>Distance:</b> "; Shown (lookup "distance" props);
       Lit " cm &nbsp; <b>Alert:</b> "; Shown (lookup "alert" props);
       Lit " &nbsp; <b>Action:</b> "; Shown (lookup "recommended_action" props)].
Proof.
  intros I E K.
  destruct (iot_request_origin w b d x I)
    as (f & j & o & c & r & i & _ & _ & _ & _ & _ & Sl & _ & _ & T & D).
  apply sensorSlot_some in Sl as (_ & Hi).
  split; [exact T|]. exists i. split; [exact Hi|].
  rewrite D, slot_written. unfold iotAnswer. rewrite E, K. reflexivity.
Qed.

Lemma sensor_answer_rendered_witness :
  fst (run (Example.answering Example.twelve
              (Response 200 (Readable (Json (JObject [("alert", VStr "SAFE")])))))
         Example.control (Example.pageWith ["road.jpg"])) = Done tt.
Proof.
  refine (proj1 (sensor_answer_rendered
                   (Example.answering Example.twelve
                      (Response 200 (Readable (Json (JObject [("alert", VStr "SAFE")])))))
                   Example.control (Example.pageWith ["road.jpg"])
                   (of_Z 116) 200%Z [("alert", VStr "SAFE")] _ eq_refl eq_refl)).
  apply (iot_request_sent _ _ _ "road.jpg"
           (JObject [("output_image", VStr "/static/out/road.jpg");
                     ("vehicle_count", VNum (of_Z 12)); ("risk_level", VStr "medium")])
           (VNum (of_Z 12)) (Node 6)); reflexivity.
Defined.

(** X14. A sensor answer with a success status whose JSON value is falsy
    ([null], [false], 0, NaN or the empty string) is presented as a failure:
    the slot gets the failure placeholder although [callIot] logged neither a
    warning nor an error. *)
Theorem falsy_sensor_answer_shown_as_failure w b d x st v :
  In (Sent (Iot x)) (log (snd (run w b d))) ->
  iot w = Response st (Readable (Json (JPrim v))) -> ok st = true ->
  truthy v = false ->
  fst (run w b d) = Done tt /\
  (exists i, iotEl b = Some i /\
             innerHTML (dom (snd (run w b d)) i) = [Lit "IoT sim failed — see console."]) /\
  (forall e, ~ In (Console Warn "[iot] non-ok" e) (log (snd (run w b d)))) /\
  (forall e, ~ In (Console Error "[iot] error" e) (log (snd (run w b d)))).
Proof.
  intros I E K F.
  destruct (iot_request_origin w b d x I)
    as (f & j & o & c & r & i & _ & C & _ & _ & _ & Sl & _ & L & T & D).
  apply sensorSlot_some in Sl as (_ & Hi).
  split; [exact T|]. split.
  - exists i. split; [exact Hi|].
    rewrite D, slot_written. unfold iotAnswer. rewrite E, K.
    unfold iotText. cbn [json_truthy]. rewrite F. reflexivity.
  - assert (G : forall l t e,
               (t = "[iot] non-ok" \/ t = "[iot] error") ->
               ~ In (Console l t e) (log (snd (run w b d)))).
    { intros l t e Ht. rewrite L. unfold detectLog, iotDiag. rewrite E, K.
      destruct (detectDiag_split b (detect w) (armed w b d))
        as [(j0 & _ & ->) | (P0 & _)]; [|rewrite C in P0; discriminate].
      unfold previewLog. destruct (previewEl b), (object_url w); cbn;
        destruct Ht as [-> | ->]; intuition discriminate. }
    split; intros e; apply G; auto.
Qed.

Lemma falsy_sensor_answer_shown_as_failure_witness :
  fst (run (Example.answering Example.twelve
              (Response 200 (Readable (Json (JPrim (VNum (of_Z 0)))))))
         Example.control (Example.pageWith ["road.jpg"])) = Done tt.
Proof.
  refine (proj1 (falsy_sensor_answer_shown_as_failure
                   (Example.answering Example.twelve
                      (Response 200 (Readable (Json (JPrim (VNum (of_Z 0)))))))
                   Example.control (Example.pageWith ["road.jpg"])
                   (of_Z 116) 200%Z (VNum (of_Z 0)) _ eq_refl eq_refl eq_refl)).
  apply (iot_request_sent _ _ _ "road.jpg"
           (JObject [("output_image", VStr "/static/out/road.jpg");
                     ("vehicle_count", VNum (of_Z 12)); ("risk_level", VStr "medium")])
           (VNum (of_Z 12)) (Node 6)); reflexivity.
Defined.

Lemma refresh_throws w s img :
  In img (thumbs w) -> src (dom s img) = None ->
  fst (refreshMetricsThumbnails w s) = Thrown TypeError.
Proof.
  unfold refreshMetricsThumbnails.
  generalize (now w) as t. generalize (thumbs w) as imgs.
  intros imgs t. revert s.
  induction imgs as [|h rest IH]; intros [d l] I E; [destruct I|].
  cbn [forEach dom] in *. unfold bind, refreshOne at 1, get_dom, bind. cbn [dom].
  destruct (src (d h)) as [x|] eqn:X; [|reflexivity].
  unfold set, modify. cbn [dom log].
  assert (N : img <> h) by congruence.
  destruct I as [->|I]; [congruence|].
  apply IH; [exact I|]. cbn [dom]. rewrite update_other by exact N. exact E.
Qed.

Lemma refreshed_keeps_missing t imgs d img :
  src (d img) = None -> src (refreshed t imgs d img) = None.
Proof.
  revert d. induction imgs as [|h rest IH]; intros d E; cbn [refreshed]; [exact E|].
  destruct (src (d h)) as [x|] eqn:X; [|exact E].
  apply IH. rewrite update_other by congruence. exact E.
Qed.

Lemma shown_src_other b o c r d n :
  annotatedEl b <> Some n -> src (shown b o c r d n) = src (d n).
Proof.
  intros N. unfold shown.
  assert (M : forall d',
             src (match metaEl b with
                  | Some m => update m (with_innerHTML (metaText c r)) d'
                  | None => d'
                  end n) = src (d' n)).
  { intros d'. destruct (metaEl b); [|reflexivity].
    apply (update_frame src). intro. reflexivity. }
  cbn zeta.
  destruct (annotatedEl b) as [a|]; [destruct (truthy o)|];
    rewrite ?(update_frame src _ _ (with_display _)) by (intro; reflexivity);
    rewrite ?update_other by congruence;
    rewrite M; apply (status_frame src); reflexivity.
Qed.

(** X15. A failing thumbnail refresh does not keep the run from its exit.
    A matched thumbnail without a [src] makes [refreshMetricsThumbnails]
    throw a TypeError on any page; when the detection answer parsed to
    something other than [null] and such a thumbnail is on the page (and is
    not an image the run itself fills), the run swallows that exception at
    line 202: it ends normally, the thumbnail still has no [src], the button
    is enabled and enabling it is the last thing the run does. *)
Theorem refresh_failure_is_swallowed w b d f st j img :
  chosen d (fileInput b) = Some f ->
  detect w = Response st (Readable (Json j)) -> ok st = true ->
  j <> JPrim VNull -> j <> JPrim VUndef ->
  In img (thumbs w) -> src (d img) = None ->
  previewEl b <> Some img -> annotatedEl b <> Some img ->
  (forall s, src (dom s img) = None ->
             fst (refreshMetricsThumbnails w s) = Thrown TypeError) /\
  fst (run w b d) = Done tt /\
  src (dom (snd (run w b d)) img) = None /\
  disabled (dom (snd (run w b d)) (btn b)) = false /\
  exists pre, log (snd (run w b d)) = pre ++ [Disabled (btn b) false].
Proof.
  intros H E K N1 N2 I S Np Na.
  split; [intros s; apply refresh_throws; exact I|].
  assert (Z : isNullish j = false)
    by (destruct j as [[]| |]; try reflexivity; congruence).
  destruct (extraction_total j Z) as (o & c & r & Ho & Hc & Hr).
  rewrite (run_parsed w b d f st j o c r H E K Ho Hc Hr). cbn [fst snd dom log].
  split; [reflexivity|]. split; [|split; [apply enabled_at_exit|]].
  - unfold enabled. rewrite (update_frame src) by (intro; reflexivity).
    apply refreshed_keeps_missing.
    rewrite (sensed_frame src) by reflexivity.
    assert (A : src (armed w b d img) = None).
    { unfold armed, processing.
      rewrite (update_frame src) by (intro; reflexivity).
      rewrite previewed_other by exact Np.
      rewrite (status_frame src) by reflexivity. exact S. }
    rewrite shown_src_other by exact Na. exact A.
  - eexists. rewrite app_comm_cons, app_assoc. reflexivity.
Qed.

Lemma refresh_failure_is_swallowed_witness :
  fst (run {| object_url := Some "blob:1"; detect := Example.twelve;
              iot := Response 500 Unreadable; now := 7; thumbs := [Node 7; Node 9] |}
         Example.control (Example.pageWith ["road.jpg"])) = Done tt /\
  src (dom (snd (run {| object_url := Some "blob:1"; detect := Example.twelve;
                        iot := Response 500 Unreadable; now := 7;
                        thumbs := [Node 7; Node 9] |}
                   Example.control (Example.pageWith ["road.jpg"]))) (Node 9)) = None.
Proof.
  refine ((fun P => conj (proj1 (proj2 P)) (proj1 (proj2 (proj2 P))))
            (refresh_failure_is_swallowed
               {| object_url := Some "blob:1"; detect := Example.twelve;
                  iot := Response 500 Unreadable; now := 7; thumbs := [Node 7; Node 9] |}
               Example.control (Example.pageWith ["road.jpg"])
               "road.jpg" 200%Z
               (JObject [("output_image", VStr "/static/out/road.jpg");
                         ("vehicle_count", VNum (of_Z 12));
                         ("risk_level", VStr "medium")])
               (Node 9)
               eq_refl eq_refl eq_refl _ _ (or_intror (or_introl eq_refl)) eq_refl _ _));
    discriminate.
Defined.

(* ===================================================================== *)
(** ** More on callIot and on the refresh *)
(* ===================================================================== *)

(** X16. [callIot] never throws and never touches the page; it sends exactly
    one request, carrying the distance it was given; it returns the parsed
    body when the endpoint answers with a success status and JSON, and
    [null] in every other case. *)
Theorem callIot_contract w x s :
  dom (snd (callIot w x s)) = dom s /\
  requests (log (snd (callIot w x s))) = requests (log s) ++ [Iot x] /\
  fst (callIot w x s)
  = Done match iot w with
         | Response st (Readable (Json j)) => if ok st then j else JNull
         | _ => JNull
         end.
Proof.
  rewrite callIot_run. cbn [fst snd dom log]. split; [reflexivity|]. split.
  - rewrite requests_app. cbn [requests]. rewrite requests_iotDiag. reflexivity.
  - unfold iotAnswer. destruct (iot w) as [|st [|[|j]]]; try reflexivity;
      destruct (ok st); reflexivity.
Qed.

(** X17. [refreshMetricsThumbnails] only ever writes [src], and only on the
    nodes the selector matched: it logs nothing, every other attribute of
    every node is as before, every node that was not matched is as before,
    and it ends normally or with the TypeError of a missing [src]. *)
Theorem refresh_writes_only_src w s :
  log (snd (refreshMetricsThumbnails w s)) = log s /\
  (fst (refreshMetricsThumbnails w s) = Done tt \/
   fst (refreshMetricsThumbnails w s) = Thrown TypeError) /\
  (forall n, ~ In n (thumbs w) -> dom (snd (refreshMetricsThumbnails w s)) n = dom s n) /\
  (forall n,
      innerHTML (dom (snd (refreshMetricsThumbnails w s)) n) = innerHTML (dom s n) /\
      className (dom (snd (refreshMetricsThumbnails w s)) n) = className (dom s n) /\
      display (dom (snd (refreshMetricsThumbnails w s)) n) = display (dom s n) /\
      disabled (dom (snd (refreshMetricsThumbnails w s)) n) = disabled (dom s n) /\
      files (dom (snd (refreshMetricsThumbnails w s)) n) = files (dom s n) /\
      listeners (dom (snd (refreshMetricsThumbnails w s)) n) = listeners (dom s n)).
Proof.
  assert (O : exists r, (r = Done tt \/ r = Thrown TypeError) /\
                        refreshMetricsThumbnails w s
                        = (r, {| dom := refreshed (now w) (thumbs w) (dom s);
                                 log := log s |})).
  { unfold refreshMetricsThumbnails.
    generalize (now w) as t. generalize (thumbs w) as imgs.
    intros imgs t. revert s.
    induction imgs as [|img rest IH]; intros [d l].
    - exists (Done tt). split; [left|]; reflexivity.
    - cbn [forEach refreshed dom log]. unfold bind, refreshOne at 1, get_dom, bind.
      cbn [dom log]. destruct (src (d img)) as [x|].
      + unfold set, modify. cbn [dom log]. apply IH.
      + exists (Thrown TypeError). split; [right|]; reflexivity. }
  destruct O as (r & Hr & ->). cbn [fst snd dom log].
  split; [reflexivity|]. split; [exact Hr|]. split.
  - intros n N. apply refreshed_outside. exact N.
  - intros n. repeat split; apply refreshed_frame; reflexivity.
Qed.

Lemma refresh_prefix t pre img rest s :
  (forall n, In n pre -> src (dom s n) <> None) -> src (dom s img) = None ->
  forEach (pre ++ img :: rest) (refreshOne t) s
  = (Thrown TypeError, {| dom := refreshed t pre (dom s); log := log s |}).
Proof.
  revert s. induction pre as [|p pre IH]; intros [d l] A E; cbn [dom log] in *.
  - cbn [app forEach refreshed]. unfold bind, refreshOne, get_dom, bind. cbn [dom].
    rewrite E. reflexivity.
  - cbn [app forEach refreshed]. unfold bind, refreshOne at 1, get_dom, bind.
    cbn [dom log]. destruct (src (d p)) as [x|] eqn:Ep;
      [|exfalso; apply (A p); [left; reflexivity | exact Ep]].
    unfold set, modify. cbn [dom log].
    apply (IH {| dom := update p (with_src (Some (stamped t x))) d; log := l |});
      cbn [dom].
    + intros n I. unfold update. destruct (node_eq_dec n p); [discriminate|].
      apply A. right. exact I.
    + assert (Np : img <> p) by (intros ->; congruence).
      rewrite update_other by exact Np. exact E.
Qed.

(** X18. The refresh stops at the first matched node without a [src]: it
    throws a TypeError there, the nodes matched before it have been given
    their new [src], and every other node, the ones matched after it
    included, is left as it was. *)
Theorem refresh_stops_at_missing_src w s pre img rest :
  thumbs w = pre ++ img :: rest ->
  (forall n, In n pre -> src (dom s n) <> None) -> src (dom s img) = None ->
  fst (refreshMetricsThumbnails w s) = Thrown TypeError /\
  (forall n old,
      In n pre -> src (dom s n) = Some old ->
      src (dom (snd (refreshMetricsThumbnails w s)) n)
      = Some (split_first old ++ [Lit "?t="; Shown (VNum (of_Z (now w)))])) /\
  (forall n, ~ In n pre -> dom (snd (refreshMetricsThumbnails w s)) n = dom s n).
Proof.
  intros T A E. unfold refreshMetricsThumbnails. rewrite T.
  rewrite (refresh_prefix (now w) pre img rest s A E). cbn [fst snd dom].
  split; [reflexivity|]. split.
  - intros n old I S. apply (refreshed_src (now w) pre (dom s) A n old I S).
  - intros n N. apply refreshed_outside. exact N.
Qed.

Lemma refresh_stops_at_missing_src_witness :
  fst (refreshMetricsThumbnails
         {| object_url := None; detect := Rejected; iot := Rejected; now := 42;
            thumbs := [Node 7; Node 9; Node 8] |}
         (start (Example.pageWith []))) = Thrown TypeError /\
  src (dom (snd (refreshMetricsThumbnails
                   {| object_url := None; detect := Rejected; iot := Rejected;
                      now := 42; thumbs := [Node 7; Node 9; Node 8] |}
                   (start (Example.pageWith [])))) (Node 8))
  = Some [Lit "/static/metrics/f1.png?t=1700000000000"].
Proof.
  assert (A : forall n, In n [Node 7] ->
                        src (dom (start (Example.pageWith [])) n) <> None)
    by (intros n [<-|[]]; discriminate).
  destruct (refresh_stops_at_missing_src
              {| object_url := None; detect := Rejected; iot := Rejected; now := 42;
                 thumbs := [Node 7; Node 9; Node 8] |}
              (start (Example.pageWith [])) [Node 7] (Node 9) [Node 8]
              eq_refl A eq_refl) as (T & _ & O).
  split; [exact T|]. rewrite O; [reflexivity|].
  intros [E|[]]. discriminate E.
Defined.

(* ===================================================================== *)
(** ** More on attaching the handlers *)
(* ===================================================================== *)

Lemma attach_loop_plain p bs s :
  exists d',
    forEach bs (attachOne p) s = (Done tt, {| dom := d'; log := log s |}) /\
    ((forall n, In n bs -> isAttached (dom s n) = true) -> d' = dom s) /\
    (forall id, isAttached (dom s (Node id)) = true \/ In (Node id) bs ->
                isAttached (d' (Node id)) = true).
Proof.
  revert s. induction bs as [|b bs IH]; intros s.
  - exists (dom s). destruct s as [d l]. split; [reflexivity|].
    split; [reflexivity|]. intros id [A|[]]. exact A.
  - destruct (attachOne_run p b s) as (d1 & E1 & Old & New & _).
    destruct (IH {| dom := d1; log := log s |}) as (d2 & E2 & Id2 & Mk2).
    exists d2. cbn [forEach]. unfold bind. rewrite E1. cbn [dom log] in *.
    split; [exact E2|].
    assert (Keep : forall id, isAttached (dom s (Node id)) = true ->
                              isAttached (d1 (Node id)) = true).
    { intros id A. destruct (isAttached (dom s b)) eqn:Ab.
      - rewrite (Old eq_refl). exact A.
      - destruct (New eq_refl) as (Fl & _ & Out & _).
        destruct (node_eq_dec (Node id) b) as [<-|Nb]; [exact Fl|].
        rewrite (Out (Node id) Nb) by discriminate. exact A. }
    split.
    + intros All. assert (D1 : d1 = dom s) by (apply Old, All; left; reflexivity).
      rewrite Id2; [exact D1|]. rewrite D1. intros n I. apply All. right. exact I.
    + intros id [A|[E|I]]; apply Mk2.
      * left. apply Keep. exact A.
      * left. subst b. destruct (isAttached (dom s (Node id))) eqn:Ab.
        -- rewrite (Old eq_refl). exact Ab.
        -- destruct (New eq_refl) as (Fl & _). exact Fl.
      * right. exact I.
Qed.

Lemma attach_plain p d :
  exists d',
    attachDetectHandlers p (start d)
    = (Done tt,
       {| dom := d';
          log := match runButtons p d with
                 | [] => [Console Warn "[Tivaan] No .run-detect buttons found on page" None]
                 | _ => []
                 end |}) /\
    ((forall n, In n (runButtons p d) -> isAttached (d n) = true) -> d' = d) /\
    (forall id, isAttached (d (Node id)) = true \/ In (Node id) (runButtons p d) ->
                isAttached (d' (Node id)) = true).
Proof.
  unfold attachDetectHandlers, bind, get_dom, start. cbn [dom log].
  destruct (runButtons p d) as [|b bs] eqn:R.
  - exists d. cbn. split; [reflexivity|]. split; [reflexivity|].
    intros id [A|[]]. exact A.
  - cbn [ret]. apply (attach_loop_plain p (b :: bs) {| dom := d; log := [] |}).
Qed.

(** X19. [attachDetectHandlers] never throws.  It logs one warning when the
    page has no [.run-detect] button, and then changes nothing; with buttons
    it logs nothing. *)
Theorem attach_warns_without_buttons p d :
  fst (attachDetectHandlers p (start d)) = Done tt /\
  log (snd (attachDetectHandlers p (start d)))
  = match runButtons p d with
    | [] => [Console Warn "[Tivaan] No .run-detect buttons found on page" None]
    | _ => []
    end /\
  (runButtons p d = [] -> attached p d = d).
Proof.
  unfold attached. destruct (attach_plain p d) as (d' & -> & Id & _).
  cbn [fst snd dom log]. split; [reflexivity|]. split; [reflexivity|].
  intros E. apply Id. rewrite E. intros n [].
Qed.

Lemma attach_warns_without_buttons_witness :
  attached {| body := Node 100; runButtons := fun _ => [];
              closest := fun _ _ _ => None; querySelector := fun _ _ _ => None |}
    (Example.pageWith [])
  = Example.pageWith [].
Proof.
  exact (proj2 (proj2 (attach_warns_without_buttons
                         {| body := Node 100; runButtons := fun _ => [];
                            closest := fun _ _ _ => None;
                            querySelector := fun _ _ _ => None |}
                         (Example.pageWith []))) eq_refl).
Defined.

(** X20. A call that finds only marked buttons changes nothing, whatever
    listeners they carry.  So a second call right after a first one is the
    identity, as long as the buttons it finds are page nodes that the first
    call found too. *)
Theorem attach_again_changes_nothing p d :
  ((forall n, In n (runButtons p d) -> isAttached (d n) = true) ->
   attached p d = d) /\
  ((forall n, In n (runButtons p (attached p d)) ->
              In n (runButtons p d) /\ exists id, n = Node id) ->
   attached p (attached p d) = attached p d).
Proof.
  assert (G : forall d0, (forall n, In n (runButtons p d0) -> isAttached (d0 n) = true) ->
                         attached p d0 = d0).
  { intros d0 All. unfold attached.
    destruct (attach_plain p d0) as (d' & -> & Id & _). cbn [snd dom]. apply Id, All. }
  split; [apply G|].
  intros Same. apply G. intros n I. destruct (Same n I) as (I0 & id & ->).
  unfold attached. destruct (attach_plain p d) as (d' & -> & _ & Mk).
  cbn [snd dom]. apply Mk. right. exact I0.
Qed.

Lemma attach_again_changes_nothing_witness :
  attached Example.markup (attached Example.markup (Example.pageWith []))
  = attached Example.markup (Example.pageWith []).
Proof.
  apply (proj2 (attach_again_changes_nothing Example.markup (Example.pageWith []))).
  intros n [<-|[]]. split; [left; reflexivity | exists 0%nat; reflexivity].
Defined.

(** The unmarked branch of [attachOne], spelled out. *)
Lemma attachOne_unmarked p b d l0 :
  isAttached (d b) = false ->
  let d1 := update b (with_tvAttached (Some "1")) d in
  let c := orNode (orElse (closest p d1 b AnyForm) (closest p d1 b Card)) (body p) in
  let found := orElse (querySelector p d1 c TvStatus) (querySelector p d1 c IdStatus) in
  let d2 := match found with
            | Some _ => d1
            | None => update (StatusOf b) (fun _ => with_className "tv-status" blank) d1
            end in
  exists l,
    attachOne p b {| dom := d; log := l0 |}
    = (Done tt,
       {| dom := update b (fun e => with_listeners (listeners e ++ [l]) e) d2;
          log := l0 |}) /\
    btn l = b /\
    statusEl l = match found with Some s => s | None => StatusOf b end /\
    fileInput l = orElse (querySelector p d1 c InputTypeFile)
                    (orElse (querySelector p d1 c InputNameFile)
                       (querySelector p d1 c InputNameImage)).
Proof.
  intros A d1 c found d2. subst d2 found c d1.
  unfold attachOne, bind, get_dom, set, modify. cbn [dom log]. rewrite A.
  destruct (orElse (querySelector p _ _ TvStatus) _) as [s|];
    cbn [ret dom log]; eexists; (split; [reflexivity|]); repeat split.
Qed.

Lemma attachOne_field {X} (field : element -> X) p b s id :
  (forall a e, field (with_tvAttached a e) = field e) ->
  (forall l e, field (with_listeners l e) = field e) ->
  field (dom (snd (attachOne p b s)) (Node id)) = field (dom s (Node id)).
Proof.
  intros H1 H2. destruct s as [d l0]. destruct (isAttached (d b)) eqn:A.
  - unfold attachOne, bind, get_dom. cbn [dom log]. rewrite A. reflexivity.
  - destruct (attachOne_unmarked p b d l0 A) as (l & -> & _). cbn [snd dom].
    rewrite (update_frame field) by (intro; apply H2).
    destruct (orElse _ _).
    + apply update_frame. intro. apply H1.
    + rewrite update_other by discriminate. apply update_frame. intro. apply H1.
Qed.

Lemma attach_loop_field {X} (field : element -> X) p bs s id :
  (forall a e, field (with_tvAttached a e) = field e) ->
  (forall l e, field (with_listeners l e) = field e) ->
  field (dom (snd (forEach bs (attachOne p) s)) (Node id)) = field (dom s (Node id)).
Proof.
  intros H1 H2. revert s. induction bs as [|b bs IH]; intros s; [reflexivity|].
  cbn [forEach]. unfold bind.
  pose proof (attachOne_field field p b s id H1 H2) as F.
  destruct (attachOne_run p b s) as (d1 & E1 & _).
  rewrite E1 in *. cbn [snd dom] in F. rewrite IH. exact F.
Qed.

(** X21. Attaching leaves the content of the page alone: on every node of
    the page the text, the class, the [src], the visibility, the [disabled]
    flag and the selected files are what they were. *)
Theorem attach_keeps_content p d id :
  innerHTML (attached p d (Node id)) = innerHTML (d (Node id)) /\
  className (attached p d (Node id)) = className (d (Node id)) /\
  src (attached p d (Node id)) = src (d (Node id)) /\
  display (attached p d (Node id)) = display (d (Node id)) /\
  disabled (attached p d (Node id)) = disabled (d (Node id)) /\
  files (attached p d (Node id)) = files (d (Node id)).
Proof.
  assert (G : forall X (field : element -> X),
             (forall a e, field (with_tvAttached a e) = field e) ->
             (forall l e, field (with_listeners l e) = field e) ->
             field (attached p d (Node id)) = field (d (Node id))).
  { intros X field H1 H2. unfold attached, attachDetectHandlers, bind, get_dom, start.
    cbn [dom log]. destruct (runButtons p d) as [|b bs]; [reflexivity|].
    cbn [ret]. apply (attach_loop_field field p (b :: bs) {| dom := d; log := [] |} id);
      assumption. }
  repeat split; apply G; reflexivity.
Qed.

(** X22. A control always gets a status element to report to.  When the
    page has one for the button, the listener closes over it and no node is
    created; when it has none, the listener closes over a new [div] of class
    [tv-status], and a click without a file shows the choose-a-file warning
    in that [div]. *)
Theorem status_element_resolved p b d l0 :
  isAttached (d b) = false ->
  let after := dom (snd (attachOne p b {| dom := d; log := l0 |})) in
  let d1 := update b (with_tvAttached (Some "1")) d in
  let container :=
    orNode (orElse (closest p d1 b AnyForm) (closest p d1 b Card)) (body p) in
  exists l,
    listeners (after b) = listeners (d b) ++ [l] /\
    btn l = b /\
    match orElse (querySelector p d1 container TvStatus)
            (querySelector p d1 container IdStatus) with
    | Some s => statusEl l = s /\ after (StatusOf b) = d (StatusOf b)
    | None =>
        statusEl l = StatusOf b /\
        className (after (StatusOf b)) = "tv-status" /\
        forall w,
          chosen after (fileInput l) = None ->
          innerHTML (dom (snd (run w l after)) (StatusOf b))
          = [Lit "<span style='color:orange'>Please choose an image first</span>"]
    end.
Proof.
  intros A after d1 container. subst after container d1.
  destruct (attachOne_unmarked p b d l0 A) as (l & -> & Bl & Sl & _).
  cbn [snd dom]. cbn zeta in Sl.
  exists l. split; [|split; [exact Bl|]].
  - rewrite update_same. cbn [listeners with_listeners]. f_equal.
    destruct (orElse (querySelector _ _ _ TvStatus) _).
    + rewrite update_same. reflexivity.
    + rewrite update_other by (apply not_eq_sym, status_is_new).
      rewrite update_same. reflexivity.
  - revert Sl. destruct (orElse (querySelector _ _ _ TvStatus) _) as [s|]; intros Sl.
    + split; [exact Sl|].
      rewrite !update_other by apply status_is_new. reflexivity.
    + split; [exact Sl|]. split.
      * rewrite update_other by apply status_is_new.
        rewrite update_same. reflexivity.
      * intros w H. rewrite (run_no_file w l _ H). cbn [snd dom].
        rewrite <- Sl. unfold warned. apply status_shows.
Qed.

Lemma status_element_resolved_witness :
  exists l,
    listeners (dom (snd (attachOne Example.markup (Node 0)
                           {| dom := Example.pageWith []; log := [] |})) (Node 0))
    = [l] /\ statusEl l = Node 2.
Proof.
  destruct (status_element_resolved Example.markup (Node 0) (Example.pageWith []) []
              eq_refl) as (l & L & _ & S).
  exists l. split; [exact L | exact (proj1 S)].
Defined.

(* ===================================================================== *)
(** ** What a run can reach *)
(* ===================================================================== *)

Lemma outside_footprint b m :
  ~ In m (footprint b) ->
  m <> statusEl b /\ m <> btn b /\ previewEl b <> Some m /\ metaEl b <> Some m /\
  annotatedEl b <> Some m /\ iotEl b <> Some m.
Proof.
  unfold footprint. intros N.
  split; [intros ->; apply N; left; reflexivity|].
  split; [intros ->; apply N; right; left; reflexivity|].
  repeat split; intros E; apply N; right; right; rewrite E, !in_app_iff; cbn; tauto.
Qed.

Lemma armed_other w b d m : ~ In m (footprint b) -> armed w b d m = d m.
Proof.
  intros N. destruct (outside_footprint b m N) as (Ns & Nb & Np & _).
  unfold armed, processing.
  rewrite update_other by exact Nb.
  rewrite previewed_other by exact Np.
  apply status_other. exact Ns.
Qed.

Lemma shown_other b o c r d m : ~ In m (footprint b) -> shown b o c r d m = d m.
Proof.
  intros N. destruct (outside_footprint b m N) as (Ns & _ & _ & Nm & Na & _).
  unfold shown.
  destruct (metaEl b) as [x|], (annotatedEl b) as [a|]; try destruct (truthy o);
    rewrite ?update_other by congruence; apply status_other; exact Ns.
Qed.

Lemma sensed_other w b c d m : ~ In m (footprint b) -> sensed w b c d m = d m.
Proof.
  intros N. destruct (outside_footprint b m N) as (_ & _ & _ & _ & _ & Ni).
  unfold sensed, sensorSlot. destruct (not_null c); [|reflexivity].
  destruct (iotEl b) as [i|]; [|reflexivity].
  apply update_other. congruence.
Qed.

(** X27. A run reaches only the elements of its own binding and the
    thumbnails.  A node that is neither the status element, the button, the
    preview, metadata, annotated-image or sensor slot of the binding, nor a
    matched thumbnail, is the same after the run as before, and the same on
    every page on which the run yields. *)
Theorem run_footprint w b d m :
  ~ In m (footprint b) -> ~ In m (thumbs w) ->
  dom (snd (run w b d)) m = d m /\
  forall s, In s (suspensions (log (snd (run w b d)))) -> s m = d m.
Proof.
  intros N T. destruct (outside_footprint b m N) as (Ns & Nb & _).
  destruct (chosen d (fileInput b)) as [f|] eqn:H.
  - destruct (run_file_cases w b d f H) as
        [(c & _ & _ & R) | [(j & _ & _ & R) | (j & o & c & r & _ & _ & _ & _ & R)]];
      rewrite R; cbn [snd dom log].
    + split.
      * unfold afterDetect, enabled.
        destruct c; rewrite ?update_other by exact Nb;
          rewrite ?status_other by exact Ns; apply armed_other; exact N.
      * intros s I. rewrite (suspensions_detectLog w b f d s I).
        apply armed_other. exact N.
    + split; [apply armed_other; exact N|].
      intros s I. rewrite suspensions_app in I. cbn in I. rewrite app_nil_r in I.
      rewrite (suspensions_detectLog w b f d s I). apply armed_other. exact N.
    + split.
      * unfold enabled. rewrite update_other by exact Nb.
        rewrite refreshed_outside by exact T.
        rewrite sensed_other, shown_other by exact N.
        apply armed_other. exact N.
      * intros s I. rewrite suspensions_app in I. cbn [suspensions] in I.
        rewrite suspensions_app in I. cbn [suspensions] in I.
        rewrite app_nil_r in I. apply in_app_iff in I. destruct I as [I|I].
        -- rewrite (suspensions_detectLog w b f d s I). apply armed_other. exact N.
        -- rewrite (suspensions_sensorLog w b c _ s I).
           rewrite shown_other by exact N. apply armed_other. exact N.
  - rewrite (run_no_file w b d H). cbn [snd dom log suspensions].
    split; [|intros s []].
    unfold warned, processing. rewrite !status_other by exact Ns. reflexivity.
Qed.

Lemma run_footprint_witness :
  dom (snd (run (Example.answering Example.twelve Example.sensorOk)
              Example.control (Example.pageWith ["road.jpg"]))) (Node 1)
  = Example.fileInputWith ["road.jpg"].
Proof.
  refine (proj1 (run_footprint (Example.answering Example.twelve Example.sensorOk)
                   Example.control (Example.pageWith ["road.jpg"]) (Node 1) _ _)).
  - intros [E|[E|[E|[E|[E|[E|[]]]]]]]; discriminate E.
  - intros [E|[E|[]]]; discriminate E.
Defined.

(** X28. Refreshing again replaces the timestamp, it does not pile up query
    strings.  When every matched thumbnail has a [src], a second call of
    [refreshMetricsThumbnails] over the same thumbnails ends normally and
    leaves on each of them the part of the original [src] before its first
    question mark, followed by the timestamp of the second call alone. *)
Theorem refresh_replaces_stamp w1 w2 s :
  thumbs w2 = thumbs w1 ->
  (forall n, In n (thumbs w1) -> src (dom s n) <> None) ->
  fst (refreshMetricsThumbnails w2 (snd (refreshMetricsThumbnails w1 s))) = Done tt /\
  forall n old,
    In n (thumbs w1) -> src (dom s n) = Some old ->
    src (dom (snd (refreshMetricsThumbnails w2 (snd (refreshMetricsThumbnails w1 s)))) n)
    = Some (split_first old ++ [Lit "?t="; Shown (VNum (of_Z (now w2)))]).
Proof.
  intros T A. rewrite (refresh_total w1 s A). cbn [snd].
  assert (A2 : forall n, In n (thumbs w2) ->
                         src (refreshed (now w1) (thumbs w1) (dom s) n) <> None).
  { rewrite T. apply refreshed_keeps_src. exact A. }
  rewrite refresh_total by exact A2. cbn [fst snd dom].
  split; [reflexivity|]. intros n old I S. rewrite T in *.
  rewrite (refreshed_src (now w2) (thumbs w1) _ A2 n (stamped (now w1) old) I).
  - rewrite stamped_again. reflexivity.
  - apply refreshed_src; assumption.
Qed.

Lemma refresh_replaces_stamp_witness :
  src (dom (snd (refreshMetricsThumbnails
                   (Example.answering Rejected Rejected)
                   (snd (refreshMetricsThumbnails
                           {| object_url := None; detect := Rejected; iot := Rejected;
                              now := 42; thumbs := [Node 7; Node 8] |}
                           (start (Example.pageWith []))))))
         (Node 8))
  = Some [Lit "/static/metrics/f1.png"; Lit "?t=";
          Shown (VNum (of_Z 1700000000123))].
Proof.
  refine (proj2 (refresh_replaces_stamp
                   {| object_url := None; detect := Rejected; iot := Rejected;
                      now := 42; thumbs := [Node 7; Node 8] |}
                   (Example.answering Rejected Rejected)
                   (start (Example.pageWith [])) eq_refl _)
            (Node 8) [Lit "/static/metrics/f1.png?t=1700000000000"]
            (or_intror (or_introl eq_refl)) eq_refl).
  intros n [<-|[<-|[]]]; discriminate.
Defined.

(* ===================================================================== *)
(** ** The theme toggle and the image helper *)
(* ===================================================================== *)

Lemma inject_fixed d : Theme.toggles d <> [] -> Theme.injectThemeToggle d = d.
Proof.
  unfold Theme.injectThemeToggle. destruct (Theme.toggles d); [congruence|reflexivity].
Qed.

Lemma inject_result d : Theme.toggles (Theme.injectThemeToggle d) <> [].
Proof.
  unfold Theme.injectThemeToggle. destruct (Theme.toggles d) eqn:E; cbn.
  - discriminate.
  - rewrite E. discriminate.
Qed.

(** X23. [injectThemeToggle] adds the control at most once: any number of
    calls gives what one call gives.  A page that has no element with the
    toggle's id gets exactly one, with one click listener and the icon of the
    current theme; a page that has one is left as it is.  The class list of
    the body is never changed by injecting. *)
Theorem theme_toggle_injected_once d k :
  Nat.iter (S k) Theme.injectThemeToggle d = Theme.injectThemeToggle d /\
  Theme.classList (Theme.injectThemeToggle d) = Theme.classList d /\
  (Theme.toggles d <> [] -> Theme.injectThemeToggle d = d) /\
  (Theme.toggles d = [] ->
   exists t,
     Theme.toggles (Theme.injectThemeToggle d) = [t] /\
     Theme.wired t = 1%nat /\ Theme.title t = "Toggle theme" /\
     Theme.textContent t = (if Theme.light d then Theme.sun else Theme.moon)).
Proof.
  split; [|split; [|split]].
  - induction k as [|k IH]; [reflexivity|].
    rewrite Nat.iter_succ, IH. apply inject_fixed, inject_result.
  - unfold Theme.injectThemeToggle. destruct (Theme.toggles d); reflexivity.
  - apply inject_fixed.
  - intros E. unfold Theme.injectThemeToggle. rewrite E. cbn.
    eexists. repeat split.
Qed.

Lemma theme_toggle_injected_once_witness :
  exists t,
    Theme.toggles (Theme.injectThemeToggle
                     {| Theme.classList := ["page"; "light"]; Theme.toggles := [] |})
    = [t] /\ Theme.textContent t = Theme.sun.
Proof.
  destruct (proj2 (proj2 (proj2 (theme_toggle_injected_once
                                   {| Theme.classList := ["page"; "light"];
                                      Theme.toggles := [] |} 0)))
              eq_refl) as (t & T & _ & _ & X).
  exists t. split; [exact T | exact X].
Defined.

Lemma contains_filter c x cl :
  Theme.contains c (filter (fun y => negb (String.eqb x y)) cl)
  = Theme.contains c cl && negb (String.eqb x c).
Proof.
  unfold Theme.contains. induction cl as [|y cl IH]; cbn; [reflexivity|].
  destruct (String.eqb_spec x y) as [->|N]; cbn.
  - rewrite IH. destruct (String.eqb_spec c y) as [->|N'].
    + rewrite String.eqb_refl. cbn. rewrite andb_false_r. reflexivity.
    + reflexivity.
  - rewrite IH. destruct (String.eqb_spec c y) as [->|N'].
    + destruct (String.eqb_spec x y); [congruence|]. reflexivity.
    + reflexivity.
Qed.

Lemma contains_app c cl1 cl2 :
  Theme.contains c (cl1 ++ cl2) = Theme.contains c cl1 || Theme.contains c cl2.
Proof. unfold Theme.contains. apply existsb_app. Qed.

Lemma toggleClass_flips x cl :
  Theme.contains x (Theme.toggleClass x cl) = negb (Theme.contains x cl).
Proof.
  unfold Theme.toggleClass. destruct (Theme.contains x cl) eqn:E.
  - rewrite contains_filter, String.eqb_refl. apply andb_false_r.
  - rewrite contains_app, E. cbn. rewrite String.eqb_refl. reflexivity.
Qed.

Lemma toggleClass_others x c cl :
  c <> x -> Theme.contains c (Theme.toggleClass x cl) = Theme.contains c cl.
Proof.
  intros N. unfold Theme.toggleClass. destruct (Theme.contains x cl).
  - rewrite contains_filter. destruct (String.eqb_spec x c); [congruence|].
    apply andb_true_r.
  - rewrite contains_app. cbn. destruct (String.eqb_spec c x); [congruence|].
    rewrite !orb_false_r. reflexivity.
Qed.

(** X24. On a page where the script injected the control, every click flips
    the theme: after [n] clicks the body is light exactly when it was light
    before and [n] is even, or dark before and [n] is odd.  The control stays
    the only one and its icon always shows the current theme; no class other
    than [light] ever enters or leaves the body. *)
Theorem clicks_flip_the_theme d n :
  Theme.toggles d = [] ->
  Theme.light (Nat.iter n (Theme.click 0) (Theme.injectThemeToggle d))
  = (if Nat.even n then Theme.light d else negb (Theme.light d)) /\
  (exists t,
      Theme.toggles (Nat.iter n (Theme.click 0) (Theme.injectThemeToggle d)) = [t] /\
      Theme.wired t = 1%nat /\
      Theme.textContent t
      = (if Theme.light (Nat.iter n (Theme.click 0) (Theme.injectThemeToggle d))
         then Theme.sun else Theme.moon)) /\
  (forall c, c <> "light" ->
             Theme.contains c
               (Theme.classList (Nat.iter n (Theme.click 0) (Theme.injectThemeToggle d)))
             = Theme.contains c (Theme.classList d)).
Proof.
  intros E. induction n as [|n (L & (t & T & W & X) & O)].
  - unfold Theme.injectThemeToggle. rewrite E. cbn.
    split; [reflexivity|]. split; [|reflexivity].
    eexists. repeat split.
  - rewrite Nat.iter_succ.
    set (dn := Nat.iter n (Theme.click 0) (Theme.injectThemeToggle d)) in *.
    assert (C : Theme.click 0 dn = Theme.onToggle 0 dn).
    { unfold Theme.click. rewrite T. cbn. rewrite W. reflexivity. }
    rewrite C. unfold Theme.onToggle, Theme.light. cbn [Theme.classList Theme.toggles].
    rewrite T. cbn [firstn skipn app].
    split; [|split].
    + rewrite toggleClass_flips. unfold Theme.light in L. rewrite L.
      rewrite Nat.even_succ, <- Nat.negb_even.
      destruct (Nat.even n), (Theme.contains "light" (Theme.classList d)); reflexivity.
    + eexists. split; [reflexivity|]. split; [exact W|]. reflexivity.
    + intros c N. rewrite toggleClass_others by exact N. apply O. exact N.
Qed.

Lemma clicks_flip_the_theme_witness :
  Theme.light (Nat.iter 3 (Theme.click 0)
                 (Theme.injectThemeToggle
                    {| Theme.classList := ["page"]; Theme.toggles := [] |}))
  = true.
Proof.
  exact (proj1 (clicks_flip_the_theme
                  {| Theme.classList := ["page"]; Theme.toggles := [] |} 3 eq_refl)).
Defined.

(** X25. When the page already has an element with the toggle's id, the
    script registers no listener: injecting changes nothing, and a click on
    an element that carries no listener of the script, or on a position
    where there is none, leaves the theme and the icons as they are. *)
Theorem foreign_toggle_is_inert d i :
  Theme.toggles d <> [] ->
  (forall t, In t (Theme.toggles d) -> Theme.wired t = 0%nat) ->
  Theme.injectThemeToggle d = d /\
  Theme.click i (Theme.injectThemeToggle d) = d.
Proof.
  intros N W. rewrite (inject_fixed d N). split; [reflexivity|].
  unfold Theme.click. destruct (nth_error (Theme.toggles d) i) as [t|] eqn:E;
    [|reflexivity].
  rewrite (W t (nth_error_In _ _ E)). reflexivity.
Qed.

Lemma foreign_toggle_is_inert_witness :
  Theme.click 0
    (Theme.injectThemeToggle
       {| Theme.classList := [];
          Theme.toggles := [{| Theme.title := ""; Theme.style := [];
                               Theme.textContent := "theme"; Theme.wired := 0 |}] |})
  = {| Theme.classList := [];
       Theme.toggles := [{| Theme.title := ""; Theme.style := [];
                            Theme.textContent := "theme"; Theme.wired := 0 |}] |}.
Proof.
  refine (proj2 (foreign_toggle_is_inert _ 0 _ _)); [discriminate|].
  intros t [<-|[]]. reflexivity.
Defined.

(** X26. [showImg] writes only the [src] and the visibility of the element
    it is given, and nothing without an element.  A truthy source is set and
    shown; a falsy one hides the element and leaves its [src], so hiding
    after showing keeps the picture that was shown. *)
Theorem showImg_shows_or_hides n v s :
  fst (showImg (Some n) v s) = Done tt /\
  log (snd (showImg (Some n) v s)) = log s /\
  display (dom (snd (showImg (Some n) v s)) n) = (if truthy v then "block" else "none") /\
  src (dom (snd (showImg (Some n) v s)) n)
  = (if truthy v then Some [Shown v] else src (dom s n)) /\
  (forall m, m <> n -> dom (snd (showImg (Some n) v s)) m = dom s m) /\
  (forall m, innerHTML (dom (snd (showImg (Some n) v s)) m) = innerHTML (dom s m) /\
             disabled (dom (snd (showImg (Some n) v s)) m) = disabled (dom s m)) /\
  (forall u, truthy v = true -> truthy u = false ->
             src (dom (snd (showImg (Some n) u (snd (showImg (Some n) v s)))) n)
             = Some [Shown v] /\
             display (dom (snd (showImg (Some n) u (snd (showImg (Some n) v s)))) n)
             = "none") /\
  showImg None v s = (Done tt, s).
Proof.
  assert (G : forall v0 s0,
             showImg (Some n) v0 s0
             = (Done tt,
                {| dom := if truthy v0
                          then update n (with_display "block")
                                 (update n (with_src (Some [Shown v0])) (dom s0))
                          else update n (with_display "none") (dom s0);
                   log := log s0 |})).
  { intros v0 s0. unfold showImg, bind, set, modify.
    destruct (truthy v0); reflexivity. }
  rewrite !G. cbn [fst snd dom log].
  split; [reflexivity|]. split; [reflexivity|].
  split; [destruct (truthy v); rewrite update_same; reflexivity|].
  split.
  { destruct (truthy v).
    - rewrite (update_frame src) by (intro; reflexivity).
      rewrite update_same. reflexivity.
    - apply (update_frame src). intro. reflexivity. }
  split.
  { intros m N. destruct (truthy v); rewrite !update_other by exact N; reflexivity. }
  split.
  { intros m. destruct (truthy v); frame; split; reflexivity. }
  split; [|reflexivity].
  intros u Tv Tu. rewrite G, Tv, Tu. cbn [snd dom]. split.
  - rewrite !(update_frame src _ (with_display _)) by (intro; reflexivity).
    rewrite update_same. reflexivity.
  - rewrite update_same. reflexivity.
Qed.

Lemma showImg_shows_or_hides_witness :
  src (dom (snd (showImg (Some (Node 4)) VNull
                   (snd (showImg (Some (Node 4)) (VStr "/static/out/a.jpg")
                           (start (Example.pageWith [])))))) (Node 4))
  = Some [Shown (VStr "/static/out/a.jpg")].
Proof.
  exact (proj1 (proj1 (proj2 (proj2 (proj2 (proj2 (proj2 (proj2
           (showImg_shows_or_hides (Node 4) (VStr "/static/out/a.jpg")
              (start (Example.pageWith [])))))))))
           VNull eq_refl eq_refl)).
Defined.
